(** * MedMinder: the reminder scheduler, the daily reset and the record mutators

    A shallow embedding of the scheduling core of the application
    ([src/App.tsx], [src/hooks/useNotifications.ts], [src/types.ts]) and the
    properties of its specification that were checked against it.

    Conventions of the embedding.
    - React state cells ([medications], [notifiedIds], [appointments],
      [tooltip], [permission]) are the fields of one record, [AppState];
      every handler and timer callback is a function on that record.  The
      host's event loop runs callbacks one at a time, and every effect that
      owns a timer lists the state it reads among its dependencies, so a
      callback always sees the current cells.
    - A JavaScript [Set] of ids that is only ever queried with [has] is a
      [gset string].
    - Time values are integers (milliseconds since the epoch, as
      [Date.prototype.getTime] returns them).  The local zone is a fixed
      offset [tz]; daylight-saving transitions, the [TimeClip] range check
      and the rounding of doubles are outside the model.
    - An invalid [Date] or a [NaN] is [None]; every comparison with it is
      [false], as in JavaScript.
    - [new Notification(..)] is a call into the host, which either returns
      or throws; handlers therefore live in a small state, writer and
      exception monad, [Handler], whose log is the sequence of observable
      events. *)

From Stdlib Require Import ZArith Ascii String List Bool Lia Sorted.
From stdpp Require Import base decidable option list strings gmap.

#[local] Set Warnings "-clear-no-such-hyp".

Local Open Scope string_scope.
Local Open Scope list_scope.
Local Open Scope Z_scope.

(** ** The records of [src/types.ts] *)

Record Medication := mkMedication {
  med_id : string;
  med_name : string;
  med_dosage : string;
  med_time : string;      (* HH:MM format *)
  med_isTaken : bool
}.

Record Appointment := mkAppointment {
  appt_id : string;
  appt_date : string;     (* YYYY-MM-DD *)
  appt_time : string;     (* HH:MM *)
  appt_specialty : string;
  appt_location : string;
  appt_notified : bool
}.

Record JournalEntry := mkJournalEntry {
  je_id : string;
  je_date : string;
  je_content : string
}.

Record ArchivedFile := mkArchivedFile {
  af_id : string;
  af_name : string;
  af_mimeType : string;
  af_dataUrl : string
}.

(** ** The fragments of the JavaScript library the handlers call *)

Module JS.

(** [s.split(sep)] for a one-character separator. *)
Fixpoint split (sep : ascii) (s : string) : list string :=
  match s with
  | EmptyString => [EmptyString]
  | String c rest =>
      if Ascii.eqb c sep then EmptyString :: split sep rest
      else match split sep rest with
           | w :: ws => String c w :: ws
           | [] => [String c EmptyString]
           end
  end.

Definition digit (c : ascii) : option Z :=
  let n := Z.of_N (N_of_ascii c) in
  if (48 <=? n) && (n <=? 57) then Some (n - 48) else None.

Fixpoint digits (acc : Z) (s : string) : option Z :=
  match s with
  | EmptyString => Some acc
  | String c rest =>
      match digit c with
      | Some d => digits (10 * acc + d) rest
      | None => None
      end
  end.

(** [Number(s)] on the strings the application's inputs produce: a run of
    decimal digits, the empty run being [0].  Signs, white space,
    fractions, exponents and radix prefixes are not covered; they yield
    [None] here, and no statement below is made about them. *)
Definition Number (s : string) : option Z := digits 0 s.

Definition msPerSecond : Z := 1000.
Definition msPerMinute : Z := 60000.
Definition msPerHour : Z := 3600000.
Definition msPerDay : Z := 86400000.

Definition Day (t : Z) : Z := t / msPerDay.
Definition TimeWithinDay (t : Z) : Z := t mod msPerDay.

Definition MakeTime (hour min sec ms : Z) : Z :=
  hour * msPerHour + min * msPerMinute + sec * msPerSecond + ms.

Definition MakeDate (day time : Z) : Z := day * msPerDay + time.

Definition DayFromYear (y : Z) : Z :=
  365 * (y - 1970) + (y - 1969) / 4 - (y - 1901) / 100 + (y - 1601) / 400.

Definition InLeapYear (y : Z) : bool :=
  if negb (y mod 4 =? 0) then false
  else if negb (y mod 100 =? 0) then true
  else (y mod 400 =? 0).

(** Day number, within its year, of the first day of month [m] (1..12). *)
Definition monthStart (leap : bool) (m : Z) : Z :=
  let l := if leap then 1 else 0 in
  match m with
  | 1 => 0 | 2 => 31 | 3 => 59 + l | 4 => 90 + l | 5 => 120 + l
  | 6 => 151 + l | 7 => 181 + l | 8 => 212 + l | 9 => 243 + l
  | 10 => 273 + l | 11 => 304 + l | _ => 334 + l
  end.

Definition daysInMonth (leap : bool) (m : Z) : Z :=
  match m with
  | 2 => if leap then 29 else 28
  | 4 | 6 | 9 | 11 => 30
  | _ => 31
  end.

(** [MakeDay] for a calendar year, a month in 1..12 and a day of month. *)
Definition MakeDay (y m d : Z) : Z :=
  DayFromYear y + monthStart (InLeapYear y) m + d - 1.

Definition field (n : nat) (s : string) : option Z :=
  if decide (String.length s = n) then Number s else None.

(** The local time value denoted by a date-time string of the form
    [YYYY-MM-DDTHH:mm].  Field values out of range make the date invalid.
    Other shapes go to the engine's own fallback parser and are not
    covered: they are [None] here. *)
Definition parseLocal (s : string) : option Z :=
  match split "T" s with
  | [d; tm] =>
      match split "-" d, split ":" tm with
      | [ys; ms; ds], [hs; mins] =>
          match field 4 ys, field 2 ms, field 2 ds,
                field 2 hs, field 2 mins with
          | Some y, Some mo, Some dd, Some h, Some mi =>
              if (1 <=? mo) && (mo <=? 12) && (1 <=? dd)
                 && (dd <=? daysInMonth (InLeapYear y) mo)
                 && (h <=? 23) && (mi <=? 59)
              then Some (MakeDate (MakeDay y mo dd) (MakeTime h mi 0 0))
              else None
          | _, _, _, _, _ => None
          end
      | _, _ => None
      end
  | _ => None
  end.

Section Zone.
(** Local time minus UTC, in milliseconds. *)
Variable tz : Z.

Definition LocalTime (t : Z) : Z := t + tz.
Definition UTC (t : Z) : Z := t - tz.

(** [d.setHours(hour, min, sec, ms)]: the new time value of [d]. *)
Definition setHours (t : Z) (hour min sec ms : option Z) : option Z :=
  match hour, min, sec, ms with
  | Some h, Some m, Some s, Some milli =>
      Some (UTC (MakeDate (Day (LocalTime t)) (MakeTime h m s milli)))
  | _, _, _, _ => None
  end.

(** [new Date(s).getTime()] for a date-time string without offset, which
    is read as local time. *)
Definition parseDate (s : string) : option Z := UTC <$> parseLocal s.

End Zone.

(** [a > b] and [a <= b] on time values, either of which may be [NaN]. *)
Definition gt (a b : option Z) : bool :=
  match a, b with Some x, Some y => y <? x | _, _ => false end.
Definition le (a b : option Z) : bool :=
  match a, b with Some x, Some y => x <=? y | _, _ => false end.

End JS.


(** ** Observable events and the handler monad *)

Record NotificationOptions := mkOptions {
  opt_body : string;
  opt_requireInteraction : bool
}.

(** [NotificationPermission] of the DOM library.  A host without the
    [Notification] interface never leaves ['default'] (the hook's initial
    state), so the specification's "unsupported" is [perm_default] on an
    unsupported host. *)
Inductive NotificationPermission := perm_default | perm_denied | perm_granted.

#[global] Instance NotificationPermission_eq_dec : EqDecision NotificationPermission.
Proof. solve_decision. Defined.

(** The record a timer callback is visiting, named by its id. *)
Inductive Subject :=
| OfMedication (id : string)
| OfAppointment (id : string).

(** What can be seen from outside a handler.
    - [ObsShow subject title options]: a timer callback called
      [showNotification title options] while visiting [subject] (a label
      of the trace, the call does not carry it);
    - [ObsNotification title options]: [new Notification(title, options)]
      returned, the host has the notification;
    - [ObsConsole msg]: a line on the console. *)
Inductive Obs :=
| ObsShow (subject : Subject) (title : string) (options : NotificationOptions)
| ObsNotification (title : string) (options : NotificationOptions)
| ObsConsole (msg : string).

(** The host side of the gateway. *)
Record Host := mkHost {
  (** ['Notification' in window] *)
  host_supported : bool;
  (** [Notification.permission] *)
  host_permission : NotificationPermission;
  (** whether [new Notification(title, options)] returns ([true]) or
      throws ([false]) *)
  host_construct : string -> NotificationOptions -> bool;
  (** what [Notification.requestPermission()] resolves to, or [None] when
      the promise is rejected *)
  host_request : option NotificationPermission
}.

Record Tooltip := mkTooltip {
  tip_medId : option string;
  tip_content : string;
  tip_isLoading : bool
}.

(** The state cells of the [App] component and of [useNotifications]. *)
Record AppState := mkState {
  medications : list Medication;
  notifiedIds : gset string;
  showPermissionBanner : bool;
  journalEntries : list JournalEntry;
  appointments : list Appointment;
  archivedFiles : list ArchivedFile;
  tooltip : Tooltip;
  permission : NotificationPermission
}.

Inductive Completion (A : Type) :=
| Normal (a : A)
| Throw.
Arguments Normal {A} a.
Arguments Throw {A}.

(** A handler reads and updates the state cells, emits observable events
    and either returns or throws.  Updates made before a throw stay. *)
Definition Handler (A : Type) : Type :=
  AppState -> AppState * list Obs * Completion A.

#[global] Instance handler_ret : MRet Handler :=
  fun A (a : A) s => (s, [], Normal a).

#[global] Instance handler_bind : MBind Handler :=
  fun A B (k : A -> Handler B) (m : Handler A) s =>
    match m s with
    | (s1, o1, Normal a) =>
        match k a s1 with
        | (s2, o2, r) => (s2, o1 ++ o2, r)
        end
    | (s1, o1, Throw) => (s1, o1, Throw)
    end.

(** [try { m } catch (error) { h }] *)
Definition try_catch {A} (m : Handler A) (h : Handler A) : Handler A :=
  fun s =>
    match m s with
    | (s1, o1, Normal a) => (s1, o1, Normal a)
    | (s1, o1, Throw) =>
        match h s1 with
        | (s2, o2, r) => (s2, o1 ++ o2, r)
        end
    end.

Definition get : Handler AppState := fun s => (s, [], Normal s).
Definition tell (o : list Obs) : Handler unit := fun s => (s, o, Normal tt).
Definition throw {A} : Handler A := fun s => (s, [], Throw).
Definition when (b : bool) (m : Handler unit) : Handler unit :=
  if b then m else mret tt.

(** [l.forEach(f)] *)
Fixpoint forEach {A} (f : A -> Handler unit) (l : list A) : Handler unit :=
  match l with
  | [] => mret tt
  | x :: l' => f x;; forEach f l'
  end.

Definition console (msg : string) : Handler unit := tell [ObsConsole msg].

(** The state setters, in their functional form [setX(prev => ..)]. *)
Definition setMedications (f : list Medication -> list Medication) : Handler unit :=
  fun s => (mkState (f (medications s)) (notifiedIds s) (showPermissionBanner s)
              (journalEntries s) (appointments s) (archivedFiles s)
              (tooltip s) (permission s), [], Normal tt).
Definition setNotifiedIds (f : gset string -> gset string) : Handler unit :=
  fun s => (mkState (medications s) (f (notifiedIds s)) (showPermissionBanner s)
              (journalEntries s) (appointments s) (archivedFiles s)
              (tooltip s) (permission s), [], Normal tt).
Definition setShowPermissionBanner (b : bool) : Handler unit :=
  fun s => (mkState (medications s) (notifiedIds s) b
              (journalEntries s) (appointments s) (archivedFiles s)
              (tooltip s) (permission s), [], Normal tt).
Definition setJournalEntries (f : list JournalEntry -> list JournalEntry)
  : Handler unit :=
  fun s => (mkState (medications s) (notifiedIds s) (showPermissionBanner s)
              (f (journalEntries s)) (appointments s) (archivedFiles s)
              (tooltip s) (permission s), [], Normal tt).
Definition setAppointments (f : list Appointment -> list Appointment) : Handler unit :=
  fun s => (mkState (medications s) (notifiedIds s) (showPermissionBanner s)
              (journalEntries s) (f (appointments s)) (archivedFiles s)
              (tooltip s) (permission s), [], Normal tt).
Definition setArchivedFiles (f : list ArchivedFile -> list ArchivedFile)
  : Handler unit :=
  fun s => (mkState (medications s) (notifiedIds s) (showPermissionBanner s)
              (journalEntries s) (appointments s) (f (archivedFiles s))
              (tooltip s) (permission s), [], Normal tt).
Definition setTooltip (t : Tooltip) : Handler unit :=
  fun s => (mkState (medications s) (notifiedIds s) (showPermissionBanner s)
              (journalEntries s) (appointments s) (archivedFiles s)
              t (permission s), [], Normal tt).
Definition setPermission (p : NotificationPermission) : Handler unit :=
  fun s => (mkState (medications s) (notifiedIds s) (showPermissionBanner s)
              (journalEntries s) (appointments s) (archivedFiles s)
              (tooltip s) p, [], Normal tt).

(** The state of a freshly mounted component ([useState] initial values). *)
Definition initialState : AppState :=
  mkState [] ∅ false [] [] [] (mkTooltip None "" false) perm_default.

(** ** [src/hooks/useNotifications.ts] *)

Section Gateway.
Variable host : Host.

(** The mount effect of the hook. *)
Definition mountNotifications : Handler unit :=
  when (host_supported host) (setPermission (host_permission host)).

Definition requestPermission : Handler unit :=
  if negb (host_supported host) then
    console "Este navegador no soporta notificaciones de escritorio."
  else
    try_catch
      (match host_request host with
       | Some status => setPermission status
       | None => throw
       end)
      (console "Error requesting notification permission:").

Definition showNotification (title : string) (options : NotificationOptions)
  : Handler unit :=
  s ← get;
  if decide (permission s = perm_granted) then
    if host_construct host title options
    then tell [ObsNotification title options]
    else throw
  else mret tt.

(** A call of [showNotification] from a timer callback, with its label in
    the trace. *)
Definition notify (subject : Subject) (title : string)
    (options : NotificationOptions) : Handler unit :=
  tell [ObsShow subject title options];;
  showNotification title options.

(** Whether the host's constructor returns for every element of [l]. *)
Definition constructs {A} (title : string) (options : A -> NotificationOptions)
    (l : list A) : bool :=
  forallb (fun x => host_construct host title (options x)) l.

End Gateway.

(** The trace of a [forEach] loop of [notify] calls that all return. *)
Definition notifyTrace {A} (subject : A -> Subject) (title : string)
    (options : A -> NotificationOptions) (l : list A) : list Obs :=
  l ≫= (fun x => [ObsShow (subject x) title (options x);
                  ObsNotification title (options x)]).

(** ** [src/App.tsx]: persistence *)

(** What [localStorage.getItem(key)] holds, seen through the test
    [if (stored)] and [JSON.parse(stored)]: a string on which [JSON.parse]
    throws, or one it parses to a value.  The parsed value is taken at the
    type the component gives it. *)
Inductive Blob (A : Type) :=
| Corrupt
| Json (v : A).
Arguments Corrupt {A}.
Arguments Json {A} v.

(** The four keys; [None] is a key that is absent (or holds the empty
    string, which the test [if (stored)] treats alike). *)
Record Storage := mkStorage {
  key_medications : option (Blob (list Medication));
  key_journalEntries : option (Blob (list JournalEntry));
  key_archivedFiles : option (Blob (list ArchivedFile));
  key_appointments : option (Blob (list Appointment))
}.

Definition JSON_parse {A} (b : Blob A) : Handler A :=
  match b with
  | Json v => mret v
  | Corrupt => throw
  end.

(** The effect "Load data from localStorage on initial render". *)
Definition loadData (st : Storage) : Handler unit :=
  try_catch
    (let storedMeds := key_medications st in
     match storedMeds with
     | Some b => v ← JSON_parse b; setMedications (fun _ => v)
     | None => mret tt
     end;;
     s ← get;
     match storedMeds with
     | Some b =>
         if decide (permission s = perm_default) then
           v ← JSON_parse b;
           when (0 <? Z.of_nat (length v)) (setShowPermissionBanner true)
         else mret tt
     | None => mret tt
     end;;
     match key_journalEntries st with
     | Some b => v ← JSON_parse b; setJournalEntries (fun _ => v)
     | None => mret tt
     end;;
     match key_archivedFiles st with
     | Some b => v ← JSON_parse b; setArchivedFiles (fun _ => v)
     | None => mret tt
     end;;
     match key_appointments st with
     | Some b => v ← JSON_parse b; setAppointments (fun _ => v)
     | None => mret tt
     end)
    (console "Failed to load data from localStorage").

(** What a key contributes to its cell when the load reaches it, and
    whether the load gets past it. *)
Definition stored {A} (k : option (Blob A)) (current : A) : A :=
  match k with
  | Some (Json v) => v
  | _ => current
  end.

Definition readable {A} (k : option (Blob A)) : bool :=
  match k with
  | Some Corrupt => false
  | _ => true
  end.

(** ** [src/App.tsx]: reminder logic *)

Definition withTaken (b : bool) (med : Medication) : Medication :=
  mkMedication (med_id med) (med_name med) (med_dosage med) (med_time med) b.

Definition withNotified (b : bool) (appt : Appointment) : Appointment :=
  mkAppointment (appt_id appt) (appt_date appt) (appt_time appt)
    (appt_specialty appt) (appt_location appt) b.

(** The callback of the daily reset timer (the timer itself, which
    re-arms for five seconds past the next local midnight, is not part of
    the state). *)
Definition dailyReset : Handler unit :=
  console "Resetting medications for the new day.";;
  setMedications (fun currentMeds => map (withTaken false) currentMeds);;
  setNotifiedIds (fun _ => ∅).

Section Clock.
(** The zone offset and the host are fixed for a session. *)
Variable tz : Z.
Variable host : Host.

(** [isMedicationDue]; [now] is the value of [new Date()] in the body. *)
Definition isMedicationDue (now : Z) (med : Medication) : bool :=
  if med_isTaken med then false
  else
    let parts := JS.Number <$> JS.split ":" (med_time med) in
    let hours := mjoin (parts !! 0%nat) in
    let minutes := mjoin (parts !! 1%nat) in
    let medTime := JS.setHours tz now hours minutes (Some 0) (Some 0) in
    JS.gt (Some now) medTime.

Definition medicationTitle : string := "⏰ ¡Hora de tu remedio!".

Definition medicationOptions (med : Medication) : NotificationOptions :=
  mkOptions
    ("Es momento de tomar: " +:+ med_name med +:+ " " +:+
       (if decide (med_dosage med = "") then ""
        else "(" +:+ med_dosage med +:+ ")"))
    true.

(** [dueMeds] of the interval callback, for the cells of [s]. *)
Definition dueMedications (now : Z) (s : AppState) : list Medication :=
  List.filter
    (fun med => isMedicationDue now med
                && negb (bool_decide (med_id med ∈ notifiedIds s)))
    (medications s).

(** The body of the 30-second interval. *)
Definition medicationTick (now : Z) : Handler unit :=
  s ← get;
  let dueMeds := dueMedications now s in
  when (0 <? Z.of_nat (length dueMeds))
    (forEach
       (fun med =>
          notify host (OfMedication (med_id med)) medicationTitle
            (medicationOptions med))
       dueMeds;;
     setNotifiedIds (fun prev => prev ∪ list_to_set (med_id <$> dueMeds))).

(** The effect installs the interval only when permission is granted. *)
Definition medicationPoll (now : Z) : Handler unit :=
  s ← get;
  if decide (permission s = perm_granted) then medicationTick now else mret tt.

Definition addMedication (id name dosage time : string) : Handler unit :=
  if negb (bool_decide (name = "")) && negb (bool_decide (time = "")) then
    setMedications (fun medications =>
                      medications ++ [mkMedication id name dosage time false]);;
    s ← get;
    when (bool_decide (permission s = perm_default)) (setShowPermissionBanner true)
  else mret tt.

Definition toggleMedicationTaken (id : string) : Handler unit :=
  setMedications (fun meds =>
    map (fun med => if decide (med_id med = id)
                    then withTaken (negb (med_isTaken med)) med
                    else med) meds).

Definition handleCloseTooltip : Handler unit :=
  setTooltip (mkTooltip None "" false).

Definition deleteMedication (id : string) : Handler unit :=
  setMedications (fun meds =>
    List.filter (fun med => negb (bool_decide (med_id med = id))) meds);;
  s ← get;
  when (bool_decide (tip_medId (tooltip s) = Some id)) handleCloseTooltip.

(** ** [src/App.tsx]: appointments *)

(** The filter callback of the appointment interval. *)
Definition isAppointmentUpcoming (now : Z) (appt : Appointment) : bool :=
  let twentyFourHoursFromNow := now + 24 * 60 * 60 * 1000 in
  if appt_notified appt then false
  else
    let apptDateTime :=
      JS.parseDate tz (appt_date appt +:+ "T" +:+ appt_time appt) in
    JS.gt apptDateTime (Some now)
    && JS.le apptDateTime (Some twentyFourHoursFromNow).

Definition appointmentTitle : string := "🗓️ Recordatorio de Turno".

Definition appointmentOptions (appt : Appointment) : NotificationOptions :=
  mkOptions
    ("Mañana tienes un turno de " +:+ appt_specialty appt +:+ " a las "
       +:+ appt_time appt +:+ ".")
    true.

(** [upcomingAppointments] of the interval callback, for the cells of [s]. *)
Definition upcoming (now : Z) (s : AppState) : list Appointment :=
  List.filter (isAppointmentUpcoming now) (appointments s).

(** The targeted update of the flags: [prev.map(appt => ..find(..) ? .. : ..)]. *)
Definition markNotified (upcomingAppointments prev : list Appointment)
  : list Appointment :=
  map (fun appt =>
         match List.find (fun up => bool_decide (appt_id up = appt_id appt))
                 upcomingAppointments with
         | Some _ => withNotified true appt
         | None => appt
         end) prev.

(** The body of the 5-minute interval. *)
Definition appointmentTick (now : Z) : Handler unit :=
  s ← get;
  let upcomingAppointments := upcoming now s in
  when (0 <? Z.of_nat (length upcomingAppointments))
    (forEach
       (fun appt =>
          notify host (OfAppointment (appt_id appt)) appointmentTitle
            (appointmentOptions appt))
       upcomingAppointments;;
     setAppointments (fun prev => markNotified upcomingAppointments prev)).

Definition appointmentPoll (now : Z) : Handler unit :=
  s ← get;
  if decide (permission s = perm_granted) then appointmentTick now else mret tt.

Definition addAppointment (id date time specialty location : string)
  : Handler unit :=
  if negb (bool_decide (date = "")) && negb (bool_decide (time = ""))
     && negb (bool_decide (specialty = "")) && negb (bool_decide (location = ""))
  then setAppointments (fun prev =>
         prev ++ [mkAppointment id date time specialty location false])
  else mret tt.

Definition deleteAppointment (id : string) : Handler unit :=
  setAppointments (fun prev =>
    List.filter (fun appt => negb (bool_decide (appt_id appt = id))) prev).

(** ** The session as a transition system *)

(** What the event loop can run next: a timer firing (with the clock
    reading at that moment) or a user action.  For the two "add" actions
    [id] is the value [generateId()] returned. *)
Inductive Event :=
| EvMedicationTick (now : Z)
| EvAppointmentTick (now : Z)
| EvDailyReset
| EvAddMedication (id name dosage time : string)
| EvToggleMedication (id : string)
| EvDeleteMedication (id : string)
| EvAddAppointment (id date time specialty location : string)
| EvDeleteAppointment (id : string)
| EvRequestPermission.

Definition handler (e : Event) : Handler unit :=
  match e with
  | EvMedicationTick now => medicationPoll now
  | EvAppointmentTick now => appointmentPoll now
  | EvDailyReset => dailyReset
  | EvAddMedication id name dosage time => addMedication id name dosage time
  | EvToggleMedication id => toggleMedicationTaken id
  | EvDeleteMedication id => deleteMedication id
  | EvAddAppointment id date time specialty location =>
      addAppointment id date time specialty location
  | EvDeleteAppointment id => deleteAppointment id
  | EvRequestPermission => requestPermission host
  end.

(** One turn of the event loop.  An exception that escapes a callback is
    reported by the host and the loop goes on: the state keeps the updates
    made so far, and the trace what was observed. *)
Definition step (e : Event) (s : AppState) : AppState * list Obs :=
  fst (handler e s).

Fixpoint run (es : list Event) (s : AppState) : AppState * list Obs :=
  match es with
  | [] => (s, [])
  | e :: es' =>
      let '(s1, o1) := step e s in
      let '(s2, o2) := run es' s1 in
      (s2, o1 ++ o2)
  end.

(** Whether every callback of the run returned. *)
Fixpoint completes (es : list Event) (s : AppState) : bool :=
  match es with
  | [] => true
  | e :: es' =>
      match handler e s with
      | (s1, _, Normal _) => completes es' s1
      | (_, _, Throw) => false
      end
  end.

End Clock.

(** The medication ids, and the appointment ids, for which the trace
    records a call of [showNotification]. *)
Definition shownMedications (tr : list Obs) : list string :=
  omap (fun o => match o with
                 | ObsShow (OfMedication id) _ _ => Some id
                 | _ => None
                 end) tr.

Definition shownAppointments (tr : list Obs) : list string :=
  omap (fun o => match o with
                 | ObsShow (OfAppointment id) _ _ => Some id
                 | _ => None
                 end) tr.

(** The notifications the host displayed. *)
Definition displayed (tr : list Obs) : list (string * NotificationOptions) :=
  omap (fun o => match o with
                 | ObsNotification t op => Some (t, op)
                 | _ => None
                 end) tr.

Definition isReset (e : Event) : bool :=
  match e with EvDailyReset => true | _ => false end.

(** The ids handed out by [generateId()] to the "add" actions of a run. *)
Definition addedMedications (es : list Event) : list string :=
  omap (fun e => match e with
                 | EvAddMedication id _ _ _ => Some id
                 | _ => None
                 end) es.

Definition addedAppointments (es : list Event) : list string :=
  omap (fun e => match e with
                 | EvAddAppointment id _ _ _ _ => Some id
                 | _ => None
                 end) es.

(** Every record of [l] under the id [x] has its flag set. *)
Definition flagged (x : string) (l : list Appointment) : Prop :=
  forall appt, appt ∈ l -> appt_id appt = x -> appt_notified appt = true.

(** The rendering of an hour and a minute by an [<input type="time">]. *)
Definition twoDigits (n : Z) : string :=
  String (ascii_of_N (Z.to_N (48 + n / 10)))
    (String (ascii_of_N (Z.to_N (48 + n mod 10))) EmptyString).

Definition HHMM (h m : Z) : string := twoDigits h +:+ ":" +:+ twoDigits m.

(** ** Sample hosts, records and runs *)

Definition plainHost : Host :=
  mkHost true perm_granted (fun _ _ => true) (Some perm_granted).

(** A host on which the [Notification] constructor is not usable. *)
Definition throwingHost : Host :=
  mkHost true perm_granted (fun _ _ => false) (Some perm_granted).

(** A host without the [Notification] interface. *)
Definition bareHost : Host :=
  mkHost false perm_default (fun _ _ => false) None.

Definition aspirin : Medication := mkMedication "m1" "Aspirina" "100mg" "09:00" false.
Definition ibuprofen : Medication := mkMedication "m2" "Ibuprofeno" "" "21:30" false.

Definition entry1 : JournalEntry := mkJournalEntry "j1" "2024-01-01T08:00:00.000Z" "ok".
Definition file1 : ArchivedFile :=
  mkArchivedFile "f1" "receta.pdf" "application/pdf" "data:".
Definition turno : Appointment :=
  mkAppointment "a1" "2024-01-02" "09:59" "Cardiologia" "Sala 2" false.

(** A store whose first key does not parse and whose other keys do. *)
Definition corruptMedications : Storage :=
  mkStorage (Some Corrupt) (Some (Json [entry1])) (Some (Json [file1]))
    (Some (Json [turno])).

(** A day: a tick at 10:00, a toggle, a second tick, the toggle undone, a
    new medication, a tick at 22:00, a delete and a last tick (zone UTC,
    day 0). *)
Definition sampleDay : list Event :=
  [EvMedicationTick 36000000; EvToggleMedication "m2";
   EvMedicationTick 36030000; EvToggleMedication "m2";
   EvAddMedication "m3" "Vitamina D" "" "08:00";
   EvMedicationTick 79200000; EvDeleteMedication "m1";
   EvMedicationTick 79230000].

(** A session with an appointment already notified and one that is not,
    and two ticks on the eve of both (zone UTC). *)
Definition control : Appointment :=
  mkAppointment "a2" "2024-01-02" "09:00" "Clinica" "Sala 1" true.

Definition agendaState : AppState :=
  mkState [] ∅ false [] [control; turno] [] (mkTooltip None "" false)
    perm_granted.

Definition eve : list Event :=
  [EvAppointmentTick 1704103200000; EvAppointmentTick 1704103500000].

Definition grantedState : AppState :=
  mkState [aspirin; ibuprofen] ∅ false [] [] [] (mkTooltip None "" false)
    perm_granted.

(** Three ticks of a morning and two of a night (zone UTC, day 0), and a
    host whose constructor throws for one notification only. *)
Definition morningTicks : list Event :=
  [EvMedicationTick 36000000; EvMedicationTick 36030000;
   EvMedicationTick 36060000].

Definition nightTicks : list Event :=
  [EvMedicationTick 79200000; EvMedicationTick 79230000].

Definition pickyHost : Host :=
  mkHost true perm_granted
    (fun _ options =>
       negb (bool_decide (opt_body options
                          = opt_body (medicationOptions ibuprofen))))
    (Some perm_granted).


(** ** [src/App.tsx]: the daily reset timer *)

(** The calendar date (year, month 1..12, day of month) of a day of the
    400-year cycle that starts on 1 March of a year divisible by 400, the
    year counted from that cycle's first year. *)
Definition civilOfEra (doe : Z) : Z * Z * Z :=
  let yoe := (doe - doe / 1460 + doe / 36524 - doe / 146096) / 365 in
  let doy := doe - (365 * yoe + yoe / 4 - yoe / 100) in
  let mp := (5 * doy + 2) / 153 in
  let d := doy - (153 * mp + 2) / 5 + 1 in
  let m := if mp <? 10 then mp + 3 else mp - 9 in
  (yoe + (if m <=? 2 then 1 else 0), m, d).

(** The calendar date of a day number (days since 1970-01-01). *)
Definition civil (day : Z) : Z * Z * Z :=
  let z := day + 719468 in
  match civilOfEra (z mod 146097) with
  | (y, m, d) => (y + 400 * (z / 146097), m, d)
  end.

Section LocalDate.
Variable tz : Z.

(** [d.getFullYear()], [d.getMonth()] (0..11) and [d.getDate()]. *)
Definition getFullYear (t : Z) : Z := (civil (JS.Day (JS.LocalTime tz t))).1.1.
Definition getMonth (t : Z) : Z := (civil (JS.Day (JS.LocalTime tz t))).1.2 - 1.
Definition getDate (t : Z) : Z := (civil (JS.Day (JS.LocalTime tz t))).2.

(** [new Date(year, month, date, hours, minutes, seconds).getTime()]: the
    fields are local time; a year in 0..99 stands for 1900 + year; a month
    or a date out of range carries over. *)
Definition newDate (year month date hours minutes seconds : Z) : Z :=
  let yr := if (0 <=? year) && (year <=? 99) then 1900 + year else year in
  let ym := yr + month / 12 in
  let mn := month mod 12 in
  JS.UTC tz (JS.MakeDate (JS.MakeDay ym (mn + 1) date)
               (JS.MakeTime hours minutes seconds 0)).

(** [midnight] and [msUntilMidnight] of [setDailyResetTimer], for the
    clock reading [now]. *)
Definition midnight (now : Z) : Z :=
  newDate (getFullYear now) (getMonth now) (getDate now + 1) 0 0 5.

Definition msUntilMidnight (now : Z) : Z := midnight now - now.

End LocalDate.

(** The check behind the calendar: on one day of the cycle, [civilOfEra]
    gives a date that exists and that [JS.MakeDay] maps back to the day. *)
Definition civilOfEra_ok (doe : Z) : bool :=
  match civilOfEra doe with
  | (y, m, d) =>
      (JS.MakeDay y m d =? doe - 719468)
      && (0 <=? y) && (y <=? 400) && (1 <=? m) && (m <=? 12) && (1 <=? d)
      && (d <=? JS.daysInMonth (JS.InLeapYear y) m)
  end.

Fixpoint civilOfEra_okFrom (n : nat) (doe : Z) : bool :=
  match n with
  | O => true
  | S n' => civilOfEra_ok doe && civilOfEra_okFrom n' (doe + 1)
  end.

(** ** [src/App.tsx]: the permission banner *)

(** The [onClick] of the banner's button:
    [async () => { await requestPermission(); setShowPermissionBanner(false); }]. *)
Definition enableNotifications (host : Host) : Handler unit :=
  requestPermission host;;
  setShowPermissionBanner false.

(** ** Vocabulary of the further properties *)



Definition isRequest (e : Event) : bool :=
  match e with EvRequestPermission => true | _ => false end.

(** Whether a time string has a [':']. *)
Fixpoint hasColon (s : string) : bool :=
  match s with
  | EmptyString => false
  | String c rest => Ascii.eqb c ":" || hasColon rest
  end.

(** ** [src/App.tsx]: the list of appointments *)

(** [new Date(s).getTime()] for the date-only form [YYYY-MM-DD], which is
    read as UTC.  Other shapes are not covered: they are [None] here. *)
Definition parseDateOnly (s : string) : option Z :=
  match JS.split "-" s with
  | [ys; ms; ds] =>
      match JS.field 4 ys, JS.field 2 ms, JS.field 2 ds with
      | Some y, Some mo, Some dd =>
          if (1 <=? mo) && (mo <=? 12) && (1 <=? dd)
             && (dd <=? JS.daysInMonth (JS.InLeapYear y) mo)
          then Some (JS.MakeDate (JS.MakeDay y mo dd) 0)
          else None
      | _, _, _ => None
      end
  | _ => None
  end.

(** The filter callback of [sortedAppointments]
    ([new Date(appt.date) >= now], with [now] moved to the start of the
    local day by [setHours(0,0,0,0)]). *)
Definition isNotPast (tz now : Z) (appt : Appointment) : bool :=
  let startOfToday := JS.setHours tz now (Some 0) (Some 0) (Some 0) (Some 0) in
  JS.le startOfToday (parseDateOnly (appt_date appt)).

(** The comparator of the sort, [dateA - dateB], as its sign; a [NaN]
    difference counts as zero. *)
Definition instant (tz : Z) (appt : Appointment) : option Z :=
  JS.parseDate tz (appt_date appt +:+ "T" +:+ appt_time appt).

Definition notAfter (tz : Z) (a b : Appointment) : bool :=
  match instant tz a, instant tz b with
  | Some x, Some y => x <=? y
  | _, _ => true
  end.

(** [l.sort(cmp)]: the sort is stable, so for a comparator that is a total
    preorder on [l] its result is the one of a stable insertion sort;
    with invalid dates in [l] the comparator is not one and the order is
    up to the engine. *)
Fixpoint insertSorted {A} (le : A -> A -> bool) (x : A) (l : list A) : list A :=
  match l with
  | [] => [x]
  | y :: l' => if le x y then x :: y :: l' else y :: insertSorted le x l'
  end.

Definition stableSort {A} (le : A -> A -> bool) (l : list A) : list A :=
  foldr (insertSorted le) [] l.

Definition sortedAppointments (tz now : Z) (appts : list Appointment)
  : list Appointment :=
  stableSort (notAfter tz) (List.filter (isNotPast tz now) appts).

(** ** [src/App.tsx]: saving to the persistent store *)

(** Whether [localStorage.setItem] takes the serialized collection, given
    what the store holds; it throws when the quota is exceeded. *)
Record Quota := mkQuota {
  takes_medications : Storage -> list Medication -> bool;
  takes_journalEntries : Storage -> list JournalEntry -> bool;
  takes_archivedFiles : Storage -> list ArchivedFile -> bool;
  takes_appointments : Storage -> list Appointment -> bool
}.

(** The four save effects; each returns the store and its console lines. *)
Definition saveMedications (q : Quota) (s : AppState) (st : Storage)
  : Storage * list Obs :=
  if takes_medications q st (medications s)
  then (mkStorage (Some (Json (medications s))) (key_journalEntries st)
          (key_archivedFiles st) (key_appointments st), [])
  else (st, [ObsConsole "Failed to save medications to localStorage"]).

Definition saveJournalEntries (q : Quota) (s : AppState) (st : Storage)
  : Storage * list Obs :=
  if takes_journalEntries q st (journalEntries s)
  then (mkStorage (key_medications st) (Some (Json (journalEntries s)))
          (key_archivedFiles st) (key_appointments st), [])
  else (st, [ObsConsole "Failed to save journal entries to localStorage"]).

Definition saveArchivedFiles (q : Quota) (s : AppState) (st : Storage)
  : Storage * list Obs :=
  if takes_archivedFiles q st (archivedFiles s)
  then (mkStorage (key_medications st) (key_journalEntries st)
          (Some (Json (archivedFiles s))) (key_appointments st), [])
  else (st, [ObsConsole "Failed to save archived files to localStorage"]).

Definition saveAppointments (q : Quota) (s : AppState) (st : Storage)
  : Storage * list Obs :=
  if takes_appointments q st (appointments s)
  then (mkStorage (key_medications st) (key_journalEntries st)
          (key_archivedFiles st) (Some (Json (appointments s))), [])
  else (st, [ObsConsole "Failed to save appointments to localStorage"]).

(** The four of them, in the order of the component, as after a render
    in which every collection changed. *)
Definition persist (q : Quota) (s : AppState) (st : Storage)
  : Storage * list Obs :=
  let '(st1, o1) := saveMedications q s st in
  let '(st2, o2) := saveJournalEntries q s st1 in
  let '(st3, o3) := saveArchivedFiles q s st2 in
  let '(st4, o4) := saveAppointments q s st3 in
  (st4, o1 ++ o2 ++ o3 ++ o4).

(** A store that takes everything, and one with no room for the archive. *)
Definition roomy : Quota :=
  mkQuota (fun _ _ => true) (fun _ _ => true) (fun _ _ => true) (fun _ _ => true).

Definition archiveFull : Quota :=
  mkQuota (fun _ _ => true) (fun _ _ => true) (fun _ _ => false) (fun _ _ => true).

(** ** [src/App.tsx]: the effects of a render *)

(** The cells, among the dependencies of the load and save effects, that a
    render has changed.  React runs an effect after a render when one of
    its dependencies is not the same value (for an array, not the same
    object) as at the render before; every [setX(JSON.parse(..))] makes a
    new array, whatever it holds. *)
Record Changed := mkChanged {
  ch_permission : bool;
  ch_medications : bool;
  ch_journalEntries : bool;
  ch_archivedFiles : bool;
  ch_appointments : bool
}.

Definition unchanged : Changed := mkChanged false false false false false.
Definition everything : Changed := mkChanged true true true true true.

(** Whether [if (stored) setX(JSON.parse(stored))] calls the setter. *)
Definition parses {A} (k : option (Blob A)) : bool :=
  match k with
  | Some (Json _) => true
  | _ => false
  end.

(** The setters the load effect calls: those of the keys that parse, up
    to the first key on which [JSON.parse] throws. *)
Definition loadSets (st : Storage) : Changed :=
  let m := key_medications st in
  let j := key_journalEntries st in
  let f := key_archivedFiles st in
  let a := key_appointments st in
  mkChanged false
    (parses m)
    (readable m && parses j)
    (readable m && readable j && parses f)
    (readable m && readable j && readable f && parses a).

(** The save effects that run after a render that changed [ch], in the
    order of the component; they write the collections the render saw. *)
Definition saves (q : Quota) (ch : Changed) (s : AppState) (st : Storage)
  : Storage * list Obs :=
  let w1 := if ch_medications ch then saveMedications q s st else (st, []) in
  let w2 := if ch_journalEntries ch then saveJournalEntries q s w1.1
            else (w1.1, []) in
  let w3 := if ch_archivedFiles ch then saveArchivedFiles q s w2.1
            else (w2.1, []) in
  let w4 := if ch_appointments ch then saveAppointments q s w3.1
            else (w3.1, []) in
  (w4.1, w1.2 ++ w2.2 ++ w3.2 ++ w4.2).

(** What a render and its effects leave: the cells for the next render,
    the store, the console lines and the cells that changed. *)
Record Rendered := mkRendered {
  cells : AppState;
  store : Storage;
  lines : list Obs;
  changed : Changed
}.

(** The effects React runs after a render (outside the double invocation
    of development builds), in the order of their declaration: the mount
    effect of [useNotifications], the load effect (dependency
    [permission]) and the four save effects (each with its collection as
    dependency); the timers do not touch the cells.  [first] is the render
    of the mount, after which every effect runs; [ch] are the cells the
    render changed; [s] are the cells the render saw.  The effects read
    the cells of the render, and the updates they ask for are applied
    together for the next one: the load effect sees the permission of the
    render, not the one the hook's effect has just asked for.  The store
    is shared: the load effect reads it before the save effects of the
    same render write it. *)
Definition commit (host : Host) (q : Quota) (first : bool) (ch : Changed)
    (s : AppState) (st : Storage) : Rendered :=
  let loads := first || ch_permission ch in
  let r1 := (if loads then loadData st else mret tt) s in
  let r2 := (if first then mountNotifications host else mret tt) r1.1.1 in
  let w := saves q (if first then everything else ch) s st in
  let sets := if loads then loadSets st else unchanged in
  mkRendered r2.1.1 w.1 (r1.1.2 ++ w.2)
    (mkChanged (negb (bool_decide (permission r2.1.1 = permission s)))
       (ch_medications sets) (ch_journalEntries sets) (ch_archivedFiles sets)
       (ch_appointments sets)).

(** The renders a change of cells sets off: effects run after each, and a
    render follows as long as they change a cell.  After a render that
    did not mount the component two rounds are enough: a load is followed
    by saves, which change no cell. *)
Definition rerender (host : Host) (q : Quota) (ch : Changed) (s : AppState)
    (st : Storage) : Rendered :=
  let c1 := commit host q false ch s st in
  let c2 := commit host q false (changed c1) (cells c1) (store c1) in
  mkRendered (cells c2) (store c2) (lines c1 ++ lines c2) (changed c2).

(** Mounting the component on a store: the first render sees the initial
    cells. *)
Definition mount (host : Host) (q : Quota) (st : Storage) : Rendered :=
  let c1 := commit host q true everything initialState st in
  let c2 := rerender host q (changed c1) (cells c1) (store c1) in
  mkRendered (cells c2) (store c2) (lines c1 ++ lines c2) (changed c2).

(** The banner's button, and the renders that follow it. *)
Definition activate (host : Host) (q : Quota) (s : AppState) (st : Storage)
  : Rendered :=
  let r := enableNotifications host s in
  let ch := mkChanged (negb (bool_decide (permission r.1.1 = permission s)))
              false false false false in
  let c := rerender host q ch r.1.1 st in
  mkRendered (cells c) (store c) (r.1.2 ++ lines c) (changed c).

(** Stores with room for every collection, and with room at least for the
    empty ones. *)
Definition takesAll (q : Quota) : Prop :=
  forall st,
    (forall l, takes_medications q st l = true) /\
    (forall l, takes_journalEntries q st l = true) /\
    (forall l, takes_archivedFiles q st l = true) /\
    (forall l, takes_appointments q st l = true).

Definition takesEmpty (q : Quota) : Prop :=
  forall st,
    takes_medications q st [] = true /\
    takes_journalEntries q st [] = true /\
    takes_archivedFiles q st [] = true /\
    takes_appointments q st [] = true.

Definition tight : Quota :=
  mkQuota (fun _ l => bool_decide (l = [])) (fun _ l => bool_decide (l = []))
    (fun _ l => bool_decide (l = [])) (fun _ l => bool_decide (l = [])).

(** The store with four empty arrays, and what the four saves of [s]
    leave when none fails. *)
Definition emptyStore : Storage :=
  mkStorage (Some (Json [])) (Some (Json [])) (Some (Json [])) (Some (Json [])).

Definition saved (s : AppState) : Storage :=
  mkStorage (Some (Json (medications s))) (Some (Json (journalEntries s)))
    (Some (Json (archivedFiles s))) (Some (Json (appointments s))).

(** A host that has not been asked yet and grants when asked, and one
    that has refused. *)
Definition askingHost : Host :=
  mkHost true perm_default (fun _ _ => true) (Some perm_granted).

Definition deniedHost : Host :=
  mkHost true perm_denied (fun _ _ => true) (Some perm_denied).

(** ** [src/services/geminiService.ts] and the info tooltip *)

(** The text service: the answer to a prompt, or [None] when the call
    fails. *)
Definition Service : Type := string -> option string.

Definition infoPrompt (medicationName : string) : string :=
  "Explica de forma muy sencilla y concisa para qué se usa comúnmente el remedio "
  +:+ String (ascii_of_N 34) medicationName +:+ String (ascii_of_N 34)
  ". Dirígete a un adolescente. Limita la respuesta a 2 o 3 frases cortas antes del descargo de responsabilidad.".

Definition infoApology : string :=
  "Lo siento, tuve un problema para obtener la información. Por favor, intenta de nuevo más tarde.".

(** [getMedicationInfo]: the text it resolves to and its console lines. *)
Definition getMedicationInfo (ai : Service) (medicationName : string)
  : string * list Obs :=
  match ai (infoPrompt medicationName) with
  | Some text => (text, [])
  | None => (infoApology, [ObsConsole "Error calling Gemini API for med info:"])
  end.

(** The names every object literal answers to through [Object.prototype]. *)
Definition objectPrototypeKeys : list string :=
  ["constructor"; "hasOwnProperty"; "isPrototypeOf"; "propertyIsEnumerable";
   "toLocaleString"; "toString"; "valueOf"; "__proto__"; "__defineGetter__";
   "__defineSetter__"; "__lookupGetter__"; "__lookupSetter__"].

(** What [medInfoCache[name]] evaluates to: a cached text, a member
    inherited from [Object.prototype] (which is not a string), or
    [undefined]. *)
Inductive Content :=
| Text (text : string)
| Inherited (key : string).

Definition cacheLookup (cache : gmap string string) (name : string)
  : option Content :=
  match cache !! name with
  | Some text => Some (Text text)
  | None =>
      if bool_decide (name ∈ objectPrototypeKeys) then Some (Inherited name)
      else None
  end.

(** The truthiness of that value. *)
Definition truthy (v : option Content) : bool :=
  match v with
  | Some (Text text) => negb (bool_decide (text = ""))
  | Some (Inherited _) => true
  | None => false
  end.

Record InfoTooltip := mkInfoTooltip {
  info_medId : option string;
  info_content : Content;
  info_isLoading : bool
}.

(** The cells [medInfoCache] and [tooltip] (its position left out). *)
Record InfoState := mkInfoState {
  medInfoCache : gmap string string;
  infoTooltip : InfoTooltip
}.

(** [handleInfoClick] up to its [await]: the new cells, and whether the
    service is called. *)
Definition infoClick (med : Medication) (st : InfoState) : InfoState * bool :=
  let cached := cacheLookup (medInfoCache st) (med_name med) in
  if truthy cached then
    (mkInfoState (medInfoCache st)
       (mkInfoTooltip (Some (med_id med)) (default (Text "") cached) false),
     false)
  else
    (mkInfoState (medInfoCache st)
       (mkInfoTooltip (Some (med_id med)) (Text "") true),
     true).

(** [handleInfoClick] after its [await], when [info] has arrived; the
    cells are the ones of that moment. *)
Definition infoArrive (med : Medication) (info : string) (st : InfoState)
  : InfoState :=
  mkInfoState (<[med_name med := info]> (medInfoCache st))
    (mkInfoTooltip (info_medId (infoTooltip st)) (Text info) false).

(** A whole click with nothing in between: the cells at the end, the
    prompts sent and the console lines. *)
Definition infoLookup (ai : Service) (med : Medication) (st : InfoState)
  : InfoState * list string * list Obs :=
  match infoClick med st with
  | (st1, true) =>
      match getMedicationInfo ai (med_name med) with
      | (info, log) => (infoArrive med info st1, [infoPrompt (med_name med)], log)
      end
  | (st1, false) => (st1, [], [])
  end.

(** [handleCloseTooltip] on these cells. *)
Definition infoClose (st : InfoState) : InfoState :=
  mkInfoState (medInfoCache st) (mkInfoTooltip None (Text "") false).

(** A service that is down. *)
Definition downService : Service := fun _ => None.

Definition isTick (e : Event) : bool :=
  match e with
  | EvMedicationTick _ | EvAppointmentTick _ => true
  | _ => false
  end.

(** * Properties *)

(** ** Reasoning about handlers *)

Ltac unfold_handler :=
  unfold mbind, handler_bind, mret, handler_ret, try_catch, get, tell, throw,
    when, console, setMedications, setNotifiedIds, setShowPermissionBanner,
    setJournalEntries, setAppointments, setArchivedFiles, setTooltip,
    setPermission in *.

Lemma AppState_eta (s : AppState) :
  mkState (medications s) (notifiedIds s) (showPermissionBanner s)
    (journalEntries s) (appointments s) (archivedFiles s) (tooltip s)
    (permission s) = s.
Proof. by destruct s. Qed.

Lemma bind_run {A B} (m : Handler A) (k : A -> Handler B) (s : AppState) :
  (m ≫= k) s =
  match m s with
  | (s1, o1, Normal a) =>
      match k a s1 with
      | (s2, o2, r) => (s2, o1 ++ o2, r)
      end
  | (s1, o1, Throw) => (s1, o1, Throw)
  end.
Proof. reflexivity. Qed.

Section NotifyAll.
Variable host : Host.

Lemma showNotification_run (title : string) (options : NotificationOptions)
    (s : AppState) :
  showNotification host title options s =
  if decide (permission s = perm_granted) then
    if host_construct host title options
    then (s, [ObsNotification title options], Normal tt)
    else (s, [], Throw)
  else (s, [], Normal tt).
Proof.
  unfold showNotification. rewrite bind_run. cbn.
  destruct (decide _); [|done].
  by destruct (host_construct _ _ _).
Qed.

Lemma notify_run (subject : Subject) (title : string)
    (options : NotificationOptions) (s : AppState) :
  notify host subject title options s =
  if decide (permission s = perm_granted) then
    if host_construct host title options
    then (s, [ObsShow subject title options; ObsNotification title options],
          Normal tt)
    else (s, [ObsShow subject title options], Throw)
  else (s, [ObsShow subject title options], Normal tt).
Proof.
  unfold notify. rewrite bind_run. cbn. rewrite showNotification_run.
  destruct (decide _); [|done].
  by destruct (host_construct _ _ _).
Qed.

Context {A : Type}.
Variables (subject : A -> Subject) (title : string)
          (options : A -> NotificationOptions).

Lemma forEach_cons (f : A -> Handler unit) (x : A) (l : list A) (s : AppState) :
  forEach f (x :: l) s = (f x ≫= fun _ => forEach f l) s.
Proof. reflexivity. Qed.

Lemma forEach_notify_state (l : list A) (s : AppState) :
  (forEach (fun x => notify host (subject x) title (options x)) l s).1.1 = s.
Proof.
  induction l as [|x l IH]; [done|].
  rewrite forEach_cons, bind_run. cbn beta. rewrite notify_run.
  destruct (forEach _ l s) as [[s' o'] r'] eqn:E. cbn in IH.
  destruct (decide _); [destruct (host_construct _ _ _)|]; cbn; try done;
    by rewrite E.
Qed.

Lemma forEach_notify_ok (l : list A) (s : AppState) :
  permission s = perm_granted ->
  forallb (fun x => host_construct host title (options x)) l = true ->
  forEach (fun x => notify host (subject x) title (options x)) l s
  = (s, notifyTrace subject title options l, Normal tt).
Proof.
  intros Hp. induction l as [|x l IH]; [done|].
  cbn [forallb]. intros [Hx Hl]%andb_prop.
  rewrite forEach_cons, bind_run. cbn beta. rewrite notify_run.
  rewrite decide_True by done. rewrite Hx, (IH Hl). done.
Qed.

Lemma forEach_notify_throw (l : list A) (s : AppState) :
  permission s = perm_granted ->
  forallb (fun x => host_construct host title (options x)) l = false ->
  (forEach (fun x => notify host (subject x) title (options x)) l s).2 = Throw.
Proof.
  intros Hp. induction l as [|x l IH]; [done|].
  cbn [forallb]. intros Hf.
  rewrite forEach_cons, bind_run. cbn beta. rewrite notify_run.
  rewrite decide_True by done.
  destruct (host_construct _ _ _); [|done].
  cbn in Hf. specialize (IH Hf).
  by destruct (forEach _ l s) as [[s' o'] r'].
Qed.

End NotifyAll.

Lemma shownMedications_app (o1 o2 : list Obs) :
  shownMedications (o1 ++ o2) = shownMedications o1 ++ shownMedications o2.
Proof. apply omap_app. Qed.

Lemma shownAppointments_app (o1 o2 : list Obs) :
  shownAppointments (o1 ++ o2) = shownAppointments o1 ++ shownAppointments o2.
Proof. apply omap_app. Qed.

Lemma shownMedications_notifyTrace {A} (f : A -> string) title options (l : list A) :
  shownMedications (notifyTrace (fun x => OfMedication (f x)) title options l)
  = f <$> l.
Proof. induction l as [|x l IH]; [done|]. cbn. by f_equal. Qed.

Lemma shownAppointments_notifyTrace {A} (f : A -> string) title options (l : list A) :
  shownAppointments (notifyTrace (fun x => OfAppointment (f x)) title options l)
  = f <$> l.
Proof. induction l as [|x l IH]; [done|]. cbn. by f_equal. Qed.

(** Whatever a loop of [notify] calls does, the subjects in its trace are
    subjects of the list it ran over. *)
Lemma forEach_notify_subjects host {A} (subject : A -> Subject) title
    (options : A -> NotificationOptions) (l : list A) (s : AppState) sub t o :
  ObsShow sub t o ∈
    (forEach (fun x => notify host (subject x) title (options x)) l s).1.2 ->
  sub ∈ subject <$> l.
Proof.
  revert s. induction l as [|x l IH]; intros s.
  - cbn. by intros ?%elem_of_nil.
  - rewrite forEach_cons, bind_run, notify_run.
    specialize (IH s). rewrite fmap_cons, elem_of_cons.
    destruct (decide _); [destruct (host_construct _ _ _)|]; cbn;
      try destruct (forEach _ l s) as [[s' o'] r']; cbn in *;
      rewrite ?elem_of_cons, ?elem_of_nil; intuition congruence.
Qed.

(** ** The two interval callbacks *)

(** Enters the [if (matched.length > 0)] of a tick whose list of matched
    records has been found to be a [cons]. *)
Ltac enter_loop :=
  cbn [length];
  replace (0 <? _) with true by (symmetry; apply Z.ltb_lt; lia);
  unfold when.

Section Ticks.
Variables (tz : Z) (host : Host).

Lemma medicationTick_ok (now : Z) (s : AppState) :
  permission s = perm_granted ->
  constructs host medicationTitle medicationOptions (dueMedications tz now s)
  = true ->
  medicationTick tz host now s =
  (mkState (medications s)
     (notifiedIds s ∪ list_to_set (med_id <$> dueMedications tz now s))
     (showPermissionBanner s) (journalEntries s) (appointments s)
     (archivedFiles s) (tooltip s) (permission s),
   notifyTrace (fun med => OfMedication (med_id med)) medicationTitle
     medicationOptions (dueMedications tz now s),
   Normal tt).
Proof.
  intros Hp Hok. unfold medicationTick. rewrite bind_run. cbn.
  destruct (dueMedications tz now s) as [|med due] eqn:Hdue.
  - cbn. rewrite (right_id_L ∅ (∪)). by rewrite AppState_eta.
  - enter_loop.
    rewrite bind_run, forEach_notify_ok by done. cbn.
    by rewrite app_nil_r.
Qed.

Lemma medicationTick_throw (now : Z) (s : AppState) :
  permission s = perm_granted ->
  constructs host medicationTitle medicationOptions (dueMedications tz now s)
  = false ->
  (medicationTick tz host now s).1.1 = s /\
  (medicationTick tz host now s).2 = Throw.
Proof.
  intros Hp Hok. unfold medicationTick. rewrite bind_run. cbn.
  destruct (dueMedications tz now s) as [|med due] eqn:Hdue; [done|].
  enter_loop.
  rewrite bind_run.
  pose proof (forEach_notify_state host (fun med => OfMedication (med_id med))
                medicationTitle medicationOptions (med :: due) s) as Hs.
  pose proof (forEach_notify_throw host (fun med => OfMedication (med_id med))
                medicationTitle medicationOptions (med :: due) s Hp Hok) as Ht.
  destruct (forEach _ (med :: due) s) as [[s' o'] r']. cbn in Hs, Ht. by subst.
Qed.

Lemma medicationTick_subjects (now : Z) (s : AppState) sub t o :
  ObsShow sub t o ∈ (medicationTick tz host now s).1.2 ->
  exists med, med ∈ dueMedications tz now s /\ sub = OfMedication (med_id med).
Proof.
  unfold medicationTick. rewrite bind_run. cbn.
  destruct (dueMedications tz now s) as [|med due] eqn:Hdue.
  - cbn. by intros ?%elem_of_nil.
  - enter_loop.
    rewrite bind_run.
    pose proof (forEach_notify_subjects host (fun med => OfMedication (med_id med))
                  medicationTitle medicationOptions (med :: due) s sub t o) as Hsub.
    destruct (forEach _ (med :: due) s) as [[s' o'] [[]|]];
      cbn [fst snd] in Hsub; cbn -[fmap];
      rewrite ?app_nil_r; intros H; apply Hsub in H;
      apply list_elem_of_fmap in H as (m & -> & Hm); eauto.
Qed.

Lemma appointmentTick_ok (now : Z) (s : AppState) :
  permission s = perm_granted ->
  constructs host appointmentTitle appointmentOptions (upcoming tz now s)
  = true ->
  appointmentTick tz host now s =
  (mkState (medications s) (notifiedIds s) (showPermissionBanner s)
     (journalEntries s) (markNotified (upcoming tz now s) (appointments s))
     (archivedFiles s) (tooltip s) (permission s),
   notifyTrace (fun appt => OfAppointment (appt_id appt)) appointmentTitle
     appointmentOptions (upcoming tz now s),
   Normal tt).
Proof.
  intros Hp Hok. unfold appointmentTick. rewrite bind_run. cbn.
  destruct (upcoming tz now s) as [|appt up] eqn:Hup.
  - cbn. unfold markNotified. cbn. rewrite map_id. by rewrite AppState_eta.
  - enter_loop.
    rewrite bind_run, forEach_notify_ok by done. cbn.
    by rewrite app_nil_r.
Qed.

Lemma appointmentTick_throw (now : Z) (s : AppState) :
  permission s = perm_granted ->
  constructs host appointmentTitle appointmentOptions (upcoming tz now s)
  = false ->
  (appointmentTick tz host now s).1.1 = s /\
  (appointmentTick tz host now s).2 = Throw.
Proof.
  intros Hp Hok. unfold appointmentTick. rewrite bind_run. cbn.
  destruct (upcoming tz now s) as [|appt up] eqn:Hup; [done|].
  cbn [length]. replace (0 <? _) with true by (symmetry; apply Z.ltb_lt; lia).
  unfold when.
  rewrite bind_run.
  pose proof (forEach_notify_state host (fun appt => OfAppointment (appt_id appt))
                appointmentTitle appointmentOptions (appt :: up) s) as Hs.
  pose proof (forEach_notify_throw host (fun appt => OfAppointment (appt_id appt))
                appointmentTitle appointmentOptions (appt :: up) s Hp Hok) as Ht.
  destruct (forEach _ (appt :: up) s) as [[s' o'] r']. cbn in Hs, Ht. by subst.
Qed.

Lemma appointmentTick_subjects (now : Z) (s : AppState) sub t o :
  ObsShow sub t o ∈ (appointmentTick tz host now s).1.2 ->
  exists appt, appt ∈ upcoming tz now s /\ sub = OfAppointment (appt_id appt).
Proof.
  unfold appointmentTick. rewrite bind_run. cbn.
  destruct (upcoming tz now s) as [|appt up] eqn:Hup.
  - cbn. by intros ?%elem_of_nil.
  - enter_loop.
    rewrite bind_run.
    pose proof (forEach_notify_subjects host
                  (fun appt => OfAppointment (appt_id appt))
                  appointmentTitle appointmentOptions (appt :: up) s sub t o)
      as Hsub.
    destruct (forEach _ (appt :: up) s) as [[s' o'] [[]|]];
      cbn [fst snd] in Hsub; cbn -[fmap];
      rewrite ?app_nil_r; intros H; apply Hsub in H;
      apply list_elem_of_fmap in H as (m & -> & Hm); eauto.
Qed.

(** A tick never changes a cell before it throws, so in either case the
    medications and the permission are those it started with. *)
Lemma medicationTick_frame (now : Z) (s : AppState) :
  permission s = perm_granted ->
  let s' := (medicationTick tz host now s).1.1 in
  medications s' = medications s /\ appointments s' = appointments s /\
  permission s' = permission s /\ tooltip s' = tooltip s /\
  notifiedIds s ⊆ notifiedIds s'.
Proof.
  intros Hp.
  destruct (constructs host medicationTitle medicationOptions
              (dueMedications tz now s)) eqn:Hc.
  - rewrite (medicationTick_ok now s Hp Hc). cbn. repeat split; set_solver.
  - destruct (medicationTick_throw now s Hp Hc) as [-> _]. cbn. done.
Qed.

Lemma appointmentTick_frame (now : Z) (s : AppState) :
  permission s = perm_granted ->
  let s' := (appointmentTick tz host now s).1.1 in
  medications s' = medications s /\ notifiedIds s' = notifiedIds s /\
  permission s' = permission s /\ tooltip s' = tooltip s /\
  (appointments s' = appointments s \/
   appointments s' = markNotified (upcoming tz now s) (appointments s)).
Proof.
  intros Hp.
  destruct (constructs host appointmentTitle appointmentOptions
              (upcoming tz now s)) eqn:Hc.
  - rewrite (appointmentTick_ok now s Hp Hc). cbn. by repeat split; auto.
  - destruct (appointmentTick_throw now s Hp Hc) as [-> _]. cbn.
    by repeat split; auto.
Qed.

End Ticks.

(** ** The daily reset *)

Lemma dailyReset_run (s : AppState) :
  dailyReset s =
  (mkState (map (withTaken false) (medications s)) ∅ (showPermissionBanner s)
     (journalEntries s) (appointments s) (archivedFiles s) (tooltip s)
     (permission s),
   [ObsConsole "Resetting medications for the new day."], Normal tt).
Proof. reflexivity. Qed.

Lemma withTaken_withTaken (b c : bool) (med : Medication) :
  withTaken b (withTaken c med) = withTaken b med.
Proof. reflexivity. Qed.

(** C8.  The daily reset returns, leaves every medication with
    [isTaken = false] (and otherwise as it was) and the notified-set empty;
    running it a second time right away gives the same state again; and it
    does not touch the appointments, so no [notified] flag changes. *)
Theorem dailyReset_idempotent (s : AppState) :
  let s1 := (dailyReset s).1.1 in
  let s2 := (dailyReset s1).1.1 in
  (dailyReset s).2 = Normal tt /\
  medications s1 = map (withTaken false) (medications s) /\
  Forall (fun med => med_isTaken med = false) (medications s1) /\
  notifiedIds s1 = ∅ /\
  s2 = s1 /\
  Forall (fun med => med_isTaken med = false) (medications s2) /\
  notifiedIds s2 = ∅ /\
  appointments s1 = appointments s /\
  appointments s2 = appointments s.
Proof.
  cbn zeta. rewrite !dailyReset_run. cbn.
  assert (Forall (fun med => med_isTaken med = false)
            (map (withTaken false) (medications s))) as Hall.
  { induction (medications s); by constructor. }
  repeat split; try done.
  - f_equal. rewrite map_map. apply map_ext. intros med. apply withTaken_withTaken.
  - rewrite map_map. cbn. done.
Qed.

(** ** The notification gateway *)

(** C9.  Unless the permission cell is ['granted'], [showNotification] does
    nothing at all for any title and options: the state is unchanged,
    nothing is observed (no notification, no console line), and it
    returns.  That is the case in particular on a host without
    notifications, where the cell stays at its initial ['default'] through
    mounting and any permission request.  When the cell is ['granted'], it
    calls the host's constructor with exactly the given title and options:
    once that returns, that one notification is displayed; if the
    constructor throws, so does [showNotification]. *)
Theorem showNotification_gated (host : Host) (title : string)
    (options : NotificationOptions) (s : AppState) :
  (permission s <> perm_granted ->
   showNotification host title options s = (s, [], Normal tt)) /\
  (host_supported host = false ->
   let s' := (requestPermission host
                (mountNotifications host initialState).1.1).1.1 in
   permission s' = perm_default /\
   showNotification host title options s' = (s', [], Normal tt)) /\
  (permission s = perm_granted ->
   host_construct host title options = true ->
   showNotification host title options s
   = (s, [ObsNotification title options], Normal tt) /\
   displayed (showNotification host title options s).1.2 = [(title, options)]) /\
  (permission s = perm_granted ->
   host_construct host title options = false ->
   showNotification host title options s = (s, [], Throw)).
Proof.
  split; [|split; [|split]].
  - intros Hp. rewrite showNotification_run. by rewrite decide_False.
  - intros Hu. cbn zeta.
    unfold mountNotifications, requestPermission. rewrite Hu. cbn.
    split; [done|]. by rewrite showNotification_run.
  - intros Hp Hc. rewrite showNotification_run.
    rewrite decide_True by done. by rewrite Hc.
  - intros Hp Hc. rewrite showNotification_run.
    rewrite decide_True by done. by rewrite Hc.
Qed.

Lemma showNotification_gated_witness :
  (permission initialState <> perm_granted /\
   showNotification plainHost "t" (mkOptions "b" true) initialState
   = (initialState, [], Normal tt)) /\
  (host_supported bareHost = false /\
   showNotification bareHost "t" (mkOptions "b" true)
     (requestPermission bareHost (mountNotifications bareHost initialState).1.1).1.1
   = ((requestPermission bareHost
         (mountNotifications bareHost initialState).1.1).1.1, [], Normal tt)) /\
  (permission grantedState = perm_granted /\
   displayed (showNotification plainHost "t" (mkOptions "b" true) grantedState).1.2
   = [("t", mkOptions "b" true)]) /\
  showNotification throwingHost "t" (mkOptions "b" true) grantedState
  = (grantedState, [], Throw).
Proof.
  assert (permission initialState <> perm_granted) as H1 by discriminate.
  split; [split; [exact H1|]|].
  2: split; [split; [reflexivity|]|].
  3: split; [split; [reflexivity|]|].
  - apply (proj1 (showNotification_gated plainHost "t" (mkOptions "b" true)
                    initialState) H1).
  - apply (proj1 (proj2 (showNotification_gated bareHost "t" (mkOptions "b" true)
                           initialState)) eq_refl).
  - apply (proj1 (proj2 (proj2 (showNotification_gated plainHost "t"
                                  (mkOptions "b" true) grantedState)))
             eq_refl eq_refl).
  - apply (proj2 (proj2 (proj2 (showNotification_gated throwingHost "t"
                                  (mkOptions "b" true) grantedState)))
             eq_refl eq_refl).
Defined.

(** ** Toggling a medication *)

Lemma toggleMedicationTaken_run (id : string) (s : AppState) :
  toggleMedicationTaken id s =
  (mkState
     (map (fun med => if decide (med_id med = id)
                      then withTaken (negb (med_isTaken med)) med
                      else med) (medications s))
     (notifiedIds s) (showPermissionBanner s) (journalEntries s)
     (appointments s) (archivedFiles s) (tooltip s) (permission s),
   [], Normal tt).
Proof. reflexivity. Qed.

(** C10.  Toggling the same id twice gives back the state it started from,
    so the collection is the same records in the same order.  One toggle
    keeps the length; at every position it keeps the id, name, dosage and
    time of the record; it negates [isTaken] where the id is the toggled
    one and leaves the record as it is elsewhere; and it changes no cell
    but [medications]. *)
Theorem toggleMedicationTaken_involution (id : string) (s : AppState) :
  let s1 := (toggleMedicationTaken id s).1.1 in
  let s2 := (toggleMedicationTaken id s1).1.1 in
  s2 = s /\
  length (medications s1) = length (medications s) /\
  (forall (i : nat) (med : Medication),
     medications s !! i = Some med ->
     exists med',
       medications s1 !! i = Some med' /\
       med_id med' = med_id med /\ med_name med' = med_name med /\
       med_dosage med' = med_dosage med /\ med_time med' = med_time med /\
       (med_id med = id -> med_isTaken med' = negb (med_isTaken med)) /\
       (med_id med <> id -> med' = med)) /\
  notifiedIds s1 = notifiedIds s /\ appointments s1 = appointments s /\
  tooltip s1 = tooltip s /\ permission s1 = permission s.
Proof.
  cbn zeta. rewrite !toggleMedicationTaken_run. cbn.
  split; [|split; [|split]]; try done.
  - destruct s as [meds ? ? ? ? ? ? ?]. cbn. f_equal.
    rewrite map_map. rewrite <- (map_id meds) at 2.
    apply map_ext. intros [i' n d t b]. cbn.
    destruct (decide (i' = id)); cbn; [|by rewrite decide_False].
    rewrite decide_True by done. unfold withTaken. cbn. by rewrite negb_involutive.
  - apply length_map.
  - intros i med Hi. eexists. split.
    { change (map ?f ?l) with (f <$> l). rewrite list_lookup_fmap, Hi. done. }
    destruct (decide (med_id med = id)); cbn; repeat split; try done.
Qed.

Lemma toggleMedicationTaken_involution_witness :
  (toggleMedicationTaken "m1"
     (toggleMedicationTaken "m1" grantedState).1.1).1.1 = grantedState.
Proof. apply (toggleMedicationTaken_involution "m1" grantedState). Defined.

(** ** The due-event evaluator *)

(** Every [HH:MM] an [<input type="time">] can produce splits and converts
    to its hour and minute (checked on all 1440 of them). *)
Lemma HHMM_parts (h m : Z) :
  0 <= h < 24 -> 0 <= m < 60 ->
  JS.Number <$> JS.split ":" (HHMM h m) = [Some h; Some m].
Proof.
  intros Hh Hm.
  assert (forallb (fun h => forallb (fun m =>
            bool_decide (JS.Number <$> JS.split ":" (HHMM h m)
                         = [Some h; Some m])) (seqZ 0 60)) (seqZ 0 24) = true)
    as Hall by (vm_compute; reflexivity).
  rewrite forallb_forall in Hall.
  specialize (Hall h). rewrite <- list_elem_of_In, elem_of_seqZ in Hall.
  specialize (Hall ltac:(lia)). rewrite forallb_forall in Hall.
  specialize (Hall m). rewrite <- list_elem_of_In, elem_of_seqZ in Hall.
  specialize (Hall ltac:(lia)). by apply bool_decide_eq_true in Hall.
Qed.

Lemma day_split (t : Z) :
  t = JS.MakeDate (JS.Day t) (JS.TimeWithinDay t) /\
  0 <= JS.TimeWithinDay t < JS.msPerDay.
Proof.
  unfold JS.MakeDate, JS.Day, JS.TimeWithinDay, JS.msPerDay.
  pose proof (Z.div_mod t 86400000 ltac:(lia)).
  pose proof (Z.mod_pos_bound t 86400000 ltac:(lia)). lia.
Qed.

Lemma isMedicationDue_HHMM (tz now h m : Z) (med : Medication) :
  med_isTaken med = false -> 0 <= h < 24 -> 0 <= m < 60 ->
  med_time med = HHMM h m ->
  isMedicationDue tz now med
  = (JS.UTC tz (JS.MakeDate (JS.Day (JS.LocalTime tz now)) (JS.MakeTime h m 0 0))
     <? now).
Proof.
  intros Ht Hh Hm Htime. unfold isMedicationDue.
  rewrite Ht, Htime, HHMM_parts by done. reflexivity.
Qed.

(** C5.  [isMedicationDue] is [false] for a medication that is taken.  For
    one that is not, with a time [HH:MM], it is [true] exactly when [now] is
    strictly after the instant "today (the local day of [now]) at [HH:MM]
    local time", that is, exactly when the local time of day of [now] is
    past [HH:MM].  So a medication at 09:00, not taken, is not due at
    08:59:59 nor at 09:00:00 sharp, and is due at 09:00:01 of the same
    day, on any local day and in any zone. *)
Theorem isMedicationDue_spec (tz : Z) :
  (forall now med, med_isTaken med = true -> isMedicationDue tz now med = false) /\
  (forall now med h m,
     med_isTaken med = false -> 0 <= h < 24 -> 0 <= m < 60 ->
     med_time med = HHMM h m ->
     let instant :=
       JS.UTC tz (JS.MakeDate (JS.Day (JS.LocalTime tz now)) (JS.MakeTime h m 0 0)) in
     (isMedicationDue tz now med = true <-> instant < now) /\
     (instant < now <->
      JS.MakeTime h m 0 0 < JS.TimeWithinDay (JS.LocalTime tz now))) /\
  (forall day id name dosage,
     let med := mkMedication id name dosage "09:00" false in
     let at_ h m sec := JS.UTC tz (JS.MakeDate day (JS.MakeTime h m sec 0)) in
     isMedicationDue tz (at_ 8 59 59) med = false /\
     isMedicationDue tz (at_ 9 0 0) med = false /\
     isMedicationDue tz (at_ 9 0 1) med = true).
Proof.
  split; [|split].
  - intros now med Ht. unfold isMedicationDue. by rewrite Ht.
  - intros now med h m Ht Hh Hm Htime instant. subst instant.
    rewrite (isMedicationDue_HHMM tz now h m med) by done.
    split; [apply Z.ltb_lt|].
    destruct (day_split (JS.LocalTime tz now)) as [Hsplit _].
    unfold JS.UTC, JS.MakeDate, JS.LocalTime in *. lia.
  - intros day id name dosage med at_.
    assert (forall h m sec, 0 <= JS.MakeTime h m sec 0 < JS.msPerDay ->
              JS.Day (JS.LocalTime tz (at_ h m sec)) = day) as Hday.
    { intros h m sec Hr. unfold at_, JS.LocalTime, JS.UTC, JS.MakeDate, JS.Day.
      replace (day * JS.msPerDay + JS.MakeTime h m sec 0 - tz + tz)
        with (JS.MakeTime h m sec 0 + day * JS.msPerDay) by lia.
      rewrite Z.div_add by (unfold JS.msPerDay; lia).
      rewrite Z.div_small by done. lia. }
    rewrite !(isMedicationDue_HHMM tz _ 9 0 med) by (done || lia).
    rewrite !Hday by (vm_compute; split; congruence).
    unfold at_, JS.UTC, JS.MakeDate, JS.MakeTime, JS.msPerHour, JS.msPerMinute,
      JS.msPerSecond, JS.msPerDay.
    repeat split; [apply Z.ltb_ge | apply Z.ltb_ge | apply Z.ltb_lt]; lia.
Qed.

Lemma isMedicationDue_spec_witness :
  isMedicationDue 0 32401000 (withTaken true aspirin) = false /\
  (isMedicationDue 0 32401000 aspirin = true <->
   JS.UTC 0 (JS.MakeDate (JS.Day (JS.LocalTime 0 32401000)) (JS.MakeTime 9 0 0 0))
   < 32401000).
Proof.
  split.
  - apply (proj1 (isMedicationDue_spec 0) 32401000 (withTaken true aspirin)).
    reflexivity.
  - apply (proj1 (proj2 (isMedicationDue_spec 0)) 32401000 aspirin 9 0);
      [reflexivity | lia | lia | reflexivity].
Defined.

Lemma isAppointmentUpcoming_iff (tz now : Z) (appt : Appointment) :
  isAppointmentUpcoming tz now appt = true <->
  appt_notified appt = false /\
  exists t, JS.parseDate tz (appt_date appt +:+ "T" +:+ appt_time appt) = Some t /\
            now < t /\ t <= now + 24 * JS.msPerHour.
Proof.
  unfold isAppointmentUpcoming.
  destruct (appt_notified appt);
    [split; [discriminate | intros [? _]; discriminate]|].
  destruct (JS.parseDate _ _) as [t|]; cbn;
    [|split; [discriminate | intros [_ (t & ? & _)]; discriminate]].
  rewrite andb_true_iff, Z.ltb_lt, Z.leb_le. unfold JS.msPerHour.
  split.
  - intros [? ?]. split; [done|]. exists t. repeat split; [done|lia].
  - intros [_ (t' & [= <-] & ? & ?)]. lia.
Qed.

(** C6.  The upcoming-check is [false] for an appointment already
    notified.  For one that is not, it is [true] exactly when the date and
    time denote an instant [t] (read as local time) with
    [now < t <= now + 24h]; so an appointment whose instant is [now] or
    earlier is never flagged.  With [now] = 2024-01-01T10:00, an appointment
    on 2024-01-02 at 09:59 is flagged, one at 10:00 (24 hours ahead to the
    millisecond) is flagged too, one at 10:01 is not, and one on
    2024-01-01 at 09:59 (already past) is not, in any zone. *)
Theorem isAppointmentUpcoming_spec (tz : Z) :
  (forall now appt,
     appt_notified appt = true -> isAppointmentUpcoming tz now appt = false) /\
  (forall now appt,
     appt_notified appt = false ->
     (isAppointmentUpcoming tz now appt = true <->
      exists t,
        JS.parseDate tz (appt_date appt +:+ "T" +:+ appt_time appt) = Some t /\
        now < t /\ t <= now + 24 * JS.msPerHour)) /\
  (forall now appt t,
     JS.parseDate tz (appt_date appt +:+ "T" +:+ appt_time appt) = Some t ->
     t <= now -> isAppointmentUpcoming tz now appt = false) /\
  (forall id specialty location notified,
     let now := JS.UTC tz (JS.MakeDate (JS.MakeDay 2024 1 1) (JS.MakeTime 10 0 0 0)) in
     let appt date time := mkAppointment id date time specialty location notified in
     JS.parseDate tz "2024-01-01T10:00" = Some now /\
     isAppointmentUpcoming tz now (appt "2024-01-02" "09:59") = negb notified /\
     isAppointmentUpcoming tz now (appt "2024-01-02" "10:00") = negb notified /\
     isAppointmentUpcoming tz now (appt "2024-01-02" "10:01") = false /\
     isAppointmentUpcoming tz now (appt "2024-01-01" "09:59") = false).
Proof.
  split; [|split; [|split]].
  - intros now appt Hn. unfold isAppointmentUpcoming. by rewrite Hn.
  - intros now appt Hn. rewrite isAppointmentUpcoming_iff. tauto.
  - intros now appt t Ht Hle.
    destruct (isAppointmentUpcoming tz now appt) eqn:E; [|done].
    apply isAppointmentUpcoming_iff in E as [_ (t' & Ht' & ? & _)].
    rewrite Ht in Ht'. injection Ht' as <-. lia.
  - intros id specialty location notified now appt.
    assert (JS.parseLocal "2024-01-01T10:00" = Some 1704103200000) as P0
      by (vm_compute; reflexivity).
    assert (JS.parseLocal "2024-01-02T09:59" = Some 1704189540000) as P1
      by (vm_compute; reflexivity).
    assert (JS.parseLocal "2024-01-02T10:00" = Some 1704189600000) as P2
      by (vm_compute; reflexivity).
    assert (JS.parseLocal "2024-01-02T10:01" = Some 1704189660000) as P3
      by (vm_compute; reflexivity).
    assert (JS.parseLocal "2024-01-01T09:59" = Some 1704103140000) as P4
      by (vm_compute; reflexivity).
    assert (JS.MakeDate (JS.MakeDay 2024 1 1) (JS.MakeTime 10 0 0 0)
            = 1704103200000) as D0 by (vm_compute; reflexivity).
    subst now. rewrite D0.
    split; [unfold JS.parseDate; by rewrite P0|].
    unfold isAppointmentUpcoming, appt, JS.parseDate.
    cbn [appt_notified appt_date appt_time].
    change ("2024-01-02" +:+ "T" +:+ "09:59") with "2024-01-02T09:59".
    change ("2024-01-02" +:+ "T" +:+ "10:00") with "2024-01-02T10:00".
    change ("2024-01-02" +:+ "T" +:+ "10:01") with "2024-01-02T10:01".
    change ("2024-01-01" +:+ "T" +:+ "09:59") with "2024-01-01T09:59".
    rewrite P1, P2, P3, P4.
    destruct notified; [repeat split; reflexivity|].
    cbn [negb fmap option_fmap option_map JS.gt JS.le].
    unfold JS.UTC.
    repeat split;
      rewrite ?andb_true_iff, ?andb_false_iff, ?Z.ltb_lt, ?Z.leb_le, ?Z.ltb_ge,
        ?Z.leb_gt; lia.
Qed.

Lemma isAppointmentUpcoming_spec_witness :
  isAppointmentUpcoming 0 1704103200000 control = false /\
  (isAppointmentUpcoming 0 1704103200000 turno = true <->
   exists t,
     JS.parseDate 0 (appt_date turno +:+ "T" +:+ appt_time turno) = Some t /\
     1704103200000 < t /\ t <= 1704103200000 + 24 * JS.msPerHour) /\
  isAppointmentUpcoming 0 1704189540000 turno = false.
Proof.
  split; [|split].
  - apply (proj1 (isAppointmentUpcoming_spec 0)). reflexivity.
  - apply (proj1 (proj2 (isAppointmentUpcoming_spec 0))). reflexivity.
  - apply (proj1 (proj2 (proj2 (isAppointmentUpcoming_spec 0)))
             1704189540000 turno 1704189540000); [vm_compute; reflexivity | lia].
Defined.

(** ** Loading from the persistent store *)

(** The load, key by key: a key is reached, and its cell loaded, only if
    every key before it could be read. *)
Lemma loadData_cells (st : Storage) (s : AppState) :
  let r := loadData st s in
  let okM := readable (key_medications st) in
  let okJ := okM && readable (key_journalEntries st) in
  let okF := okJ && readable (key_archivedFiles st) in
  let okA := okF && readable (key_appointments st) in
  r.2 = Normal tt /\
  medications r.1.1 = stored (key_medications st) (medications s) /\
  journalEntries r.1.1
  = (if okM then stored (key_journalEntries st) (journalEntries s)
     else journalEntries s) /\
  archivedFiles r.1.1
  = (if okJ then stored (key_archivedFiles st) (archivedFiles s)
     else archivedFiles s) /\
  appointments r.1.1
  = (if okF then stored (key_appointments st) (appointments s)
     else appointments s) /\
  r.1.2 = (if okA then []
           else [ObsConsole "Failed to load data from localStorage"]) /\
  notifiedIds r.1.1 = notifiedIds s /\ permission r.1.1 = permission s.
Proof.
  destruct st as [[[|m]|] [[|j]|] [[|f]|] [[|a]|]]; unfold loadData;
    unfold_handler; cbn;
    repeat (destruct (decide _); cbn);
    try (destruct m; cbn); done.
Qed.

(** C3, as the code has it.  The load is one [try] block over the four
    keys, read in the order medications, journalEntries, archivedFiles,
    appointments.  It never throws.  An absent key is skipped and the keys
    after it are still read.  A corrupt blob is logged and ends the load:
    the cells of the keys before it hold their stored contents, its own
    cell and the cells of the keys after it are left as they were.  So a
    corrupt appointments blob (the last key) leaves the other three
    loading, and when no blob is corrupt every stored collection is loaded
    and nothing is logged. *)
Theorem loadData_single_failure_domain (st : Storage) (s : AppState) :
  let r := loadData st s in
  let okM := readable (key_medications st) in
  let okJ := okM && readable (key_journalEntries st) in
  let okF := okJ && readable (key_archivedFiles st) in
  let okA := okF && readable (key_appointments st) in
  r.2 = Normal tt /\
  medications r.1.1 = stored (key_medications st) (medications s) /\
  journalEntries r.1.1
  = (if okM then stored (key_journalEntries st) (journalEntries s)
     else journalEntries s) /\
  archivedFiles r.1.1
  = (if okJ then stored (key_archivedFiles st) (archivedFiles s)
     else archivedFiles s) /\
  appointments r.1.1
  = (if okF then stored (key_appointments st) (appointments s)
     else appointments s) /\
  r.1.2 = (if okA then []
           else [ObsConsole "Failed to load data from localStorage"]) /\
  (forall m j f,
     key_medications st = Some (Json m) ->
     key_journalEntries st = Some (Json j) ->
     key_archivedFiles st = Some (Json f) ->
     medications r.1.1 = m /\ journalEntries r.1.1 = j /\ archivedFiles r.1.1 = f) /\
  (okA = true ->
   medications r.1.1 = stored (key_medications st) (medications s) /\
   journalEntries r.1.1 = stored (key_journalEntries st) (journalEntries s) /\
   archivedFiles r.1.1 = stored (key_archivedFiles st) (archivedFiles s) /\
   appointments r.1.1 = stored (key_appointments st) (appointments s) /\
   r.1.2 = []).
Proof.
  intros r okM okJ okF okA.
  destruct (loadData_cells st s) as (Hr & HM & HJ & HF & HA & Hlog & _).
  fold r okM okJ okF okA in Hr, HM, HJ, HF, HA, Hlog.
  do 6 (split; [done|]). split.
  - intros m j f Em Ej Ef. rewrite HM, HJ, HF. subst okJ okM.
    by rewrite Em, Ej, Ef.
  - intros Hall. rewrite HM, HJ, HF, HA, Hlog. subst okA okF okJ.
    destruct okM; [|discriminate].
    destruct (readable (key_journalEntries st)); [|discriminate].
    destruct (readable (key_archivedFiles st)); [|discriminate].
    by destruct (readable (key_appointments st)); [|discriminate].
Qed.

Lemma loadData_single_failure_domain_witness :
  (let r := loadData (mkStorage (Some (Json [aspirin])) (Some (Json [entry1]))
                        (Some (Json [file1])) (Some Corrupt)) initialState in
   medications r.1.1 = [aspirin] /\ journalEntries r.1.1 = [entry1] /\
   archivedFiles r.1.1 = [file1]) /\
  (let r := loadData (mkStorage (Some (Json [aspirin])) None
                        (Some (Json [file1])) (Some (Json [turno])))
              initialState in
   medications r.1.1 = [aspirin] /\ journalEntries r.1.1 = [] /\
   archivedFiles r.1.1 = [file1] /\ appointments r.1.1 = [turno] /\
   r.1.2 = []).
Proof.
  split.
  - destruct (loadData_single_failure_domain
                (mkStorage (Some (Json [aspirin])) (Some (Json [entry1]))
                   (Some (Json [file1])) (Some Corrupt)) initialState)
      as (_ & _ & _ & _ & _ & _ & Hthree & _).
    apply (Hthree [aspirin] [entry1] [file1]); reflexivity.
  - destruct (loadData_single_failure_domain
                (mkStorage (Some (Json [aspirin])) None
                   (Some (Json [file1])) (Some (Json [turno]))) initialState)
      as (_ & _ & _ & _ & _ & _ & _ & Hall).
    apply Hall. reflexivity.
Defined.

(** C3 as stated fails: with a corrupt medications blob and three good
    blobs, none of the three other collections is loaded. *)
Lemma loadData_not_isolated :
  key_journalEntries corruptMedications = Some (Json [entry1]) /\
  key_archivedFiles corruptMedications = Some (Json [file1]) /\
  key_appointments corruptMedications = Some (Json [turno]) /\
  journalEntries (loadData corruptMedications initialState).1.1 = [] /\
  archivedFiles (loadData corruptMedications initialState).1.1 = [] /\
  appointments (loadData corruptMedications initialState).1.1 = [] /\
  ~ (journalEntries (loadData corruptMedications initialState).1.1 = [entry1] /\
     archivedFiles (loadData corruptMedications initialState).1.1 = [file1] /\
     appointments (loadData corruptMedications initialState).1.1 = [turno]).
Proof.
  repeat split; try reflexivity.
  intros (H & _). discriminate H.
Qed.

(** ** One batch per tick *)

(** C7, as the code has it.  The tick first calls show for every matched
    medication and only then adds the matched ids, all at once.  When
    every one of these show calls returns, the tick returns and the
    notified-set is exactly what it was plus the id of every medication
    matched as due at evaluation time.  When show throws for a matched
    medication the tick ends there with the exception, no cell is
    changed, and the notified-set is what it was. *)
Theorem medicationTick_batch (tz : Z) (host : Host) (now : Z) (s : AppState) :
  permission s = perm_granted ->
  let due := dueMedications tz now s in
  let r := medicationTick tz host now s in
  (constructs host medicationTitle medicationOptions due = true ->
   r.2 = Normal tt /\
   shownMedications r.1.2 = med_id <$> due /\
   notifiedIds r.1.1 = notifiedIds s ∪ list_to_set (med_id <$> due) /\
   medications r.1.1 = medications s) /\
  (constructs host medicationTitle medicationOptions due = false ->
   r.2 = Throw /\ r.1.1 = s /\ notifiedIds r.1.1 = notifiedIds s).
Proof.
  intros Hp due r. split; intros Hc; subst r due.
  - rewrite (medicationTick_ok tz host now s Hp Hc). cbn.
    by rewrite shownMedications_notifyTrace.
  - destruct (medicationTick_throw tz host now s Hp Hc) as [Hs Ht].
    by rewrite Hs, Ht.
Qed.

Lemma medicationTick_batch_witness :
  (permission grantedState = perm_granted /\
   constructs plainHost medicationTitle medicationOptions
     (dueMedications 0 36000000 grantedState) = true /\
   (medicationTick 0 plainHost 36000000 grantedState).2 = Normal tt /\
   notifiedIds (medicationTick 0 plainHost 36000000 grantedState).1.1
   = notifiedIds grantedState
     ∪ list_to_set (med_id <$> dueMedications 0 36000000 grantedState)) /\
  (constructs throwingHost medicationTitle medicationOptions
     (dueMedications 0 36000000 grantedState) = false /\
   (medicationTick 0 throwingHost 36000000 grantedState).2 = Throw /\
   notifiedIds (medicationTick 0 throwingHost 36000000 grantedState).1.1
   = notifiedIds grantedState).
Proof.
  split.
  - destruct (medicationTick_batch 0 plainHost 36000000 grantedState eq_refl)
      as [Hok _].
    destruct (Hok eq_refl) as (Hr & _ & Hn & _).
    split; [reflexivity|]. split; [reflexivity|]. split; [exact Hr | exact Hn].
  - destruct (medicationTick_batch 0 throwingHost 36000000 grantedState eq_refl)
      as [_ Hthrow].
    destruct (Hthrow eq_refl) as (Hr & _ & Hn).
    split; [reflexivity|]. split; [exact Hr | exact Hn].
Defined.

(** C7 as stated fails: on a host whose constructor throws, a medication
    is matched as due, the tick throws, and its id is not added. *)
Lemma medicationTick_throw_skips_batch :
  dueMedications 0 36000000 grantedState = [aspirin] /\
  (medicationTick 0 throwingHost 36000000 grantedState).2 = Throw /\
  notifiedIds (medicationTick 0 throwingHost 36000000 grantedState).1.1
  <> notifiedIds grantedState
     ∪ list_to_set (med_id <$> dueMedications 0 36000000 grantedState).
Proof.
  split; [by vm_compute|]. split; [by vm_compute|].
  intros H.
  apply (f_equal (fun X : gset string => bool_decide ("m1" ∈ X))) in H.
  vm_compute in H. discriminate H.
Qed.

(** ** Runs of the session *)

Lemma filter_ids_sublist {A} (f : A -> string) (p : A -> bool) (l : list A) :
  f <$> List.filter p l `sublist_of` f <$> l.
Proof.
  induction l as [|x l IH]; [done|]. cbn.
  destruct (p x); cbn; by constructor.
Qed.

Lemma elem_of_filter {A} (p : A -> bool) (l : list A) (x : A) :
  x ∈ List.filter p l <-> x ∈ l /\ p x = true.
Proof. rewrite !list_elem_of_In. apply filter_In. Qed.

Lemma NoDup_filter_ids {A} (f : A -> string) (p : A -> bool) (l : list A) :
  NoDup (f <$> l) -> NoDup (f <$> List.filter p l).
Proof. intros H. eapply sublist_NoDup; [done | apply filter_ids_sublist]. Qed.

(** Unfolds a user action, the reset or the permission request, and
    splits on its tests. *)
Ltac run_action :=
  unfold addMedication, toggleMedicationTaken, deleteMedication,
    handleCloseTooltip, addAppointment, deleteAppointment, dailyReset,
    requestPermission;
  unfold_handler; cbn;
  repeat match goal with
         | |- context [if ?b then _ else _] => destruct b; cbn
         | |- context [match ?o with Some _ => _ | None => _ end] =>
             destruct o; cbn
         end.

Section Runs.
Variables (tz : Z) (host : Host).

Lemma medicationPoll_run (now : Z) (s : AppState) :
  medicationPoll tz host now s =
  if decide (permission s = perm_granted) then medicationTick tz host now s
  else (s, [], Normal tt).
Proof.
  unfold medicationPoll. rewrite bind_run. cbn.
  destruct (decide _); [|done].
  destruct (medicationTick tz host now s) as [[s' o'] r']. done.
Qed.

Lemma appointmentPoll_run (now : Z) (s : AppState) :
  appointmentPoll tz host now s =
  if decide (permission s = perm_granted) then appointmentTick tz host now s
  else (s, [], Normal tt).
Proof.
  unfold appointmentPoll. rewrite bind_run. cbn.
  destruct (decide _); [|done].
  destruct (appointmentTick tz host now s) as [[s' o'] r']. done.
Qed.

Lemma run_cons (e : Event) (es : list Event) (s : AppState) :
  run tz host (e :: es) s =
  ((run tz host es (handler tz host e s).1.1).1,
   (handler tz host e s).1.2 ++ (run tz host es (handler tz host e s).1.1).2).
Proof.
  cbn. unfold step. destruct (handler tz host e s) as [[s1 o1] r1]. cbn.
  by destruct (run tz host es s1).
Qed.

Lemma completes_cons (e : Event) (es : list Event) (s : AppState) :
  completes tz host (e :: es) s = true <->
  (handler tz host e s).2 = Normal tt /\
  completes tz host es (handler tz host e s).1.1 = true.
Proof.
  cbn. destruct (handler tz host e s) as [[s1 o1] [[]|]]; cbn; intuition congruence.
Qed.

Lemma handler_shows (e : Event) (s : AppState) sub t o :
  ObsShow sub t o ∈ (handler tz host e s).1.2 ->
  (exists now med, e = EvMedicationTick now /\ permission s = perm_granted /\
                   med ∈ dueMedications tz now s /\ sub = OfMedication (med_id med))
  \/
  (exists now appt, e = EvAppointmentTick now /\ permission s = perm_granted /\
                    appt ∈ upcoming tz now s /\ sub = OfAppointment (appt_id appt)).
Proof.
  destruct e; cbn [handler].
  - rewrite medicationPoll_run. destruct (decide _) as [Hp|]; cbn.
    + intros (med & Hm & ->)%medicationTick_subjects. left. eauto 6.
    + by intros ?%elem_of_nil.
  - rewrite appointmentPoll_run. destruct (decide _) as [Hp|]; cbn.
    + intros (appt & Hm & ->)%appointmentTick_subjects. right. eauto 6.
    + by intros ?%elem_of_nil.
  - run_action. rewrite elem_of_cons, elem_of_nil. intuition congruence.
  - run_action; by intros ?%elem_of_nil.
  - run_action; by intros ?%elem_of_nil.
  - run_action; by intros ?%elem_of_nil.
  - run_action; by intros ?%elem_of_nil.
  - run_action; by intros ?%elem_of_nil.
  - run_action; rewrite ?elem_of_cons, ?elem_of_nil; intuition congruence.
Qed.

Lemma elem_of_shownMedications (tr : list Obs) (x : string) :
  x ∈ shownMedications tr <-> exists t o, ObsShow (OfMedication x) t o ∈ tr.
Proof.
  unfold shownMedications. rewrite list_elem_of_omap. split.
  - intros ([[id|id] t o| |] & Hin & Heq); try discriminate.
    injection Heq as <-. eauto.
  - intros (t & o & Hin). eexists. split; [exact Hin|done].
Qed.

Lemma elem_of_shownAppointments (tr : list Obs) (x : string) :
  x ∈ shownAppointments tr <-> exists t o, ObsShow (OfAppointment x) t o ∈ tr.
Proof.
  unfold shownAppointments. rewrite list_elem_of_omap. split.
  - intros ([[id|id] t o| |] & Hin & Heq); try discriminate.
    injection Heq as <-. eauto.
  - intros (t & o & Hin). eexists. split; [exact Hin|done].
Qed.

(** Only a medication tick shows medications, and only due ones that are
    not in the notified-set. *)
Lemma handler_shownMedications (e : Event) (s : AppState) (x : string) :
  x ∈ shownMedications (handler tz host e s).1.2 ->
  exists now med,
    e = EvMedicationTick now /\ permission s = perm_granted /\
    med ∈ medications s /\ med_id med = x /\
    isMedicationDue tz now med = true /\ x ∉ notifiedIds s.
Proof.
  intros (t & o & Hin)%elem_of_shownMedications.
  apply handler_shows in Hin
    as [(now & med & -> & Hp & Hdue & Hsub)|(now & appt & _ & _ & _ & Hsub)];
    [|discriminate].
  injection Hsub as ->. exists now, med.
  apply elem_of_filter in Hdue as [Hin Hdue].
  apply andb_prop in Hdue as [Hdue Hnot].
  apply negb_true_iff, bool_decide_eq_false in Hnot. done.
Qed.

Lemma handler_shownAppointments (e : Event) (s : AppState) (x : string) :
  x ∈ shownAppointments (handler tz host e s).1.2 ->
  exists now appt,
    e = EvAppointmentTick now /\ permission s = perm_granted /\
    appt ∈ appointments s /\ appt_id appt = x /\
    isAppointmentUpcoming tz now appt = true.
Proof.
  intros (t & o & Hin)%elem_of_shownAppointments.
  apply handler_shows in Hin
    as [(now & med & _ & _ & _ & Hsub)|(now & appt & -> & Hp & Hup & Hsub)];
    [discriminate|].
  injection Hsub as ->. exists now, appt.
  apply elem_of_filter in Hup as [Hin Hup]. done.
Qed.

(** What an event does to the ids of the medications. *)
Lemma handler_medication_ids (e : Event) (s : AppState) :
  med_id <$> medications (handler tz host e s).1.1 =
  match e with
  | EvAddMedication id name _ time =>
      if negb (bool_decide (name = "")) && negb (bool_decide (time = ""))
      then (med_id <$> medications s) ++ [id]
      else med_id <$> medications s
  | EvDeleteMedication id =>
      med_id <$> List.filter (fun med => negb (bool_decide (med_id med = id)))
                   (medications s)
  | _ => med_id <$> medications s
  end.
Proof.
  destruct e; cbn [handler].
  - rewrite medicationPoll_run. destruct (decide _) as [Hp|]; [|done].
    by destruct (medicationTick_frame tz host now s Hp) as (-> & _).
  - rewrite appointmentPoll_run. destruct (decide _) as [Hp|]; [|done].
    by destruct (appointmentTick_frame tz host now s Hp) as (-> & _).
  - rewrite dailyReset_run. cbn. change (map ?f ?l) with (f <$> l).
    rewrite <- list_fmap_compose. done.
  - unfold addMedication.
    destruct (negb (bool_decide (name = "")) && negb (bool_decide (time = "")));
      [|done].
    unfold_handler. cbn. destruct (bool_decide _); cbn; by rewrite fmap_app.
  - rewrite toggleMedicationTaken_run. cbn. change (map ?f ?l) with (f <$> l).
    rewrite <- list_fmap_compose. apply list_fmap_ext. intros i med _. cbn.
    by destruct (decide _).
  - unfold deleteMedication. unfold_handler. cbn. by destruct (bool_decide _).
  - by run_action.
  - by run_action.
  - by run_action.
Qed.

Lemma handler_medications_NoDup (e : Event) (es : list Event) (s : AppState) :
  NoDup ((med_id <$> medications s) ++ addedMedications (e :: es)) ->
  NoDup ((med_id <$> medications (handler tz host e s).1.1)
           ++ addedMedications es).
Proof.
  rewrite handler_medication_ids. destruct e; cbn -[List.filter]; try done.
  - destruct (_ && _).
    + by rewrite <- app_assoc.
    + rewrite !NoDup_app, NoDup_cons. set_solver.
  - rewrite !NoDup_app. intros (Hnd & Hdisj & Hes). repeat split; [| |done].
    + by apply NoDup_filter_ids.
    + intros x Hx. apply Hdisj.
      eapply elem_of_sublist; [exact Hx|apply filter_ids_sublist].
Qed.

Lemma medication_tick_or_not (e : Event) :
  (exists now, e = EvMedicationTick now) \/ (forall now, e <> EvMedicationTick now).
Proof. destruct e; eauto. Qed.

Lemma shownMedications_other (e : Event) (s : AppState) :
  (forall now, e <> EvMedicationTick now) ->
  shownMedications (handler tz host e s).1.2 = [].
Proof.
  intros Hne.
  destruct (shownMedications _) as [|x l] eqn:E; [done|].
  assert (x ∈ shownMedications (handler tz host e s).1.2) as Hx
    by (rewrite E; left).
  apply handler_shownMedications in Hx as (now & _ & -> & _).
  by destruct (Hne now).
Qed.

Lemma medicationTick_normal (now : Z) (s : AppState) :
  permission s = perm_granted ->
  (medicationTick tz host now s).2 = Normal tt ->
  constructs host medicationTitle medicationOptions (dueMedications tz now s)
  = true.
Proof.
  intros Hp Hn.
  destruct (constructs _ _ _ _) eqn:Hc; [done|].
  destruct (medicationTick_throw tz host now s Hp Hc) as [_ Ht]. congruence.
Qed.

Lemma appointmentTick_normal (now : Z) (s : AppState) :
  permission s = perm_granted ->
  (appointmentTick tz host now s).2 = Normal tt ->
  constructs host appointmentTitle appointmentOptions (upcoming tz now s) = true.
Proof.
  intros Hp Hn.
  destruct (constructs _ _ _ _) eqn:Hc; [done|].
  destruct (appointmentTick_throw tz host now s Hp Hc) as [_ Ht]. congruence.
Qed.

(** Outside the daily reset, an event that returns leaves the notified-set
    as it was plus the medication ids it showed. *)
Lemma handler_notifiedIds (e : Event) (s : AppState) :
  isReset e = false ->
  (handler tz host e s).2 = Normal tt ->
  notifiedIds (handler tz host e s).1.1
  = notifiedIds s ∪ list_to_set (shownMedications (handler tz host e s).1.2).
Proof.
  intros Hr Hn.
  destruct (medication_tick_or_not e) as [[now ->]|Hne].
  - revert Hn. cbn [handler]. rewrite medicationPoll_run.
    destruct (decide _) as [Hp|]; cbn; [|by rewrite (right_id_L ∅ (∪))].
    intros Hn%medicationTick_normal; [|done].
    rewrite (medicationTick_ok tz host now s Hp Hn). cbn.
    by rewrite shownMedications_notifyTrace.
  - rewrite shownMedications_other by done.
    cbn. rewrite (right_id_L ∅ (∪)).
    destruct e; cbn [handler]; try discriminate.
    + by destruct (Hne now).
    + rewrite appointmentPoll_run. destruct (decide _) as [Hp|]; [|done].
      by destruct (appointmentTick_frame tz host now s Hp) as (_ & -> & _).
    + by run_action.
    + by run_action.
    + by run_action.
    + by run_action.
    + by run_action.
    + by run_action.
Qed.

Lemma handler_shown_NoDup (e : Event) (s : AppState) :
  NoDup (med_id <$> medications s) ->
  (handler tz host e s).2 = Normal tt ->
  NoDup (shownMedications (handler tz host e s).1.2).
Proof.
  intros Hnd Hn.
  destruct (medication_tick_or_not e) as [[now ->]|Hne].
  - revert Hn. cbn [handler]. rewrite medicationPoll_run.
    destruct (decide _) as [Hp|]; cbn; [|constructor].
    intros Hn%medicationTick_normal; [|done].
    rewrite (medicationTick_ok tz host now s Hp Hn). cbn.
    rewrite shownMedications_notifyTrace. by apply NoDup_filter_ids.
  - rewrite shownMedications_other by done.
    constructor.
Qed.

(** The dedup invariant over a run without a daily reset. *)
Lemma run_dedup (es : list Event) (s : AppState) :
  NoDup ((med_id <$> medications s) ++ addedMedications es) ->
  existsb isReset es = false ->
  completes tz host es s = true ->
  NoDup (shownMedications (run tz host es s).2) /\
  (forall id, id ∈ shownMedications (run tz host es s).2 -> id ∉ notifiedIds s) /\
  notifiedIds (run tz host es s).1
  = notifiedIds s ∪ list_to_set (shownMedications (run tz host es s).2).
Proof.
  revert s. induction es as [|e es IH]; intros s Hnd Hr Hc.
  - cbn. split; [constructor|]. split; [by intros id ?%elem_of_nil|].
    by rewrite (right_id_L ∅ (∪)).
  - cbn [existsb] in Hr. apply orb_false_elim in Hr as [He Hes].
    apply completes_cons in Hc as [Hn Hc].
    pose proof (handler_medications_NoDup e es s Hnd) as Hnd1.
    destruct (IH _ Hnd1 Hes Hc) as (IH1 & IH2 & IH3).
    pose proof (handler_notifiedIds e s He Hn) as Hids.
    assert (NoDup (med_id <$> medications s)) as Hnd0
      by (by apply NoDup_app in Hnd as [? _]).
    pose proof (handler_shown_NoDup e s Hnd0 Hn) as Hsh.
    rewrite run_cons. cbn [fst snd]. rewrite shownMedications_app.
    split; [|split].
    + apply NoDup_app. split; [done|]. split; [|done].
      intros x Hx Hx2. apply IH2 in Hx2. apply Hx2. rewrite Hids.
      apply elem_of_union_r. by apply elem_of_list_to_set.
    + intros id [Hx|Hx]%elem_of_app.
      * by apply handler_shownMedications in Hx as (_ & _ & _ & _ & _ & _ & _ & ?).
      * apply IH2 in Hx. rewrite Hids in Hx. set_solver.
    + rewrite IH3, Hids, list_to_set_app_L. set_solver.
Qed.

End Runs.

(** ** A tick in which show throws *)

Section Thrown.
Variables (tz : Z) (host : Host).

Lemma forEach_notify_first {A} (subject : A -> Subject) title
    (options : A -> NotificationOptions) (x : A) (l : list A) (s : AppState) :
  ObsShow (subject x) title (options x) ∈
    (forEach (fun x => notify host (subject x) title (options x)) (x :: l) s).1.2.
Proof.
  rewrite forEach_cons, bind_run. cbn beta. rewrite notify_run.
  destruct (decide _); [destruct (host_construct _ _ _)|]; cbn;
    try destruct (forEach _ l s) as [[s' o'] r']; cbn; left.
Qed.

Lemma medicationTick_thrown (now : Z) (s : AppState) :
  permission s = perm_granted ->
  (medicationTick tz host now s).2 = Throw ->
  constructs host medicationTitle medicationOptions (dueMedications tz now s)
  = false.
Proof.
  intros Hp Ht.
  destruct (constructs _ _ _ _) eqn:Hc; [|done].
  rewrite (medicationTick_ok tz host now s Hp Hc) in Ht. discriminate.
Qed.

Lemma medicationTick_first (now : Z) (s : AppState) (med : Medication)
    (due : list Medication) :
  dueMedications tz now s = med :: due ->
  med_id med ∈ shownMedications (medicationTick tz host now s).1.2.
Proof.
  intros Hdue. apply elem_of_shownMedications.
  exists medicationTitle, (medicationOptions med).
  unfold medicationTick. rewrite bind_run. cbn. rewrite Hdue.
  enter_loop. rewrite bind_run.
  pose proof (forEach_notify_first (fun med => OfMedication (med_id med))
                medicationTitle medicationOptions med due s) as Hfirst.
  destruct (forEach _ (med :: due) s) as [[s' o'] [[]|]]; cbn in *;
    rewrite ?app_nil_r; done.
Qed.

(** The clock reading enters a tick through the list of matched records
    only. *)
Lemma medicationTick_same_due (now now' : Z) (s : AppState) :
  dueMedications tz now' s = dueMedications tz now s ->
  medicationTick tz host now' s = medicationTick tz host now s.
Proof.
  intros Hdue. unfold medicationTick. rewrite !bind_run. cbn.
  by rewrite Hdue.
Qed.

(** A tick that throws has called show for a medication it matched and
    has changed no cell. *)
Lemma medicationTick_thrown_spec (now : Z) (s : AppState) :
  permission s = perm_granted ->
  (medicationTick tz host now s).2 = Throw ->
  (medicationTick tz host now s).1.1 = s /\
  exists med, med ∈ dueMedications tz now s /\
              med_id med ∈ shownMedications (medicationTick tz host now s).1.2.
Proof.
  intros Hp Ht. pose proof (medicationTick_thrown now s Hp Ht) as Hc.
  destruct (medicationTick_throw tz host now s Hp Hc) as [Hs _].
  split; [done|].
  destruct (dueMedications tz now s) as [|med due] eqn:Hdue; [discriminate Hc|].
  exists med. split; [left|]. by eapply medicationTick_first.
Qed.

Lemma appointmentTick_thrown (now : Z) (s : AppState) :
  permission s = perm_granted ->
  (appointmentTick tz host now s).2 = Throw ->
  constructs host appointmentTitle appointmentOptions (upcoming tz now s)
  = false.
Proof.
  intros Hp Ht.
  destruct (constructs _ _ _ _) eqn:Hc; [|done].
  rewrite (appointmentTick_ok tz host now s Hp Hc) in Ht. discriminate.
Qed.

Lemma appointmentTick_first (now : Z) (s : AppState) (appt : Appointment)
    (up : list Appointment) :
  upcoming tz now s = appt :: up ->
  appt_id appt ∈ shownAppointments (appointmentTick tz host now s).1.2.
Proof.
  intros Hup. apply elem_of_shownAppointments.
  exists appointmentTitle, (appointmentOptions appt).
  unfold appointmentTick. rewrite bind_run. cbn. rewrite Hup.
  enter_loop. rewrite bind_run.
  pose proof (forEach_notify_first (fun appt => OfAppointment (appt_id appt))
                appointmentTitle appointmentOptions appt up s) as Hfirst.
  destruct (forEach _ (appt :: up) s) as [[s' o'] [[]|]]; cbn in *;
    rewrite ?app_nil_r; done.
Qed.

Lemma appointmentTick_same_upcoming (now now' : Z) (s : AppState) :
  upcoming tz now' s = upcoming tz now s ->
  appointmentTick tz host now' s = appointmentTick tz host now s.
Proof.
  intros Hup. unfold appointmentTick. rewrite !bind_run. cbn.
  by rewrite Hup.
Qed.

Lemma appointmentTick_thrown_spec (now : Z) (s : AppState) :
  permission s = perm_granted ->
  (appointmentTick tz host now s).2 = Throw ->
  (appointmentTick tz host now s).1.1 = s /\
  exists appt, appt ∈ upcoming tz now s /\
               appt_id appt ∈ shownAppointments (appointmentTick tz host now s).1.2.
Proof.
  intros Hp Ht. pose proof (appointmentTick_thrown now s Hp Ht) as Hc.
  destruct (appointmentTick_throw tz host now s Hp Hc) as [Hs _].
  split; [done|].
  destruct (upcoming tz now s) as [|appt up] eqn:Hup; [discriminate Hc|].
  exists appt. split; [left|]. by eapply appointmentTick_first.
Qed.

End Thrown.

(** C1, as the code has it.  A medication tick calls show only for
    medications whose id is not in the notified-set (and that are due, and
    in the collection), and a tick whose show calls all return has called
    show for exactly the medications it matched and leaves the
    notified-set as it was plus their ids.  Hence, over any run of ticks
    and user actions without a daily reset, in which ids are unique
    ([generateId] never repeats one) and every show call returns, no
    medication id is shown twice, whatever the number of ticks at which it
    is due and not taken; none of the ids shown was in the notified-set
    the run started from; and the notified-set at the end is the initial
    one plus the ids shown.  A tick in which a show call throws ends with
    the exception before the set is updated: it has called show for a
    medication it matched, whose id is not added, it changes no cell, and
    a later tick that matches the same medications repeats its show calls
    and throws again. *)
Theorem medication_dedup (tz : Z) (host : Host) :
  (forall e s id,
     id ∈ shownMedications (handler tz host e s).1.2 -> id ∉ notifiedIds s) /\
  (forall now s,
     permission s = perm_granted ->
     (medicationTick tz host now s).2 = Normal tt ->
     shownMedications (medicationTick tz host now s).1.2
     = med_id <$> dueMedications tz now s /\
     notifiedIds (medicationTick tz host now s).1.1
     = notifiedIds s ∪ list_to_set (med_id <$> dueMedications tz now s) /\
     (forall med,
        med ∈ dueMedications tz now s <->
        med ∈ medications s /\ isMedicationDue tz now med = true /\
        med_id med ∉ notifiedIds s)) /\
  (forall es s,
     NoDup ((med_id <$> medications s) ++ addedMedications es) ->
     existsb isReset es = false ->
     completes tz host es s = true ->
     NoDup (shownMedications (run tz host es s).2) /\
     (forall id, id ∈ shownMedications (run tz host es s).2 ->
                 id ∉ notifiedIds s) /\
     notifiedIds (run tz host es s).1
     = notifiedIds s ∪ list_to_set (shownMedications (run tz host es s).2)) /\
  (forall now s,
     permission s = perm_granted ->
     (medicationTick tz host now s).2 = Throw ->
     (medicationTick tz host now s).1.1 = s /\
     (exists med,
        med ∈ dueMedications tz now s /\
        med_id med ∈ shownMedications (medicationTick tz host now s).1.2 /\
        med_id med ∉ notifiedIds (medicationTick tz host now s).1.1) /\
     (forall now',
        dueMedications tz now' s = dueMedications tz now s ->
        medicationTick tz host now' (medicationTick tz host now s).1.1
        = medicationTick tz host now s)).
Proof.
  split; [|split; [|split]].
  - intros e s id Hx.
    by apply handler_shownMedications in Hx as (_ & _ & _ & _ & _ & _ & _ & ?).
  - intros now s Hp Hn. apply medicationTick_normal in Hn; [|done].
    rewrite (medicationTick_ok tz host now s Hp Hn). cbn.
    rewrite shownMedications_notifyTrace.
    split; [done|]. split; [done|]. intros med. split.
    + intros [Hin [Hdue Hnot]%andb_prop]%elem_of_filter.
      by apply negb_true_iff, bool_decide_eq_false in Hnot.
    + intros (Hin & Hdue & Hnot). apply elem_of_filter. split; [done|].
      rewrite Hdue. cbn. by apply negb_true_iff, bool_decide_eq_false.
  - apply run_dedup.
  - intros now s Hp Ht.
    destruct (medicationTick_thrown_spec tz host now s Hp Ht)
      as (Hs & med & Hin & Hshown).
    split; [done|]. split.
    + exists med. split; [done|]. split; [done|]. rewrite Hs.
      apply elem_of_filter in Hin as [_ [_ Hnot]%andb_prop].
      by apply negb_true_iff, bool_decide_eq_false in Hnot.
    + intros now' Hdue. rewrite Hs. by apply medicationTick_same_due.
Qed.

Lemma medication_dedup_witness :
  (permission grantedState = perm_granted /\
   (medicationTick 0 plainHost 36000000 grantedState).2 = Normal tt /\
   shownMedications (medicationTick 0 plainHost 36000000 grantedState).1.2
   = med_id <$> dueMedications 0 36000000 grantedState) /\
  (NoDup ((med_id <$> medications grantedState) ++ addedMedications sampleDay) /\
   existsb isReset sampleDay = false /\
   completes 0 plainHost sampleDay grantedState = true /\
   shownMedications (run 0 plainHost sampleDay grantedState).2
   = ["m1"; "m2"; "m3"] /\
   NoDup (shownMedications (run 0 plainHost sampleDay grantedState).2)) /\
  ((medicationTick 0 throwingHost 36000000 grantedState).2 = Throw /\
   dueMedications 0 36030000 grantedState
   = dueMedications 0 36000000 grantedState /\
   medicationTick 0 throwingHost 36030000
     (medicationTick 0 throwingHost 36000000 grantedState).1.1
   = medicationTick 0 throwingHost 36000000 grantedState).
Proof.
  assert ((medicationTick 0 plainHost 36000000 grantedState).2 = Normal tt)
    as Hn by (vm_compute; reflexivity).
  assert (NoDup ((med_id <$> medications grantedState) ++ addedMedications sampleDay))
    as Hnd by (apply (bool_decide_unpack _); vm_compute; exact I).
  assert (existsb isReset sampleDay = false) as Hr by reflexivity.
  assert (completes 0 plainHost sampleDay grantedState = true) as Hc
    by (vm_compute; reflexivity).
  assert ((medicationTick 0 throwingHost 36000000 grantedState).2 = Throw)
    as Ht by (vm_compute; reflexivity).
  assert (dueMedications 0 36030000 grantedState
          = dueMedications 0 36000000 grantedState) as Hdue
    by (vm_compute; reflexivity).
  split.
  { split; [reflexivity|]. split; [exact Hn|].
    apply (proj1 (proj2 (medication_dedup 0 plainHost)) 36000000 grantedState
             eq_refl Hn). }
  split.
  { split; [exact Hnd|]. split; [exact Hr|]. split; [exact Hc|].
    split; [vm_compute; reflexivity|].
    apply (proj1 (proj2 (proj2 (medication_dedup 0 plainHost)))
             sampleDay grantedState Hnd Hr Hc). }
  split; [exact Ht|]. split; [exact Hdue|].
  apply (proj2 (proj2 (proj2 (medication_dedup 0 throwingHost)))
           36000000 grantedState eq_refl Ht).
  exact Hdue.
Defined.

(** C1 as stated fails: with unique ids and no reset, on a host whose
    constructor throws, every tick matches the same medication, calls show
    for it and throws before the notified-set is updated, so the id is
    passed to show at each of the three ticks; and on a host whose
    constructor throws for the second of two matched medications, the
    first one is displayed again at the next tick. *)
Lemma medication_shown_every_tick :
  (NoDup ((med_id <$> medications grantedState)
            ++ addedMedications morningTicks) /\
   existsb isReset morningTicks = false /\
   shownMedications (run 0 throwingHost morningTicks grantedState).2
   = ["m1"; "m1"; "m1"] /\
   notifiedIds (run 0 throwingHost morningTicks grantedState).1 = ∅ /\
   ~ NoDup (shownMedications (run 0 throwingHost morningTicks grantedState).2)) /\
  (NoDup ((med_id <$> medications grantedState) ++ addedMedications nightTicks) /\
   existsb isReset nightTicks = false /\
   shownMedications (run 0 pickyHost nightTicks grantedState).2
   = ["m1"; "m2"; "m1"; "m2"] /\
   displayed (run 0 pickyHost nightTicks grantedState).2
   = [(medicationTitle, medicationOptions aspirin);
      (medicationTitle, medicationOptions aspirin)] /\
   ~ NoDup (shownMedications (run 0 pickyHost nightTicks grantedState).2)).
Proof.
  split.
  - split; [apply (bool_decide_unpack _); vm_compute; exact I|].
    split; [reflexivity|]. split; [vm_compute; reflexivity|].
    split; [vm_compute; reflexivity|].
    intros H. apply (bool_decide_pack _) in H. vm_compute in H. exact H.
  - split; [apply (bool_decide_unpack _); vm_compute; exact I|].
    split; [reflexivity|]. split; [vm_compute; reflexivity|].
    split; [vm_compute; reflexivity|].
    intros H. apply (bool_decide_pack _) in H. vm_compute in H. exact H.
Qed.

(** ** Deleting a medication *)

Lemma deleteMedication_run (id : string) (s : AppState) :
  deleteMedication id s =
  (mkState
     (List.filter (fun med => negb (bool_decide (med_id med = id)))
        (medications s))
     (notifiedIds s) (showPermissionBanner s) (journalEntries s)
     (appointments s) (archivedFiles s)
     (if bool_decide (tip_medId (tooltip s) = Some id)
      then mkTooltip None "" false else tooltip s)
     (permission s),
   [], Normal tt).
Proof.
  unfold deleteMedication, handleCloseTooltip. unfold_handler. cbn.
  by destruct (bool_decide _).
Qed.





(** ** The appointment flags *)

Lemma withNotified_true (appt : Appointment) :
  appt_notified appt = true -> withNotified true appt = appt.
Proof. destruct appt. cbn. by intros ->. Qed.

Lemma NoDup_fmap_eq {A} (f : A -> string) (l : list A) (x y : A) :
  NoDup (f <$> l) -> x ∈ l -> y ∈ l -> f x = f y -> x = y.
Proof.
  induction l as [|z l IH]; [by intros _ ?%elem_of_nil|].
  rewrite fmap_cons, NoDup_cons, !elem_of_cons.
  intros [Hz Hnd] [->|Hx] [->|Hy] Heq; auto.
  - destruct Hz. rewrite Heq. by apply list_elem_of_fmap_2.
  - destruct Hz. rewrite <- Heq. by apply list_elem_of_fmap_2.
Qed.

(** What the targeted update does to one record: it sets the flag when
    some matched record carries the same id, and returns the record as it
    is otherwise. *)
Lemma markNotified_lookup (up prev : list Appointment) (i : nat)
    (appt : Appointment) :
  prev !! i = Some appt ->
  markNotified up prev !! i
  = Some (if bool_decide (appt_id appt ∈ appt_id <$> up)
          then withNotified true appt else appt).
Proof.
  intros Hi. unfold markNotified. change (map ?f ?l) with (f <$> l).
  rewrite list_lookup_fmap, Hi. cbn. f_equal.
  destruct (List.find _ up) as [u|] eqn:E.
  - apply find_some in E as [Hin Heq%bool_decide_eq_true].
    rewrite bool_decide_eq_true_2; [done|].
    rewrite <- Heq. apply list_elem_of_fmap_2. by apply list_elem_of_In.
  - rewrite bool_decide_eq_false_2; [done|].
    intros (u & Heq & Hin)%list_elem_of_fmap.
    apply list_elem_of_In in Hin.
    pose proof (find_none _ _ E u Hin) as Hu. cbn in Hu.
    by apply bool_decide_eq_false in Hu.
Qed.

Lemma markNotified_unique (p : Appointment -> bool) (l : list Appointment) :
  NoDup (appt_id <$> l) ->
  markNotified (List.filter p l) l
  = map (fun appt => if p appt then withNotified true appt else appt) l.
Proof.
  intros Hnd. apply list_eq. intros i.
  change (map ?f l) with (f <$> l). rewrite list_lookup_fmap.
  destruct (l !! i) as [appt|] eqn:Hi.
  - rewrite (markNotified_lookup _ _ _ _ Hi). cbn. f_equal.
    assert (appt ∈ l) as Hin by (by eapply list_elem_of_lookup_2).
    destruct (p appt) eqn:Hp.
    + rewrite bool_decide_eq_true_2; [done|].
      apply list_elem_of_fmap_2. by apply elem_of_filter.
    + rewrite bool_decide_eq_false_2; [done|].
      intros (u & Heq & [Hu Hpu]%elem_of_filter)%list_elem_of_fmap.
      assert (appt = u) as -> by (by eapply NoDup_fmap_eq). congruence.
  - unfold markNotified. change (map ?f l) with (f <$> l).
    by rewrite list_lookup_fmap, Hi.
Qed.

Lemma isAppointmentUpcoming_unnotified (tz now : Z) (appt : Appointment) :
  isAppointmentUpcoming tz now appt = true -> appt_notified appt = false.
Proof. by intros [? _]%isAppointmentUpcoming_iff. Qed.

Section OneShot.
Variables (tz : Z) (host : Host).

Lemma markNotified_flagged (x : string) (up l : list Appointment) :
  flagged x l -> flagged x (markNotified up l).
Proof.
  intros Hl appt (i & Hi)%list_elem_of_lookup_1.
  destruct (l !! i) as [a|] eqn:Ha.
  - rewrite (markNotified_lookup _ _ _ _ Ha) in Hi. injection Hi as <-.
    assert (a ∈ l) as Hin by (by eapply list_elem_of_lookup_2).
    destruct (bool_decide _); [by destruct a|]. by apply Hl.
  - unfold markNotified in Hi. change (map ?f l) with (f <$> l) in Hi.
    by rewrite list_lookup_fmap, Ha in Hi.
Qed.

Lemma handler_flagged (x : string) (e : Event) (s : AppState) :
  flagged x (appointments s) ->
  x ∉ addedAppointments [e] ->
  flagged x (appointments (handler tz host e s).1.1).
Proof.
  intros Hs He. destruct e; cbn [handler].
  - rewrite medicationPoll_run. destruct (decide _) as [Hp|]; [|done].
    by destruct (medicationTick_frame tz host now s Hp) as (_ & -> & _).
  - rewrite appointmentPoll_run. destruct (decide _) as [Hp|]; [|done].
    destruct (appointmentTick_frame tz host now s Hp)
      as (_ & _ & _ & _ & [->| ->]); [done|].
    by apply markNotified_flagged.
  - by rewrite dailyReset_run.
  - by run_action.
  - by rewrite toggleMedicationTaken_run.
  - by rewrite deleteMedication_run.
  - unfold addAppointment. destruct (_ && _); [|done].
    unfold_handler. cbn. intros appt [Hin|Hin]%elem_of_app; [by apply Hs|].
    apply list_elem_of_singleton in Hin as ->. cbn. intros ->.
    destruct He. cbn. left.
  - unfold deleteAppointment. unfold_handler. cbn.
    intros appt [Hin _]%elem_of_filter. by apply Hs.
  - by run_action.
Qed.

Lemma run_one_shot (x : string) (es : list Event) (s : AppState) :
  flagged x (appointments s) ->
  x ∉ addedAppointments es ->
  (x ∉ shownAppointments (run tz host es s).2) /\
  flagged x (appointments (run tz host es s).1).
Proof.
  revert s. induction es as [|e es IH]; intros s Hs Hes.
  - cbn. split; [by intros ?%elem_of_nil|done].
  - assert ((x ∉ addedAppointments es) /\ (x ∉ addedAppointments [e]))
      as [Hes' He].
    { change (e :: es) with ([e] ++ es) in Hes. unfold addedAppointments in *.
      rewrite omap_app in Hes. set_solver. }
    pose proof (handler_flagged x e s Hs He) as Hs1.
    destruct (IH _ Hs1 Hes') as [IH1 IH2].
    rewrite run_cons. cbn [fst snd]. rewrite shownAppointments_app.
    split; [|done].
    intros [Hx|Hx]%elem_of_app; [|done].
    apply handler_shownAppointments in Hx as (now & appt & _ & _ & Hin & Hid & Hup).
    apply isAppointmentUpcoming_unnotified in Hup.
    rewrite (Hs appt Hin Hid) in Hup. discriminate.
Qed.

End OneShot.

(** C4, as the code has it.  An appointment tick, whether it returns or
    throws, leaves every record whose flag is [true] exactly as it is, at
    its place, and calls show only for records whose flag is [false] (and
    that are upcoming).  A tick whose show calls all return, on a
    collection with unique ids, sets the flag on exactly the records it
    matched as upcoming, which it has shown, and leaves every other record
    untouched.  Over any run of ticks and user actions, once the records
    under an id are flagged, and the id is not handed out again, no show
    call is made for that id and its records stay flagged.  A tick in
    which a show call throws sets no flag at all: it changes no cell, it
    has called show for a record it matched, which stays unflagged, and a
    later tick that matches the same records repeats its show calls and
    throws again. *)
Theorem appointment_one_shot (tz : Z) (host : Host) :
  (forall now s i appt,
     permission s = perm_granted ->
     appointments s !! i = Some appt ->
     appt_notified appt = true ->
     appointments (appointmentTick tz host now s).1.1 !! i = Some appt) /\
  (forall e s x,
     x ∈ shownAppointments (handler tz host e s).1.2 ->
     exists now appt,
       e = EvAppointmentTick now /\ appt ∈ appointments s /\ appt_id appt = x /\
       appt_notified appt = false /\ isAppointmentUpcoming tz now appt = true) /\
  (forall now s,
     permission s = perm_granted ->
     NoDup (appt_id <$> appointments s) ->
     (appointmentTick tz host now s).2 = Normal tt ->
     appointments (appointmentTick tz host now s).1.1
     = map (fun appt => if isAppointmentUpcoming tz now appt
                        then withNotified true appt else appt)
         (appointments s) /\
     shownAppointments (appointmentTick tz host now s).1.2
     = appt_id <$> List.filter (isAppointmentUpcoming tz now) (appointments s)) /\
  (forall es s x,
     flagged x (appointments s) ->
     x ∉ addedAppointments es ->
     (x ∉ shownAppointments (run tz host es s).2) /\
     flagged x (appointments (run tz host es s).1)) /\
  (forall now s,
     permission s = perm_granted ->
     (appointmentTick tz host now s).2 = Throw ->
     (appointmentTick tz host now s).1.1 = s /\
     (exists appt,
        appt ∈ appointments (appointmentTick tz host now s).1.1 /\
        isAppointmentUpcoming tz now appt = true /\
        appt_notified appt = false /\
        appt_id appt ∈ shownAppointments (appointmentTick tz host now s).1.2) /\
     (forall now',
        upcoming tz now' s = upcoming tz now s ->
        appointmentTick tz host now' (appointmentTick tz host now s).1.1
        = appointmentTick tz host now s)).
Proof.
  split; [|split; [|split; [|split]]].
  - intros now s i appt Hp Hi Hn.
    destruct (appointmentTick_frame tz host now s Hp)
      as (_ & _ & _ & _ & [->| ->]); [done|].
    rewrite (markNotified_lookup _ _ _ _ Hi). f_equal.
    destruct (bool_decide _); [by apply withNotified_true|done].
  - intros e s x Hx.
    apply handler_shownAppointments in Hx as (now & appt & -> & _ & Hin & Hid & Hup).
    exists now, appt. repeat split; try done.
    by eapply isAppointmentUpcoming_unnotified.
  - intros now s Hp Hnd Hn. apply appointmentTick_normal in Hn; [|done].
    rewrite (appointmentTick_ok tz host now s Hp Hn). cbn.
    rewrite shownAppointments_notifyTrace. split; [|done].
    by apply markNotified_unique.
  - intros es s x Hs Hes. by apply run_one_shot.
  - intros now s Hp Ht.
    destruct (appointmentTick_thrown_spec tz host now s Hp Ht)
      as (Hs & appt & Hin & Hshown).
    split; [done|]. split.
    + exists appt. rewrite Hs. apply elem_of_filter in Hin as [Hin Hup].
      split; [done|]. split; [done|]. split; [|done].
      by eapply isAppointmentUpcoming_unnotified.
    + intros now' Hup. rewrite Hs. by apply appointmentTick_same_upcoming.
Qed.

Lemma appointment_one_shot_witness :
  (appointments agendaState !! 0%nat = Some control /\
   appt_notified control = true /\
   appointments (appointmentTick 0 plainHost 1704103200000 agendaState).1.1
     !! 0%nat = Some control) /\
  (NoDup (appt_id <$> appointments agendaState) /\
   (appointmentTick 0 plainHost 1704103200000 agendaState).2 = Normal tt /\
   appointments (appointmentTick 0 plainHost 1704103200000 agendaState).1.1
   = map (fun appt => if isAppointmentUpcoming 0 1704103200000 appt
                      then withNotified true appt else appt)
       (appointments agendaState)) /\
  (flagged "a2" (appointments agendaState) /\
   ("a2" ∉ addedAppointments eve) /\
   shownAppointments (run 0 plainHost eve agendaState).2 = ["a1"] /\
   ("a2" ∉ shownAppointments (run 0 plainHost eve agendaState).2)) /\
  ((appointmentTick 0 throwingHost 1704103200000 agendaState).2 = Throw /\
   upcoming 0 1704103500000 agendaState = upcoming 0 1704103200000 agendaState /\
   appointmentTick 0 throwingHost 1704103500000
     (appointmentTick 0 throwingHost 1704103200000 agendaState).1.1
   = appointmentTick 0 throwingHost 1704103200000 agendaState).
Proof.
  assert (flagged "a2" (appointments agendaState)) as Hs.
  { intros appt Hin Hid. cbn in Hin.
    apply elem_of_cons in Hin as [->|Hin]; [reflexivity|].
    apply list_elem_of_singleton in Hin as ->. discriminate Hid. }
  assert ("a2" ∉ addedAppointments eve) as Hes
    by (apply (bool_decide_unpack _); vm_compute; exact I).
  assert (NoDup (appt_id <$> appointments agendaState)) as Hnd
    by (apply (bool_decide_unpack _); vm_compute; exact I).
  assert ((appointmentTick 0 plainHost 1704103200000 agendaState).2 = Normal tt)
    as Hn by (vm_compute; reflexivity).
  assert ((appointmentTick 0 throwingHost 1704103200000 agendaState).2 = Throw)
    as Ht by (vm_compute; reflexivity).
  assert (upcoming 0 1704103500000 agendaState
          = upcoming 0 1704103200000 agendaState) as Hup
    by (vm_compute; reflexivity).
  split.
  { split; [reflexivity|]. split; [reflexivity|].
    apply (proj1 (appointment_one_shot 0 plainHost) 1704103200000 agendaState
             0%nat control); reflexivity. }
  split.
  { split; [exact Hnd|]. split; [exact Hn|].
    apply (proj1 (proj2 (proj2 (appointment_one_shot 0 plainHost)))
             1704103200000 agendaState eq_refl Hnd Hn). }
  split.
  { split; [exact Hs|]. split; [exact Hes|].
    split; [vm_compute; reflexivity|].
    apply (proj1 (proj2 (proj2 (proj2 (appointment_one_shot 0 plainHost))))
             eve agendaState "a2" Hs Hes). }
  split; [exact Ht|]. split; [exact Hup|].
  apply (proj2 (proj2 (proj2 (proj2 (appointment_one_shot 0 throwingHost))))
           1704103200000 agendaState eq_refl Ht).
  exact Hup.
Defined.

(** C4 as stated fails: on a host whose constructor throws, with unique
    ids, a tick matches an appointment as upcoming, calls show for it and
    throws before any flag is set; the record keeps [notified = false] and
    the next tick calls show for it again. *)
Lemma appointment_flags_skipped :
  NoDup (appt_id <$> appointments agendaState) /\
  upcoming 0 1704103200000 agendaState = [turno] /\
  (appointmentTick 0 throwingHost 1704103200000 agendaState).2 = Throw /\
  shownAppointments (appointmentTick 0 throwingHost 1704103200000 agendaState).1.2
  = ["a1"] /\
  appointments (appointmentTick 0 throwingHost 1704103200000 agendaState).1.1
  = [control; turno] /\
  shownAppointments (run 0 throwingHost eve agendaState).2 = ["a1"; "a1"] /\
  appointments (appointmentTick 0 throwingHost 1704103200000 agendaState).1.1
  <> map (fun appt => if isAppointmentUpcoming 0 1704103200000 appt
                      then withNotified true appt else appt)
       (appointments agendaState).
Proof.
  split; [apply (bool_decide_unpack _); vm_compute; exact I|].
  split; [vm_compute; reflexivity|]. split; [vm_compute; reflexivity|].
  split; [vm_compute; reflexivity|]. split; [vm_compute; reflexivity|].
  split; [vm_compute; reflexivity|].
  intros H. vm_compute in H. discriminate H.
Qed.

(** * Further properties of the component *)

(** ** The calendar and the daily reset timer *)

Lemma civilOfEra_okFrom_spec (n : nat) (doe k : Z) :
  civilOfEra_okFrom n doe = true ->
  doe <= k < doe + Z.of_nat n ->
  civilOfEra_ok k = true.
Proof.
  revert doe. induction n as [|n IH]; intros doe H Hk; [lia|].
  cbn [civilOfEra_okFrom] in H. apply andb_prop in H as [H1 H2].
  destruct (decide (k = doe)) as [->|Hne]; [done|].
  apply (IH (doe + 1)); [done|lia].
Qed.

Lemma civilOfEra_whole_cycle :
  civilOfEra_okFrom (Z.to_nat 146097) 0 = true.
Proof. vm_cast_no_check (eq_refl true). Qed.

Lemma civilOfEra_ok_inv (doe y m d : Z) :
  civilOfEra doe = (y, m, d) ->
  civilOfEra_ok doe = true ->
  JS.MakeDay y m d = doe - 719468 /\ 0 <= y /\ 1 <= m <= 12 /\
  1 <= d <= JS.daysInMonth (JS.InLeapYear y) m.
Proof.
  unfold civilOfEra_ok. intros ->. rewrite !andb_true_iff.
  rewrite Z.eqb_eq, !Z.leb_le. tauto.
Qed.

Lemma civilOfEra_cycle (doe y m d : Z) :
  0 <= doe < 146097 ->
  civilOfEra doe = (y, m, d) ->
  JS.MakeDay y m d = doe - 719468 /\ 0 <= y /\ 1 <= m <= 12 /\
  1 <= d <= JS.daysInMonth (JS.InLeapYear y) m.
Proof.
  intros Hr Hc. apply (civilOfEra_ok_inv _ _ _ _ Hc).
  apply (civilOfEra_okFrom_spec _ 0 doe civilOfEra_whole_cycle).
  rewrite Z2Nat.id; lia.
Qed.

Lemma DayFromYear_cycle (y k : Z) :
  JS.DayFromYear (y + 400 * k) = JS.DayFromYear y + 146097 * k.
Proof. unfold JS.DayFromYear. Z.div_mod_to_equations. lia. Qed.

Lemma InLeapYear_cycle (y k : Z) :
  JS.InLeapYear (y + 400 * k) = JS.InLeapYear y.
Proof.
  unfold JS.InLeapYear.
  replace ((y + 400 * k) mod 4) with (y mod 4)
    by (Z.div_mod_to_equations; lia).
  replace ((y + 400 * k) mod 100) with (y mod 100)
    by (Z.div_mod_to_equations; lia).
  replace ((y + 400 * k) mod 400) with (y mod 400)
    by (Z.div_mod_to_equations; lia).
  done.
Qed.

(** [civil] inverts [JS.MakeDay], and its date exists. *)
Lemma civil_MakeDay (day y m d : Z) :
  civil day = (y, m, d) ->
  JS.MakeDay y m d = day /\ 1 <= m <= 12 /\
  1 <= d <= JS.daysInMonth (JS.InLeapYear y) m /\
  400 * ((day + 719468) / 146097) <= y.
Proof.
  unfold civil. set (z := day + 719468).
  assert (0 <= z mod 146097 < 146097) as Hdoe
    by (apply Z.mod_pos_bound; lia).
  assert (z = 146097 * (z / 146097) + z mod 146097) as Hz
    by (apply Z.div_mod; lia).
  generalize dependent (z mod 146097). generalize dependent (z / 146097).
  intros era doe Hdoe Hz.
  destruct (civilOfEra doe) as [[y0 m0] d0] eqn:Hc. intros [= <- <- <-].
  destruct (civilOfEra_cycle _ _ _ _ Hdoe Hc) as (Hmk & Hy & Hm & Hd).
  unfold JS.MakeDay in *. rewrite DayFromYear_cycle, InLeapYear_cycle.
  subst z. repeat split; lia.
Qed.

Lemma midnight_next_day (tz now : Z) :
  0 <= JS.Day (JS.LocalTime tz now) ->
  midnight tz now
  = JS.UTC tz (JS.MakeDate (JS.Day (JS.LocalTime tz now) + 1)
                 (JS.MakeTime 0 0 5 0)).
Proof.
  intros Hday. unfold midnight, getFullYear, getMonth, getDate, newDate.
  destruct (civil (JS.Day (JS.LocalTime tz now))) as [[y m] d] eqn:Hc.
  apply civil_MakeDay in Hc as (Hmk & Hm & Hd & Hy). cbn [fst snd].
  assert (1600 <= y) as Hy'.
  { assert (4 <= (JS.Day (JS.LocalTime tz now) + 719468) / 146097)
      by (apply Z.div_le_lower_bound; lia). lia. }
  replace ((0 <=? y) && (y <=? 99)) with false
    by (symmetry; apply andb_false_iff; right; apply Z.leb_gt; lia).
  replace ((m - 1) / 12) with 0 by (symmetry; apply Z.div_small; lia).
  replace ((m - 1) mod 12) with (m - 1) by (symmetry; apply Z.mod_small; lia).
  replace (y + 0) with y by lia. replace (m - 1 + 1) with m by lia.
  do 2 f_equal. unfold JS.MakeDay in *. lia.
Qed.

(** X1.  From the epoch on, the target of the daily reset timer is 00:00:05
    local time of the day after the local day of [now], whatever the month
    or year that day falls in; the delay handed to [setTimeout] is more
    than 5 seconds and at most 24 hours and 5 seconds, so it is positive
    and fits the timer's 32-bit range. *)
Theorem msUntilMidnight_bounds (tz now : Z) :
  0 <= JS.Day (JS.LocalTime tz now) ->
  JS.Day (JS.LocalTime tz (now + msUntilMidnight tz now))
  = JS.Day (JS.LocalTime tz now) + 1 /\
  JS.TimeWithinDay (JS.LocalTime tz (now + msUntilMidnight tz now)) = 5000 /\
  5000 < msUntilMidnight tz now <= JS.msPerDay + 5000 /\
  msUntilMidnight tz now < 2 ^ 31.
Proof.
  intros Hday. unfold msUntilMidnight. rewrite (midnight_next_day tz now Hday).
  destruct (day_split (JS.LocalTime tz now)) as [Hsplit Hr].
  replace (now + (JS.UTC tz
                    (JS.MakeDate (JS.Day (JS.LocalTime tz now) + 1)
                       (JS.MakeTime 0 0 5 0)) - now))
    with (JS.UTC tz (JS.MakeDate (JS.Day (JS.LocalTime tz now) + 1)
                       (JS.MakeTime 0 0 5 0))) by lia.
  unfold JS.UTC, JS.LocalTime, JS.MakeDate, JS.MakeTime, JS.msPerHour,
    JS.msPerMinute, JS.msPerSecond, JS.Day, JS.TimeWithinDay, JS.msPerDay in *.
  set (D := (now + tz) / 86400000) in *.
  replace ((D + 1) * 86400000 + (0 * 3600000 + 0 * 60000 + 5 * 1000 + 0) - tz + tz)
    with (5000 + (D + 1) * 86400000) by lia.
  rewrite Z.div_add, Z_mod_plus_full by lia.
  rewrite Z.div_small, Z.mod_small by lia.
  repeat split; lia.
Qed.

Lemma msUntilMidnight_bounds_witness :
  0 <= JS.Day (JS.LocalTime (-10800000) 1704067199999) /\
  msUntilMidnight (-10800000) 1704067199999 = 10805001 /\
  JS.TimeWithinDay
    (JS.LocalTime (-10800000)
       (1704067199999 + msUntilMidnight (-10800000) 1704067199999)) = 5000.
Proof.
  assert (0 <= JS.Day (JS.LocalTime (-10800000) 1704067199999)) as H
    by (vm_compute; discriminate).
  split; [exact H|]. split; [vm_compute; reflexivity|].
  apply (proj1 (proj2 (msUntilMidnight_bounds (-10800000) 1704067199999 H))).
Defined.

(** X2.  Re-arming does not drift: when the reset callback runs anywhere
    between its target and the end of that local day, the target it
    computes for the next reset is exactly 24 hours after the previous
    one. *)
Theorem midnight_rearm (tz now now' : Z) :
  0 <= JS.Day (JS.LocalTime tz now) ->
  midnight tz now <= now' < midnight tz now + JS.msPerDay - 5000 ->
  midnight tz now' = midnight tz now + JS.msPerDay.
Proof.
  intros Hday Hnow'.
  rewrite (midnight_next_day tz now Hday) in *.
  assert (JS.Day (JS.LocalTime tz now') = JS.Day (JS.LocalTime tz now) + 1)
    as Hd.
  { unfold JS.UTC, JS.LocalTime, JS.MakeDate, JS.MakeTime, JS.msPerHour,
      JS.msPerMinute, JS.msPerSecond, JS.Day, JS.msPerDay in *.
    set (D := (now + tz) / 86400000) in *.
    symmetry. apply Z.div_unique with (r := now' + tz - (D + 1) * 86400000); lia. }
  rewrite midnight_next_day by lia. rewrite Hd.
  unfold JS.UTC, JS.MakeDate, JS.msPerDay. lia.
Qed.

Lemma midnight_rearm_witness :
  midnight 0 (midnight 0 1704067199999 + 250) = midnight 0 1704067199999 + JS.msPerDay.
Proof.
  apply (midnight_rearm 0 1704067199999 (midnight 0 1704067199999 + 250)).
  - vm_compute. discriminate.
  - vm_compute. split; [discriminate | reflexivity].
Defined.

(** ** Asking for permission *)

Lemma requestPermission_run (host : Host) (s : AppState) :
  requestPermission host s =
  if host_supported host then
    match host_request host with
    | Some status =>
        (mkState (medications s) (notifiedIds s) (showPermissionBanner s)
           (journalEntries s) (appointments s) (archivedFiles s) (tooltip s)
           status, [], Normal tt)
    | None => (s, [ObsConsole "Error requesting notification permission:"],
               Normal tt)
    end
  else (s, [ObsConsole "Este navegador no soporta notificaciones de escritorio."],
        Normal tt).
Proof.
  unfold requestPermission. destruct (host_supported host); [|done].
  by destruct (host_request host).
Qed.

(** X3.  The banner's button never throws and always hides the banner.
    On a host without notifications, and when the permission prompt
    fails, it logs one line and leaves the permission cell as it was;
    otherwise the cell takes the prompt's answer.  No medication,
    appointment or notified id is touched, and nothing is shown. *)
Theorem enableNotifications_contained (host : Host) (s : AppState) :
  let r := enableNotifications host s in
  r.2 = Normal tt /\
  showPermissionBanner r.1.1 = false /\
  permission r.1.1
  = (if host_supported host
     then match host_request host with Some status => status | None => permission s end
     else permission s) /\
  (host_supported host = false \/ host_request host = None ->
   permission r.1.1 = permission s /\ exists msg, r.1.2 = [ObsConsole msg]) /\
  medications r.1.1 = medications s /\ notifiedIds r.1.1 = notifiedIds s /\
  appointments r.1.1 = appointments s /\
  displayed r.1.2 = [] /\ shownMedications r.1.2 = [] /\
  shownAppointments r.1.2 = [].
Proof.
  cbn zeta. unfold enableNotifications. rewrite bind_run, requestPermission_run.
  destruct (host_supported host); [destruct (host_request host)|]; cbn.
  - do 3 (split; [done|]). split; [|done]. by intros [?|?].
  - do 3 (split; [done|]). split; [|done]. intros _. split; eauto.
  - do 3 (split; [done|]). split; [|done]. intros _. split; eauto.
Qed.

Lemma enableNotifications_contained_witness :
  (host_supported bareHost = false \/ host_request bareHost = None) /\
  permission (enableNotifications bareHost initialState).1.1
  = permission initialState.
Proof.
  assert (host_supported bareHost = false \/ host_request bareHost = None) as H
    by (left; reflexivity).
  split; [exact H|].
  destruct (enableNotifications_contained bareHost initialState)
    as (_ & _ & _ & Hfail & _).
  apply (Hfail H).
Defined.

(** ** The scheduler without permission *)

Lemma displayed_app (o1 o2 : list Obs) :
  displayed (o1 ++ o2) = displayed o1 ++ displayed o2.
Proof. apply omap_app. Qed.

Lemma handler_not_granted (tz : Z) (host : Host) (e : Event) (s : AppState) :
  permission s <> perm_granted ->
  isRequest e = false ->
  permission (handler tz host e s).1.1 = permission s /\
  displayed (handler tz host e s).1.2 = [] /\
  shownMedications (handler tz host e s).1.2 = [] /\
  shownAppointments (handler tz host e s).1.2 = [].
Proof.
  intros Hp He. destruct e; cbn [handler]; try discriminate.
  - rewrite medicationPoll_run. by rewrite decide_False.
  - rewrite appointmentPoll_run. by rewrite decide_False.
  - by rewrite dailyReset_run.
  - by run_action.
  - by rewrite toggleMedicationTaken_run.
  - by rewrite deleteMedication_run.
  - by run_action.
  - by run_action.
Qed.

(** X4.  Without the ['granted'] permission both polling loops are inert:
    a tick of either changes nothing and observes nothing, and over any
    run of ticks and user actions that does not ask for permission, no show
    call is made, no notification is displayed and the permission cell
    stays as it is. *)
Theorem scheduler_inert (tz : Z) (host : Host) (s : AppState) :
  permission s <> perm_granted ->
  (forall now,
     handler tz host (EvMedicationTick now) s = (s, [], Normal tt) /\
     handler tz host (EvAppointmentTick now) s = (s, [], Normal tt)) /\
  (forall es,
     existsb isRequest es = false ->
     permission (run tz host es s).1 = permission s /\
     displayed (run tz host es s).2 = [] /\
     shownMedications (run tz host es s).2 = [] /\
     shownAppointments (run tz host es s).2 = []).
Proof.
  intros Hp. split.
  - intros now. cbn [handler].
    rewrite medicationPoll_run, appointmentPoll_run. by rewrite !decide_False.
  - intros es. revert s Hp. induction es as [|e es IH]; intros s Hp Hes; [done|].
    cbn [existsb] in Hes. apply orb_false_elim in Hes as [He Hes].
    destruct (handler_not_granted tz host e s Hp He) as (Hp1 & Hd & Hm & Ha).
    assert (permission (handler tz host e s).1.1 <> perm_granted) as Hp'
      by (by rewrite Hp1).
    destruct (IH _ Hp' Hes) as (IHp & IHd & IHm & IHa).
    rewrite run_cons. cbn [fst snd].
    rewrite displayed_app, shownMedications_app, shownAppointments_app.
    rewrite Hd, Hm, Ha, IHd, IHm, IHa, IHp. done.
Qed.

Lemma scheduler_inert_witness :
  permission initialState <> perm_granted /\
  displayed
    (run 0 plainHost
       [EvAddMedication "m1" "Aspirina" "" "09:00"; EvMedicationTick 36000000]
       initialState).2 = [].
Proof.
  assert (permission initialState <> perm_granted) as H by discriminate.
  split; [exact H|].
  apply (proj2 (scheduler_inert 0 plainHost initialState H)
           [EvAddMedication "m1" "Aspirina" "" "09:00"; EvMedicationTick 36000000]
           eq_refl).
Defined.

(** ** The reset and the next tick *)


(** X5.  The daily reset makes every medication eligible again: right
    after it, a tick matches exactly the medications whose time of day has
    passed, whatever their taken flag and whether they were notified
    before; so a medication at [HH:MM] that was taken and notified is
    matched again by a tick later than [HH:MM] on the new day. *)
Theorem dailyReset_rearms (tz now : Z) (s : AppState) :
  dueMedications tz now (dailyReset s).1.1
  = List.filter (isMedicationDue tz now) (map (withTaken false) (medications s)) /\
  (forall med h m,
     med ∈ medications s -> 0 <= h < 24 -> 0 <= m < 60 ->
     med_time med = HHMM h m ->
     JS.MakeTime h m 0 0 < JS.TimeWithinDay (JS.LocalTime tz now) ->
     withTaken false med ∈ dueMedications tz now (dailyReset s).1.1).
Proof.
  assert (dueMedications tz now (dailyReset s).1.1
          = List.filter (isMedicationDue tz now)
              (map (withTaken false) (medications s))) as Heq.
  { rewrite dailyReset_run. unfold dueMedications. cbn.
    apply filter_ext. intros med. rewrite bool_decide_eq_false_2 by set_solver.
    by rewrite andb_true_r. }
  split; [exact Heq|].
  intros med h m Hin Hh Hm Htime Hpast. rewrite Heq.
  apply elem_of_filter. split.
  - apply list_elem_of_In, in_map. by apply list_elem_of_In.
  - rewrite (isMedicationDue_HHMM tz now h m) by done.
    apply Z.ltb_lt.
    destruct (day_split (JS.LocalTime tz now)) as [Hsplit _].
    unfold JS.UTC, JS.MakeDate, JS.LocalTime in *. lia.
Qed.

Lemma dailyReset_rearms_witness :
  withTaken false (withTaken true aspirin)
  ∈ dueMedications 0 36000000
      (dailyReset
         (mkState [withTaken true aspirin] {["m1"]} false [] [] []
            (mkTooltip None "" false) perm_granted)).1.1.
Proof.
  apply (proj2 (dailyReset_rearms 0 36000000
                  (mkState [withTaken true aspirin] {["m1"]} false [] [] []
                     (mkTooltip None "" false) perm_granted))
           (withTaken true aspirin) 9 0).
  - left.
  - lia.
  - lia.
  - reflexivity.
  - vm_compute. reflexivity.
Defined.

(** ** Taken medications *)




(** ** Adding and deleting *)

Lemma filter_absent {A} (f : A -> string) (id : string) (l : list A) :
  id ∉ (f <$> l) ->
  List.filter (fun x => negb (bool_decide (f x = id))) l = l.
Proof.
  induction l as [|x l IH]; [done|].
  rewrite fmap_cons, not_elem_of_cons. intros [Hne Hl]. cbn.
  rewrite bool_decide_eq_false_2 by done. cbn. by rewrite IH.
Qed.

Lemma addMedication_run (id name dosage time : string) (s : AppState) :
  name <> "" -> time <> "" ->
  addMedication id name dosage time s =
  (mkState (medications s ++ [mkMedication id name dosage time false])
     (notifiedIds s)
     (if bool_decide (permission s = perm_default) then true
      else showPermissionBanner s)
     (journalEntries s) (appointments s) (archivedFiles s) (tooltip s)
     (permission s),
   [], Normal tt).
Proof.
  intros Hn Ht. unfold addMedication.
  rewrite !bool_decide_eq_false_2 by done. unfold_handler. cbn.
  by destruct (bool_decide _).
Qed.

(** X7.  Deleting right after adding undoes the add: for an id that is not
    in the collection, adding a medication under it and deleting that id
    gives back the collection as it was, whether or not the form was
    accepted, and leaves the notified-set alone; the same holds for
    appointments. *)
Theorem add_then_delete (s : AppState) :
  (forall id name dosage time,
     id ∉ (med_id <$> medications s) ->
     let r := (addMedication id name dosage time;; deleteMedication id) s in
     r.2 = Normal tt /\ medications r.1.1 = medications s /\
     notifiedIds r.1.1 = notifiedIds s /\ appointments r.1.1 = appointments s) /\
  (forall id date time specialty location,
     id ∉ (appt_id <$> appointments s) ->
     let r := (addAppointment id date time specialty location;;
               deleteAppointment id) s in
     r.2 = Normal tt /\ appointments r.1.1 = appointments s /\
     medications r.1.1 = medications s /\ notifiedIds r.1.1 = notifiedIds s).
Proof.
  split.
  - intros id name dosage time Hid. cbn zeta. rewrite bind_run.
    unfold addMedication.
    destruct (negb (bool_decide (name = "")) && negb (bool_decide (time = ""))).
    + unfold_handler. cbn. destruct (bool_decide (permission s = perm_default));
        cbn; rewrite deleteMedication_run; cbn;
        rewrite List.filter_app, (filter_absent med_id id _ Hid); cbn;
        rewrite bool_decide_eq_true_2 by done; cbn; by rewrite app_nil_r.
    + cbn. rewrite deleteMedication_run. cbn.
      by rewrite (filter_absent med_id id _ Hid).
  - intros id date time specialty location Hid. cbn zeta. rewrite bind_run.
    unfold addAppointment, deleteAppointment.
    destruct (_ && _); unfold_handler; cbn.
    + rewrite List.filter_app, (filter_absent appt_id id _ Hid). cbn.
      rewrite bool_decide_eq_true_2 by done. cbn. by rewrite app_nil_r.
    + by rewrite (filter_absent appt_id id _ Hid).
Qed.

Lemma add_then_delete_witness :
  ("m3" ∉ (med_id <$> medications grantedState)) /\
  medications
    ((addMedication "m3" "Vitamina D" "" "08:00";; deleteMedication "m3")
       grantedState).1.1
  = medications grantedState.
Proof.
  assert ("m3" ∉ (med_id <$> medications grantedState)) as H
    by (apply (bool_decide_unpack _); vm_compute; exact I).
  split; [exact H|].
  apply (proj1 (add_then_delete grantedState) "m3" "Vitamina D" "" "08:00" H).
Defined.

(** ** From the form to the notification *)

Lemma HHMM_nonempty (h m : Z) : HHMM h m <> "".
Proof. unfold HHMM, twoDigits. cbn. discriminate. Qed.

Lemma displayed_notifyTrace {A} (subject : A -> Subject) title
    (options : A -> NotificationOptions) (l : list A) :
  displayed (notifyTrace subject title options l)
  = (fun x => (title, options x)) <$> l.
Proof. induction l as [|x l IH]; [done|]. cbn. by f_equal. Qed.

Lemma constructs_total (host : Host) {A} title
    (options : A -> NotificationOptions) (l : list A) :
  (forall t o, host_construct host t o = true) ->
  constructs host title options l = true.
Proof.
  intros Hall. unfold constructs. apply forallb_forall. intros x _. apply Hall.
Qed.

(** X8.  A medication added through the form is notified by the next tick
    once its time has passed: with permission granted, on a host whose
    constructor returns, for a fresh id, a non-empty name and a time
    [HH:MM] earlier than the local time of day of the tick, the add
    followed by the tick calls show for the new id, displays the
    notification with the reminder title and the body built from its name
    and dosage, and puts the id in the notified-set. *)
Theorem added_medication_notified (tz : Z) (host : Host) (s : AppState)
    (id name dosage : string) (h m now : Z) :
  permission s = perm_granted ->
  (forall t o, host_construct host t o = true) ->
  id ∉ notifiedIds s ->
  name <> "" -> 0 <= h < 24 -> 0 <= m < 60 ->
  JS.MakeTime h m 0 0 < JS.TimeWithinDay (JS.LocalTime tz now) ->
  let med := mkMedication id name dosage (HHMM h m) false in
  let r := run tz host
             [EvAddMedication id name dosage (HHMM h m); EvMedicationTick now] s in
  med ∈ medications r.1 /\
  id ∈ shownMedications r.2 /\
  (medicationTitle, medicationOptions med) ∈ displayed r.2 /\
  id ∈ notifiedIds r.1.
Proof.
  intros Hp Hhost Hid Hname Hh Hm Hpast med r. subst r.
  rewrite run_cons. cbn [handler].
  rewrite (addMedication_run id name dosage (HHMM h m) s Hname (HHMM_nonempty h m)).
  cbn [fst snd]. rewrite Hp. cbn [bool_decide decide_rel]. 
  set (s1 := mkState _ _ _ _ _ _ _ _).
  rewrite run_cons. cbn [handler run fst snd].
  rewrite medicationPoll_run. rewrite decide_True by done.
  rewrite (medicationTick_ok tz host now s1 eq_refl)
    by (by apply constructs_total).
  cbn [fst snd medications notifiedIds]. rewrite app_nil_r. cbn [app].
  rewrite shownMedications_notifyTrace, displayed_notifyTrace.
  assert (med ∈ dueMedications tz now s1) as Hdue.
  { apply elem_of_filter. split; [apply elem_of_app; right; left|].
    rewrite (isMedicationDue_HHMM tz now h m med) by done.
    apply andb_true_intro. split.
    - apply Z.ltb_lt.
      destruct (day_split (JS.LocalTime tz now)) as [Hsplit _].
      unfold JS.UTC, JS.MakeDate, JS.LocalTime in *. lia.
    - apply negb_true_iff, bool_decide_eq_false. done. }
  split; [apply elem_of_app; right; left|].
  split; [by apply (list_elem_of_fmap_2 med_id) in Hdue|].
  split.
  - by apply (list_elem_of_fmap_2
                (fun x => (medicationTitle, medicationOptions x))) in Hdue.
  - apply elem_of_union_r, elem_of_list_to_set.
    by apply (list_elem_of_fmap_2 med_id) in Hdue.
Qed.

Lemma added_medication_notified_witness :
  ("Es momento de tomar: Vitamina D (2 gotas)" =
   opt_body (medicationOptions (mkMedication "m3" "Vitamina D" "2 gotas" "08:00" false))) /\
  "m3" ∈ shownMedications
           (run 0 plainHost
              [EvAddMedication "m3" "Vitamina D" "2 gotas" (HHMM 8 0);
               EvMedicationTick 36000000] grantedState).2.
Proof.
  split; [reflexivity|].
  apply (added_medication_notified 0 plainHost grantedState "m3" "Vitamina D"
           "2 gotas" 8 0 36000000).
  - reflexivity.
  - reflexivity.
  - apply (bool_decide_unpack _). vm_compute. exact I.
  - discriminate.
  - lia.
  - lia.
  - vm_compute. reflexivity.
Defined.

Lemma addAppointment_run (id date time specialty location : string)
    (s : AppState) :
  date <> "" -> time <> "" -> specialty <> "" -> location <> "" ->
  addAppointment id date time specialty location s =
  (mkState (medications s) (notifiedIds s) (showPermissionBanner s)
     (journalEntries s)
     (appointments s ++ [mkAppointment id date time specialty location false])
     (archivedFiles s) (tooltip s) (permission s),
   [], Normal tt).
Proof.
  intros Hd Ht Hs Hl. unfold addAppointment.
  by rewrite !bool_decide_eq_false_2 by done.
Qed.

Lemma markNotified_flags (x : string) (up l : list Appointment) :
  x ∈ (appt_id <$> up) -> flagged x (markNotified up l).
Proof.
  intros Hx appt (i & Hi)%list_elem_of_lookup_1 Hid.
  destruct (l !! i) as [a|] eqn:Ha.
  - rewrite (markNotified_lookup _ _ _ _ Ha) in Hi. injection Hi as <-.
    destruct (bool_decide (appt_id a ∈ appt_id <$> up)) eqn:E; [done|].
    apply bool_decide_eq_false in E. by rewrite Hid in E.
  - unfold markNotified in Hi. change (map ?f l) with (f <$> l) in Hi.
    by rewrite list_lookup_fmap, Ha in Hi.
Qed.

(** X9.  An appointment added through the form less than 24 hours before
    its instant is notified by the next tick, once: with permission
    granted, on a host whose constructor returns, the add followed by a
    tick at [now], where [now < t <= now + 24h] for the instant [t] of its
    date and time, calls show for the new id, displays the reminder built
    from its specialty and time, and leaves the record in the collection
    with its flag set; after that, whatever ticks and user actions follow,
    no show call is made for that id again unless the id is handed out
    again. *)
Theorem added_appointment_notified (tz : Z) (host : Host) (s : AppState)
    (id date time specialty location : string) (t now : Z) :
  permission s = perm_granted ->
  (forall ti o, host_construct host ti o = true) ->
  date <> "" -> time <> "" -> specialty <> "" -> location <> "" ->
  JS.parseDate tz (date +:+ "T" +:+ time) = Some t ->
  now < t <= now + 24 * JS.msPerHour ->
  let appt := mkAppointment id date time specialty location false in
  let r := run tz host
             [EvAddAppointment id date time specialty location;
              EvAppointmentTick now] s in
  id ∈ shownAppointments r.2 /\
  (appointmentTitle, appointmentOptions appt) ∈ displayed r.2 /\
  withNotified true appt ∈ appointments r.1 /\
  (forall es,
     id ∉ addedAppointments es ->
     id ∉ shownAppointments (run tz host es r.1).2).
Proof.
  intros Hp Hhost Hd Ht Hs Hl Hparse Hwin appt r. subst r.
  rewrite run_cons. cbn [handler].
  rewrite (addAppointment_run id date time specialty location s Hd Ht Hs Hl).
  cbn [fst snd]. set (s1 := mkState _ _ _ _ _ _ _ _).
  rewrite run_cons. cbn [handler run fst snd].
  rewrite appointmentPoll_run. rewrite decide_True by done.
  rewrite (appointmentTick_ok tz host now s1 Hp)
    by (by apply constructs_total).
  cbn [fst snd appointments]. rewrite app_nil_r. cbn [app].
  rewrite shownAppointments_notifyTrace, displayed_notifyTrace.
  assert (appt ∈ appointments s1) as Hin by (apply elem_of_app; right; left).
  assert (appt ∈ upcoming tz now s1) as Hup.
  { apply elem_of_filter. split; [done|].
    apply isAppointmentUpcoming_iff. split; [done|]. exists t. done. }
  assert (id ∈ appt_id <$> upcoming tz now s1) as Hid
    by (by apply (list_elem_of_fmap_2 appt_id) in Hup).
  split; [done|]. split.
  { by apply (list_elem_of_fmap_2
                (fun x => (appointmentTitle, appointmentOptions x))) in Hup. }
  split.
  - apply list_elem_of_lookup_1 in Hin as [i Hi].
    apply (list_elem_of_lookup_2 _ i).
    rewrite (markNotified_lookup _ _ _ _ Hi).
    by rewrite bool_decide_eq_true_2.
  - intros es Hes.
    apply (run_one_shot tz host id es); [|done].
    by apply markNotified_flags.
Qed.

Lemma added_appointment_notified_witness :
  "a1" ∈ shownAppointments
           (run 0 plainHost
              [EvAddAppointment "a1" "2024-01-02" "09:59" "Cardiologia" "Sala 2";
               EvAppointmentTick 1704103200000]
              (mkState [] ∅ false [] [] [] (mkTooltip None "" false)
                 perm_granted)).2.
Proof.
  apply (added_appointment_notified 0 plainHost
           (mkState [] ∅ false [] [] [] (mkTooltip None "" false) perm_granted)
           "a1" "2024-01-02" "09:59" "Cardiologia" "Sala 2"
           1704189540000 1704103200000);
    try reflexivity; try discriminate.
  vm_compute. split; [reflexivity | discriminate].
Defined.

(** ** Edges of the due-check *)

Lemma split_no_colon (s : string) :
  hasColon s = false -> JS.split ":" s = [s].
Proof.
  induction s as [|c s IH]; [done|].
  cbn [hasColon JS.split]. intros [Hc Hs]%orb_false_elim.
  rewrite Hc, (IH Hs). done.
Qed.

Lemma HHMM_parts_wide (h m : Z) :
  0 <= h < 100 -> 0 <= m < 100 ->
  JS.Number <$> JS.split ":" (HHMM h m) = [Some h; Some m].
Proof.
  intros Hh Hm.
  assert (forallb (fun h => forallb (fun m =>
            bool_decide (JS.Number <$> JS.split ":" (HHMM h m)
                         = [Some h; Some m])) (seqZ 0 100)) (seqZ 0 100) = true)
    as Hall by (vm_compute; reflexivity).
  rewrite forallb_forall in Hall.
  specialize (Hall h). rewrite <- list_elem_of_In, elem_of_seqZ in Hall.
  specialize (Hall ltac:(lia)). rewrite forallb_forall in Hall.
  specialize (Hall m). rewrite <- list_elem_of_In, elem_of_seqZ in Hall.
  specialize (Hall ltac:(lia)). by apply bool_decide_eq_true in Hall.
Qed.

(** X10.  A medication whose time string is not a time of the day is never
    due, at any moment of any day and in any zone: that is so when the
    string has no [':'] (the minutes are then [undefined] and the date
    invalid), the empty string included, and when its two-digit hour is 24
    or more (the instant then falls on the next day). *)
Theorem isMedicationDue_malformed (tz now : Z) (med : Medication) :
  (hasColon (med_time med) = false -> isMedicationDue tz now med = false) /\
  (forall h m,
     24 <= h < 100 -> 0 <= m < 100 -> med_time med = HHMM h m ->
     isMedicationDue tz now med = false).
Proof.
  split.
  - intros Hc. unfold isMedicationDue. destruct (med_isTaken med); [done|].
    rewrite (split_no_colon _ Hc). cbn.
    by destruct (JS.Number (med_time med)).
  - intros h m Hh Hm Htime. unfold isMedicationDue.
    destruct (med_isTaken med); [done|].
    rewrite Htime, HHMM_parts_wide by lia. cbn.
    apply Z.ltb_ge.
    destruct (day_split (JS.LocalTime tz now)) as [Hsplit Hr].
    unfold JS.UTC, JS.MakeDate, JS.MakeTime, JS.LocalTime, JS.msPerHour,
      JS.msPerMinute, JS.msPerSecond, JS.msPerDay in *. lia.
Qed.

Lemma isMedicationDue_malformed_witness :
  isMedicationDue 0 86399999 (mkMedication "m9" "Jarabe" "" "0900" false) = false /\
  isMedicationDue 0 86399999 (mkMedication "m9" "Jarabe" "" "24:00" false) = false.
Proof.
  split.
  - apply (proj1 (isMedicationDue_malformed 0 86399999
                    (mkMedication "m9" "Jarabe" "" "0900" false))).
    reflexivity.
  - apply (proj2 (isMedicationDue_malformed 0 86399999
                    (mkMedication "m9" "Jarabe" "" "24:00" false)) 24 0);
      [lia | lia | reflexivity].
Defined.

(** X11.  Within a local day due-ness only switches on: for a time of two
    two-digit fields [HH:MM], which is what the form's time input gives
    (fields out of range included), a medication that is due at some
    moment is due at every later moment of the same local day, as long as
    its record is not changed. *)
Theorem isMedicationDue_stays (tz now now' h m : Z) (med : Medication) :
  0 <= h < 100 -> 0 <= m < 100 ->
  med_time med = HHMM h m ->
  JS.Day (JS.LocalTime tz now) = JS.Day (JS.LocalTime tz now') ->
  now <= now' ->
  isMedicationDue tz now med = true ->
  isMedicationDue tz now' med = true.
Proof.
  intros Hh Hm Htime Hday Hle. unfold isMedicationDue.
  destruct (med_isTaken med); [done|].
  rewrite Htime, HHMM_parts_wide by lia. cbn.
  rewrite <- Hday, !Z.ltb_lt. lia.
Qed.

Lemma isMedicationDue_stays_witness :
  isMedicationDue 0 32401000 aspirin = true /\
  isMedicationDue 0 86399999 aspirin = true.
Proof.
  assert (isMedicationDue 0 32401000 aspirin = true) as H
    by (vm_compute; reflexivity).
  split; [exact H|].
  apply (isMedicationDue_stays 0 32401000 86399999 9 0 aspirin);
    [lia | lia | reflexivity | vm_compute; reflexivity | lia | exact H].
Defined.

(** ** The list of appointments *)

Lemma parseDateOnly_midnight (s : string) (t : Z) :
  parseDateOnly s = Some t -> exists d, t = JS.MakeDate d 0.
Proof.
  unfold parseDateOnly.
  destruct (JS.split "-" s) as [|ys [|ms [|ds [|? ?]]]]; try done.
  destruct (JS.field 4 ys) as [y|]; [|done].
  destruct (JS.field 2 ms) as [mo|]; [|done].
  destruct (JS.field 2 ds) as [dd|]; [|done].
  destruct (_ && _); [|done]. intros [= <-]. eauto.
Qed.

Lemma isNotPast_days (tz now d : Z) (appt : Appointment) :
  parseDateOnly (appt_date appt) = Some (JS.MakeDate d 0) ->
  isNotPast tz now appt
  = (JS.Day (JS.LocalTime tz now) * JS.msPerDay - tz <=? d * JS.msPerDay).
Proof.
  intros Hd. unfold isNotPast. rewrite Hd. cbn.
  unfold JS.UTC, JS.MakeDate, JS.MakeTime. f_equal; lia.
Qed.

(** X12.  The list of appointments compares a date read as UTC midnight
    with the start of the local day.  So, in any zone less than a day
    from UTC, an appointment dated after the local date of [now] is kept
    and one dated before it is dropped, but an appointment dated today is
    kept only in zones at or east of UTC: west of UTC it is dropped from
    the list on its own day, from local midnight on. *)
Theorem isNotPast_zone (tz now d : Z) (appt : Appointment) :
  parseDateOnly (appt_date appt) = Some (JS.MakeDate d 0) ->
  - JS.msPerDay < tz < JS.msPerDay ->
  let today := JS.Day (JS.LocalTime tz now) in
  (today < d -> isNotPast tz now appt = true) /\
  (d < today -> isNotPast tz now appt = false) /\
  (d = today -> (isNotPast tz now appt = true <-> 0 <= tz)).
Proof.
  intros Hd Htz today. rewrite (isNotPast_days tz now d appt Hd).
  fold today. unfold JS.msPerDay in *.
  split; [|split].
  - intros Hlt. apply Z.leb_le. lia.
  - intros Hlt. apply Z.leb_gt. lia.
  - intros ->. rewrite Z.leb_le. lia.
Qed.

Lemma isNotPast_zone_witness :
  JS.Day (JS.LocalTime (-10800000) 1704200400000) = 19724 /\
  parseDateOnly (appt_date turno) = Some (JS.MakeDate 19724 0) /\
  isNotPast (-10800000) 1704200400000 turno = false /\
  isNotPast 3600000 1704186000000 turno = true.
Proof.
  assert (parseDateOnly (appt_date turno) = Some (JS.MakeDate 19724 0)) as Hd
    by (vm_compute; reflexivity).
  split; [vm_compute; reflexivity|]. split; [exact Hd|]. split.
  - destruct (isNotPast_zone (-10800000) 1704200400000 19724 turno Hd)
      as (_ & _ & Htoday); [vm_compute; split; reflexivity|].
    specialize (Htoday ltac:(vm_compute; reflexivity)).
    destruct (isNotPast (-10800000) 1704200400000 turno); [|reflexivity].
    destruct Htoday as [Hwest _]. specialize (Hwest eq_refl). lia.
  - destruct (isNotPast_zone 3600000 1704186000000 19724 turno Hd)
      as (_ & _ & Htoday); [vm_compute; split; reflexivity|].
    apply Htoday; [vm_compute; reflexivity | lia].
Defined.

Lemma insertSorted_Permutation {A} (le : A -> A -> bool) (x : A) (l : list A) :
  insertSorted le x l ≡ₚ x :: l.
Proof.
  induction l as [|y l IH]; [done|]. cbn.
  destruct (le x y); [done|]. rewrite IH. apply Permutation_swap.
Qed.

Lemma stableSort_Permutation {A} (le : A -> A -> bool) (l : list A) :
  stableSort le l ≡ₚ l.
Proof.
  induction l as [|x l IH]; [done|].
  change (stableSort le (x :: l)) with (insertSorted le x (stableSort le l)).
  rewrite insertSorted_Permutation. by rewrite IH.
Qed.

Section SortedBy.
Context {A : Type} (key : A -> Z).

Let leb (a b : A) : bool := key a <=? key b.
Let leP (a b : A) : Prop := key a <= key b.

Lemma insertSorted_Sorted (x : A) (l : list A) :
  Sorted leP l -> Sorted leP (insertSorted leb x l).
Proof.
  induction 1 as [|y l Hl IH Hhd]; cbn; [by repeat constructor|].
  unfold leb at 1. destruct (Z.leb_spec (key x) (key y)).
  - by repeat constructor.
  - constructor; [done|].
    destruct l as [|z l]; cbn.
    + constructor. unfold leP. lia.
    + unfold leb at 1. destruct (Z.leb_spec (key x) (key z)).
      * constructor. unfold leP. lia.
      * constructor. by inversion Hhd.
Qed.

Lemma stableSort_Sorted (l : list A) : Sorted leP (stableSort leb l).
Proof.
  induction l as [|x l IH]; cbn; [constructor|]. by apply insertSorted_Sorted.
Qed.

End SortedBy.

Lemma insertSorted_ext {A} (le1 le2 : A -> A -> bool) (x : A) (l : list A) :
  (forall y, y ∈ l -> le1 x y = le2 x y) ->
  insertSorted le1 x l = insertSorted le2 x l.
Proof.
  induction l as [|y l IH]; [done|]. intros H. cbn.
  rewrite (H y) by left. destruct (le2 x y); [done|].
  f_equal. apply IH. intros z Hz. apply H. by right.
Qed.

Lemma stableSort_ext {A} (le1 le2 : A -> A -> bool) (l : list A) :
  (forall x y, x ∈ l -> y ∈ l -> le1 x y = le2 x y) ->
  stableSort le1 l = stableSort le2 l.
Proof.
  induction l as [|x l IH]; [done|]. intros H.
  change (stableSort le1 (x :: l)) with (insertSorted le1 x (stableSort le1 l)).
  change (stableSort le2 (x :: l)) with (insertSorted le2 x (stableSort le2 l)).
  rewrite IH by (intros; apply H; by right).
  apply insertSorted_ext. intros y Hy. apply H; [left|right].
  by rewrite <- (stableSort_Permutation le2 l).
Qed.

(** X13.  The list shown on the appointments tab holds exactly the
    appointments that pass the date filter, each as often as in the
    collection, and, when the date and time of each of them denote an
    instant, in the order of these instants, earliest first. *)
Theorem sortedAppointments_sorted (tz now : Z) (appts : list Appointment) :
  sortedAppointments tz now appts ≡ₚ List.filter (isNotPast tz now) appts /\
  (forall appt,
     appt ∈ sortedAppointments tz now appts <->
     appt ∈ appts /\ isNotPast tz now appt = true) /\
  ((forall appt, appt ∈ appts -> isNotPast tz now appt = true ->
                 is_Some (instant tz appt)) ->
   Sorted (fun a b => exists x y, instant tz a = Some x /\
                                   instant tz b = Some y /\ x <= y)
     (sortedAppointments tz now appts)).
Proof.
  assert (sortedAppointments tz now appts ≡ₚ List.filter (isNotPast tz now) appts)
    as Hperm by apply stableSort_Permutation.
  split; [exact Hperm|]. split.
  - intros appt. rewrite Hperm. apply elem_of_filter.
  - intros Hvalid.
    set (key := fun a => default 0 (instant tz a)).
    assert (forall a, a ∈ List.filter (isNotPast tz now) appts ->
                      instant tz a = Some (key a)) as Hkey.
    { intros a [Hin Hp]%elem_of_filter.
      destruct (Hvalid a Hin Hp) as [x Hx]. unfold key. by rewrite Hx. }
    unfold sortedAppointments.
    rewrite (stableSort_ext _ (fun a b => key a <=? key b)).
    2:{ intros a b Ha Hb. unfold notAfter.
        by rewrite (Hkey a Ha), (Hkey b Hb). }
    pose proof (stableSort_Sorted key (List.filter (isNotPast tz now) appts))
      as Hs.
    assert (Forall (fun a => instant tz a = Some (key a))
              (stableSort (fun a b => key a <=? key b)
                 (List.filter (isNotPast tz now) appts))) as Hall.
    { apply Forall_forall. intros a Ha. apply Hkey.
      by rewrite <- (stableSort_Permutation (fun a b => key a <=? key b)). }
    induction Hs as [|a l Hl IH Hhd]; [constructor|].
    apply Forall_cons in Hall as [Ha Hall].
    constructor; [by apply IH|].
    destruct Hhd as [|b l' Hab]; constructor.
    apply Forall_cons in Hall as [Hb _]. eauto.
Qed.

Lemma sortedAppointments_sorted_witness :
  sortedAppointments 0 1704103200000 [turno; control] = [control; turno] /\
  Sorted (fun a b => exists x y, instant 0 a = Some x /\
                                  instant 0 b = Some y /\ x <= y)
    (sortedAppointments 0 1704103200000 [turno; control]).
Proof.
  split; [vm_compute; reflexivity|].
  apply (proj2 (proj2 (sortedAppointments_sorted 0 1704103200000 [turno; control]))).
  intros appt Hin _.
  apply elem_of_cons in Hin as [->|Hin]; [by eexists; vm_compute|].
  apply list_elem_of_singleton in Hin as ->. by eexists; vm_compute.
Defined.

(** ** Saving and loading *)

Lemma loadData_all_json (m : list Medication) (j : list JournalEntry)
    (f : list ArchivedFile) (a : list Appointment) (s0 : AppState) :
  let r := loadData (mkStorage (Some (Json m)) (Some (Json j)) (Some (Json f))
                       (Some (Json a))) s0 in
  r.2 = Normal tt /\ r.1.2 = [] /\
  medications r.1.1 = m /\ journalEntries r.1.1 = j /\
  archivedFiles r.1.1 = f /\ appointments r.1.1 = a /\
  notifiedIds r.1.1 = notifiedIds s0 /\ permission r.1.1 = permission s0.
Proof.
  pose proof (loadData_cells
                (mkStorage (Some (Json m)) (Some (Json j)) (Some (Json f))
                   (Some (Json a))) s0) as H.
  cbn in H. cbn zeta. tauto.
Qed.

Lemma persist_ok (q : Quota) (s : AppState) (st : Storage) :
  (persist q s st).2 = [] ->
  (persist q s st).1
  = mkStorage (Some (Json (medications s))) (Some (Json (journalEntries s)))
      (Some (Json (archivedFiles s))) (Some (Json (appointments s))).
Proof.
  unfold persist, saveMedications, saveJournalEntries, saveArchivedFiles,
    saveAppointments.
  repeat (match goal with
          | |- context [if ?c then _ else _] => destruct c
          end; cbn);
    (discriminate || done).
Qed.

(** X14.  Saving and loading are inverse on the four collections: once the
    four save effects have run on a state without a failed write, the
    store holds that state's collections under every key, whatever it
    held before (corrupt blobs included), and a load from it returns, logs
    nothing and puts exactly these collections in the cells, over
    whatever was in them; the notified-set is not part of the store and is
    left as it is. *)
Theorem persist_then_load (q : Quota) (s s0 : AppState) (st : Storage) :
  (persist q s st).2 = [] ->
  (persist q s st).1
  = mkStorage (Some (Json (medications s))) (Some (Json (journalEntries s)))
      (Some (Json (archivedFiles s))) (Some (Json (appointments s))) /\
  let r := loadData (persist q s st).1 s0 in
  r.2 = Normal tt /\ r.1.2 = [] /\
  medications r.1.1 = medications s /\
  journalEntries r.1.1 = journalEntries s /\
  archivedFiles r.1.1 = archivedFiles s /\
  appointments r.1.1 = appointments s /\
  notifiedIds r.1.1 = notifiedIds s0.
Proof.
  intros Hlog.
  pose proof (persist_ok q s st Hlog) as Hst.
  split; [exact Hst|]. rewrite Hst.
  pose proof (loadData_all_json (medications s) (journalEntries s)
                (archivedFiles s) (appointments s) s0) as H.
  cbn zeta in *. tauto.
Qed.

Lemma persist_then_load_witness :
  (persist roomy grantedState corruptMedications).2 = [] /\
  medications
    (loadData (persist roomy grantedState corruptMedications).1 initialState).1.1
  = [aspirin; ibuprofen].
Proof.
  assert ((persist roomy grantedState corruptMedications).2 = []) as H
    by reflexivity.
  split; [exact H|].
  destruct (persist_then_load roomy grantedState initialState corruptMedications H)
    as (_ & _ & _ & Hm & _).
  exact Hm.
Defined.

(** X15.  A collection that does not fit is silently kept at its old
    saved version: when, of the four save effects, only the one of the
    archive fails, the other three keys hold the current collections and
    the archive key holds what it held before; a later load then returns
    the current medications and journal next to the old archive, and the
    current appointments as well unless the old archive blob was corrupt,
    which ends the load before them. *)
Theorem archive_over_quota (q : Quota) (s s0 : AppState) (st : Storage) :
  (persist q s st).2
  = [ObsConsole "Failed to save archived files to localStorage"] ->
  (persist q s st).1
  = mkStorage (Some (Json (medications s))) (Some (Json (journalEntries s)))
      (key_archivedFiles st) (Some (Json (appointments s))) /\
  let r := loadData (persist q s st).1 s0 in
  r.2 = Normal tt /\
  medications r.1.1 = medications s /\
  journalEntries r.1.1 = journalEntries s /\
  archivedFiles r.1.1 = stored (key_archivedFiles st) (archivedFiles s0) /\
  appointments r.1.1
  = (if readable (key_archivedFiles st) then appointments s
     else appointments s0).
Proof.
  intros Hlog.
  assert ((persist q s st).1
          = mkStorage (Some (Json (medications s)))
              (Some (Json (journalEntries s)))
              (key_archivedFiles st) (Some (Json (appointments s))))
    as Hst.
  { revert Hlog. unfold persist, saveMedications, saveJournalEntries,
      saveArchivedFiles, saveAppointments.
    repeat (match goal with
            | |- context [if ?c then _ else _] => destruct c
            end; cbn);
      (discriminate || done). }
  split; [exact Hst|]. rewrite Hst.
  pose proof (loadData_cells
                (mkStorage (Some (Json (medications s)))
                   (Some (Json (journalEntries s)))
                   (key_archivedFiles st) (Some (Json (appointments s)))) s0)
    as H.
  cbn in H. cbn zeta. tauto.
Qed.

Lemma archive_over_quota_witness :
  (persist archiveFull
     (mkState [aspirin] ∅ false [] [turno] [file1] (mkTooltip None "" false)
        perm_granted)
     (mkStorage None None None None)).2
  = [ObsConsole "Failed to save archived files to localStorage"] /\
  archivedFiles
    (loadData
       (persist archiveFull
          (mkState [aspirin] ∅ false [] [turno] [file1] (mkTooltip None "" false)
             perm_granted)
          (mkStorage None None None None)).1 initialState).1.1 = [].
Proof.
  assert ((persist archiveFull
             (mkState [aspirin] ∅ false [] [turno] [file1]
                (mkTooltip None "" false) perm_granted)
             (mkStorage None None None None)).2
          = [ObsConsole "Failed to save archived files to localStorage"]) as H
    by reflexivity.
  split; [exact H|].
  destruct (archive_over_quota archiveFull _ initialState _ H)
    as (_ & _ & _ & _ & Hf & _).
  exact Hf.
Defined.

(** ** The info tooltip and its cache *)

Lemma cacheLookup_own (cache : gmap string string) (name text : string) :
  cacheLookup (<[name := text]> cache) name = Some (Text text).
Proof. unfold cacheLookup. by rewrite lookup_insert_eq. Qed.

Lemma infoApology_nonempty : infoApology <> "".
Proof. discriminate. Qed.

(** X16.  Every answer is cached under the medication's name, the apology
    for a failed call included: once an answer [info] that is not empty
    has arrived for a medication, a click on any medication of the same
    name shows [info] at once and does not call the service; and since a
    failed call resolves to the apology text, after one failure further
    clicks on that name show the apology and never retry. *)
Theorem info_cached (ai : Service) (med med' : Medication) (st : InfoState) :
  med_name med' = med_name med ->
  (forall info,
     info <> "" ->
     infoClick med' (infoArrive med info st)
     = (mkInfoState (<[med_name med := info]> (medInfoCache st))
          (mkInfoTooltip (Some (med_id med')) (Text info) false), false)) /\
  (ai (infoPrompt (med_name med)) = None ->
   truthy (cacheLookup (medInfoCache st) (med_name med)) = false ->
   let '(st1, sent, log) := infoLookup ai med st in
   sent = [infoPrompt (med_name med)] /\
   medInfoCache st1 !! med_name med = Some infoApology /\
   forall ai',
     let '(st2, sent', _) := infoLookup ai' med' st1 in
     sent' = [] /\ info_content (infoTooltip st2) = Text infoApology /\
     info_isLoading (infoTooltip st2) = false).
Proof.
  intros Hname. split.
  - intros info Hinfo. unfold infoClick, infoArrive. cbn.
    rewrite Hname, cacheLookup_own. cbn.
    by rewrite bool_decide_eq_false_2.
  - intros Hdown Hmiss. unfold infoLookup, infoClick at 1.
    rewrite Hmiss. unfold getMedicationInfo. rewrite Hdown.
    split; [done|]. split; [cbn; by rewrite lookup_insert_eq|].
    intros ai'. unfold infoLookup, infoClick, infoArrive. cbn.
    rewrite Hname, cacheLookup_own. cbn. done.
Qed.

Lemma info_cached_witness :
  let st0 := mkInfoState ∅ (mkInfoTooltip None (Text "") false) in
  (infoLookup downService aspirin st0).1.2 = [infoPrompt "Aspirina"] /\
  (infoLookup (fun _ => Some "x") aspirin (infoLookup downService aspirin st0).1.1).1.2
  = [].
Proof.
  cbn zeta.
  pose proof (proj2 (info_cached downService aspirin aspirin
                       (mkInfoState ∅ (mkInfoTooltip None (Text "") false))
                       eq_refl) eq_refl eq_refl) as H.
  destruct (infoLookup downService aspirin _) as [[st1 sent] log].
  destruct H as (Hsent & _ & Hnext). split; [exact Hsent|].
  specialize (Hnext (fun _ => Some "x")). cbn [fst snd].
  destruct (infoLookup _ aspirin st1) as [[st2 sent'] log'].
  apply Hnext.
Defined.

(** X17.  An answer that arrives late lands in whatever tooltip is open:
    the continuation of a click does not look at the medication the
    tooltip is on, so when the user opens the tooltip of another
    medication (served from the cache) while a request is pending, the
    pending answer replaces the text of that other tooltip; and when the
    tooltip has been closed in between it stays closed. *)
Theorem info_late_answer (medA medB : Medication) (infoA infoB : string)
    (st : InfoState) :
  truthy (cacheLookup (medInfoCache st) (med_name medA)) = false ->
  medInfoCache st !! med_name medB = Some infoB -> infoB <> "" ->
  let pending := (infoClick medA st).1 in
  (infoClick medA st).2 = true /\
  infoTooltip (infoClick medB pending).1
  = mkInfoTooltip (Some (med_id medB)) (Text infoB) false /\
  infoTooltip (infoArrive medA infoA (infoClick medB pending).1)
  = mkInfoTooltip (Some (med_id medB)) (Text infoA) false /\
  info_medId (infoTooltip (infoArrive medA infoA (infoClose pending))) = None.
Proof.
  intros Hmiss HB HinfoB. cbn zeta.
  assert (infoClick medA st
          = (mkInfoState (medInfoCache st)
               (mkInfoTooltip (Some (med_id medA)) (Text "") true), true))
    as -> by (unfold infoClick; by rewrite Hmiss).
  cbn [fst snd]. unfold infoClick, cacheLookup. cbn [medInfoCache].
  rewrite HB. cbn. rewrite bool_decide_eq_false_2 by done. done.
Qed.

Lemma info_late_answer_witness :
  let st := mkInfoState {["Ibuprofeno" := "Para el dolor."]}
              (mkInfoTooltip None (Text "") false) in
  infoTooltip (infoArrive aspirin "Para la fiebre."
                 (infoClick ibuprofen (infoClick aspirin st).1).1)
  = mkInfoTooltip (Some "m2") (Text "Para la fiebre.") false.
Proof.
  cbn zeta.
  apply (info_late_answer aspirin ibuprofen "Para la fiebre." "Para el dolor."
           (mkInfoState {["Ibuprofeno" := "Para el dolor."]}
              (mkInfoTooltip None (Text "") false))).
  - vm_compute. reflexivity.
  - vm_compute. reflexivity.
  - discriminate.
Defined.

(** ** What the polling loops leave alone *)

Lemma markNotified_fields (up l : list Appointment) :
  map (withNotified false) (markNotified up l) = map (withNotified false) l.
Proof.
  unfold markNotified. rewrite map_map. apply map_ext. intros a.
  by destruct (List.find _ up).
Qed.

Lemma markNotified_raises (up l : list Appointment) (i : nat) (a : Appointment) :
  l !! i = Some a ->
  exists a', markNotified up l !! i = Some a' /\
             (appt_notified a = true -> appt_notified a' = true).
Proof.
  intros Hi. rewrite (markNotified_lookup _ _ _ _ Hi). eexists. split; [done|].
  by destruct (bool_decide _).
Qed.

Lemma tick_preserves (tz : Z) (host : Host) (e : Event) (s : AppState) :
  isTick e = true ->
  let s' := (handler tz host e s).1.1 in
  medications s' = medications s /\
  journalEntries s' = journalEntries s /\
  archivedFiles s' = archivedFiles s /\
  permission s' = permission s /\
  notifiedIds s ⊆ notifiedIds s' /\
  map (withNotified false) (appointments s')
  = map (withNotified false) (appointments s) /\
  (forall i a, appointments s !! i = Some a ->
     exists a', appointments s' !! i = Some a' /\
                (appt_notified a = true -> appt_notified a' = true)).
Proof.
  intros He. destruct e; try discriminate; cbn [handler].
  - rewrite medicationPoll_run. destruct (decide _) as [Hp|]; cbn zeta.
    + destruct (constructs host medicationTitle medicationOptions
                  (dueMedications tz now s)) eqn:Hc.
      * rewrite (medicationTick_ok tz host now s Hp Hc). cbn.
        repeat split; try done; [set_solver|eauto].
      * destruct (medicationTick_throw tz host now s Hp Hc) as [-> _].
        repeat split; try done; eauto.
    + repeat split; try done; eauto.
  - rewrite appointmentPoll_run. destruct (decide _) as [Hp|]; cbn zeta.
    + destruct (constructs host appointmentTitle appointmentOptions
                  (upcoming tz now s)) eqn:Hc.
      * rewrite (appointmentTick_ok tz host now s Hp Hc). cbn.
        repeat split; try done;
          [apply markNotified_fields | apply markNotified_raises].
      * destruct (appointmentTick_throw tz host now s Hp Hc) as [-> _].
        repeat split; try done; eauto.
    + repeat split; try done; eauto.
Qed.

(** X18.  The two polling loops never alter what the user entered: over
    any run of medication and appointment ticks, whether they return or
    throw, the medications, the journal and the archive are exactly what
    they were, the appointments are the same records in the same order up
    to their notified flag, no flag goes back from [true] to [false], the
    notified-set only grows, and the permission cell is unchanged. *)
Theorem ticks_preserve_records (tz : Z) (host : Host) (es : list Event)
    (s : AppState) :
  forallb isTick es = true ->
  let s' := (run tz host es s).1 in
  medications s' = medications s /\
  journalEntries s' = journalEntries s /\
  archivedFiles s' = archivedFiles s /\
  permission s' = permission s /\
  notifiedIds s ⊆ notifiedIds s' /\
  map (withNotified false) (appointments s')
  = map (withNotified false) (appointments s) /\
  (forall i a, appointments s !! i = Some a ->
     exists a', appointments s' !! i = Some a' /\
                (appt_notified a = true -> appt_notified a' = true)).
Proof.
  revert s. induction es as [|e es IH]; intros s Hes.
  - cbn. repeat split; try done. eauto.
  - cbn [forallb] in Hes. apply andb_prop in Hes as [He Hes].
    destruct (tick_preserves tz host e s He) as (H1 & H2 & H3 & H4 & H5 & H6 & H7).
    destruct (IH (handler tz host e s).1.1 Hes)
      as (I1 & I2 & I3 & I4 & I5 & I6 & I7).
    cbn zeta. rewrite run_cons. cbn [fst snd].
    rewrite I1, I2, I3, I4, I6.
    repeat split; try done; [set_solver|].
    intros i a Hi. destruct (H7 i a Hi) as (a1 & Ha1 & Hraise1).
    destruct (I7 i a1 Ha1) as (a2 & Ha2 & Hraise2). eauto.
Qed.

Lemma ticks_preserve_records_witness :
  forallb isTick eve = true /\
  map (withNotified false) (appointments (run 0 throwingHost eve agendaState).1)
  = map (withNotified false) (appointments agendaState).
Proof.
  assert (forallb isTick eve = true) as H by reflexivity.
  split; [exact H|].
  destruct (ticks_preserve_records 0 throwingHost eve agendaState H)
    as (_ & _ & _ & _ & _ & Hf & _).
  exact Hf.
Defined.

(** ** Deleting an appointment *)





(** ** Across a reload *)

Lemma mountNotifications_run (host : Host) (s : AppState) :
  mountNotifications host s =
  (if host_supported host
   then mkState (medications s) (notifiedIds s) (showPermissionBanner s)
          (journalEntries s) (appointments s) (archivedFiles s) (tooltip s)
          (host_permission host)
   else s, [], Normal tt).
Proof. unfold mountNotifications. by destruct (host_supported host). Qed.

Lemma loadData_permission (st : Storage) (s : AppState) :
  permission (loadData st s).1.1 = permission s.
Proof. by destruct (loadData_cells st s) as (_ & _ & _ & _ & _ & _ & _ & ?). Qed.

(** The flags of [loadSets] are the setters the load calls: a cell whose
    flag is off is left as it was. *)
Lemma loadData_sets (st : Storage) (s : AppState) :
  let s' := (loadData st s).1.1 in
  (ch_medications (loadSets st) = false -> medications s' = medications s) /\
  (ch_journalEntries (loadSets st) = false ->
   journalEntries s' = journalEntries s) /\
  (ch_archivedFiles (loadSets st) = false ->
   archivedFiles s' = archivedFiles s) /\
  (ch_appointments (loadSets st) = false -> appointments s' = appointments s).
Proof.
  destruct (loadData_cells st s) as (_ & HM & HJ & HF & HA & _).
  cbn zeta in *. rewrite HM, HJ, HF, HA.
  destruct st as [[[|m]|] [[|j]|] [[|f]|] [[|a]|]]; cbn; done.
Qed.

Lemma saves_unchanged (q : Quota) (s : AppState) (st : Storage) :
  saves q unchanged s st = (st, []).
Proof. reflexivity. Qed.

Lemma saves_ok (q : Quota) (ch : Changed) (s : AppState) (st : Storage) :
  ch_medications ch = true -> ch_journalEntries ch = true ->
  ch_archivedFiles ch = true -> ch_appointments ch = true ->
  (forall st', takes_medications q st' (medications s) = true) ->
  (forall st', takes_journalEntries q st' (journalEntries s) = true) ->
  (forall st', takes_archivedFiles q st' (archivedFiles s) = true) ->
  (forall st', takes_appointments q st' (appointments s) = true) ->
  saves q ch s st = (saved s, []).
Proof.
  intros H1 H2 H3 H4 Hm Hj Hf Ha.
  unfold saves, saveMedications, saveJournalEntries, saveArchivedFiles,
    saveAppointments.
  rewrite H1, H2, H3, H4.
  cbn. rewrite Hm. cbn. rewrite Hj. cbn. rewrite Hf. cbn. by rewrite Ha.
Qed.

Lemma saves_empty (q : Quota) (ch : Changed) (s : AppState) (st : Storage) :
  takesEmpty q ->
  ch_medications ch = true -> ch_journalEntries ch = true ->
  ch_archivedFiles ch = true -> ch_appointments ch = true ->
  medications s = [] -> journalEntries s = [] -> archivedFiles s = [] ->
  appointments s = [] ->
  saves q ch s st = (emptyStore, []).
Proof.
  intros Hq ? ? ? ? Hm Hj Hf Ha.
  rewrite saves_ok; try done.
  - unfold saved, emptyStore. by rewrite Hm, Hj, Hf, Ha.
  - intros st'. rewrite Hm. by destruct (Hq st') as (? & _).
  - intros st'. rewrite Hj. by destruct (Hq st') as (_ & ? & _).
  - intros st'. rewrite Hf. by destruct (Hq st') as (_ & _ & ? & _).
  - intros st'. rewrite Ha. by destruct (Hq st') as (_ & _ & _ & ?).
Qed.

Lemma saves_all (q : Quota) (ch : Changed) (s : AppState) (st : Storage) :
  takesAll q ->
  ch_medications ch = true -> ch_journalEntries ch = true ->
  ch_archivedFiles ch = true -> ch_appointments ch = true ->
  saves q ch s st = (saved s, []).
Proof.
  intros Hq ? ? ? ?. apply saves_ok; try done; intros st'.
  - by destruct (Hq st') as (? & _).
  - by destruct (Hq st') as (_ & ? & _).
  - by destruct (Hq st') as (_ & _ & ? & _).
  - by destruct (Hq st') as (_ & _ & _ & ?).
Qed.

Lemma takesAll_takesEmpty (q : Quota) : takesAll q -> takesEmpty q.
Proof.
  intros Hq st. destruct (Hq st) as (Hm & Hj & Hf & Ha). auto.
Qed.

Lemma persist_saves (q : Quota) (s : AppState) (st : Storage) :
  persist q s st = saves q everything s st.
Proof.
  unfold persist, saves. cbn.
  destruct (saveMedications q s st) as [st1 o1]. cbn.
  destruct (saveJournalEntries q s st1) as [st2 o2]. cbn.
  destruct (saveArchivedFiles q s st2) as [st3 o3]. cbn.
  by destruct (saveAppointments q s st3) as [st4 o4].
Qed.

(** The three shapes of a render's effects. *)
Lemma commit_first (host : Host) (q : Quota) (ch : Changed) (s : AppState)
    (st : Storage) :
  let s1 := (mountNotifications host (loadData st s).1.1).1.1 in
  commit host q true ch s st
  = mkRendered s1 (saves q everything s st).1
      ((loadData st s).1.2 ++ (saves q everything s st).2)
      (mkChanged (negb (bool_decide (permission s1 = permission s)))
         (ch_medications (loadSets st)) (ch_journalEntries (loadSets st))
         (ch_archivedFiles (loadSets st)) (ch_appointments (loadSets st))).
Proof. reflexivity. Qed.

Lemma commit_load (host : Host) (q : Quota) (ch : Changed) (s : AppState)
    (st : Storage) :
  ch_permission ch = true ->
  commit host q false ch s st
  = mkRendered (loadData st s).1.1 (saves q ch s st).1
      ((loadData st s).1.2 ++ (saves q ch s st).2)
      (mkChanged false
         (ch_medications (loadSets st)) (ch_journalEntries (loadSets st))
         (ch_archivedFiles (loadSets st)) (ch_appointments (loadSets st))).
Proof.
  intros Hch. unfold commit. rewrite Hch. cbn.
  by rewrite loadData_permission, bool_decide_eq_true_2.
Qed.

Lemma commit_idle (host : Host) (q : Quota) (ch : Changed) (s : AppState)
    (st : Storage) :
  ch_permission ch = false ->
  commit host q false ch s st
  = mkRendered s (saves q ch s st).1 (saves q ch s st).2 unchanged.
Proof.
  intros Hch. unfold commit. rewrite Hch. cbn.
  by rewrite bool_decide_eq_true_2.
Qed.

(** After the renders that follow a change no cell is left changed: one
    more render would run no effect. *)
Lemma rerender_settles (host : Host) (q : Quota) (ch : Changed) (s : AppState)
    (st : Storage) :
  changed (rerender host q ch s st) = unchanged /\
  commit host q false unchanged s st = mkRendered s st [] unchanged.
Proof.
  split; [|by rewrite commit_idle].
  unfold rerender. cbn [changed].
  destruct (ch_permission ch) eqn:Hch.
  - rewrite (commit_load host q ch s st Hch). cbn [changed cells store].
    by rewrite commit_idle.
  - rewrite (commit_idle host q ch s st Hch). cbn [changed cells store].
    by rewrite commit_idle.
Qed.

Lemma saved_ext (s s' : AppState) :
  medications s' = medications s -> journalEntries s' = journalEntries s ->
  archivedFiles s' = archivedFiles s -> appointments s' = appointments s ->
  saved s' = saved s.
Proof. unfold saved. by intros -> -> -> ->. Qed.

Lemma persist_all (q : Quota) (s : AppState) (st : Storage) :
  takesAll q -> persist q s st = (saved s, []).
Proof. intros Hq. rewrite persist_saves. by apply saves_all. Qed.

(** The render of the mount with its effects. *)
Lemma mount_first (host : Host) (q : Quota) (st : Storage) :
  takesEmpty q ->
  let c := commit host q true everything initialState st in
  let l := (loadData st initialState).1.1 in
  store c = emptyStore /\
  medications (cells c) = medications l /\
  journalEntries (cells c) = journalEntries l /\
  archivedFiles (cells c) = archivedFiles l /\
  appointments (cells c) = appointments l /\
  showPermissionBanner (cells c) = showPermissionBanner l /\
  notifiedIds (cells c) = ∅ /\
  permission (cells c)
  = (if host_supported host then host_permission host else perm_default) /\
  changed c
  = mkChanged (negb (bool_decide (permission (cells c) = perm_default)))
      (ch_medications (loadSets st)) (ch_journalEntries (loadSets st))
      (ch_archivedFiles (loadSets st)) (ch_appointments (loadSets st)).
Proof.
  intros Hq. cbn zeta. rewrite commit_first. cbn [store cells changed].
  rewrite (saves_empty q everything initialState st Hq) by done.
  rewrite mountNotifications_run.
  destruct (loadData_cells st initialState) as (_ & _ & _ & _ & _ & _ & Hn & Hp).
  cbn zeta in *.
  destruct (host_supported host); cbn; rewrite ?Hn, ?Hp; done.
Qed.

Lemma loadData_banner (s s0 : AppState) :
  permission s0 = perm_default ->
  showPermissionBanner s0 = false ->
  showPermissionBanner (loadData (saved s) s0).1.1
  = (0 <? Z.of_nat (length (medications s))).
Proof.
  intros Hp Hb. unfold loadData, saved. unfold_handler. cbn.
  rewrite Hp. cbn. by destruct (0 <? _).
Qed.

(** X20.  What a reload does depends on the permission the host reports
    at the mount.  The save effects of the first render write four empty
    arrays, after the load effect of that render has read the store.
    - On a host that reports ['granted'] or ['denied'], the permission cell
      changes, the load effect runs again and reads the empty arrays: once
      the renders have settled the four collections are empty and so are
      the four keys, whatever the store held (a store with room for the
      empty arrays is enough), and no tick matches anything.
    - On a host without notifications or that reports ['default'], the
      load is not repeated and the next render's saves write the loaded
      collections back: after the saves of a state [s], on a store with
      room, the mount leaves the collections of [s] in the cells and in
      the store, the notified-set empty and the banner up when there is a
      medication.  When the banner's request is then answered
      ['granted'], the load runs again on the same store, and the first
      medication tick matches every medication of [s] that is due, those
      notified before the reload included, while the first appointment
      tick matches the same appointments as before the reload, whose
      flags were saved with them. *)
Theorem reload_by_permission (tz : Z) (host : Host) (q : Quota) :
  (forall st,
     takesEmpty q ->
     host_supported host = true ->
     host_permission host <> perm_default ->
     let m := mount host q st in
     medications (cells m) = [] /\ journalEntries (cells m) = [] /\
     archivedFiles (cells m) = [] /\ appointments (cells m) = [] /\
     store m = emptyStore /\
     permission (cells m) = host_permission host /\
     changed m = unchanged /\
     (forall now,
        dueMedications tz now (cells m) = [] /\
        upcoming tz now (cells m) = [])) /\
  (forall s st0 now,
     takesAll q ->
     host_supported host = false \/ host_permission host = perm_default ->
     let st := (persist q s st0).1 in
     let m := mount host q st in
     st = saved s /\
     medications (cells m) = medications s /\
     journalEntries (cells m) = journalEntries s /\
     archivedFiles (cells m) = archivedFiles s /\
     appointments (cells m) = appointments s /\
     notifiedIds (cells m) = ∅ /\
     permission (cells m) = perm_default /\
     store m = st /\
     changed m = unchanged /\
     showPermissionBanner (cells m) = (0 <? Z.of_nat (length (medications s))) /\
     (host_supported host = true ->
      host_request host = Some perm_granted ->
      let g := activate host q (cells m) (store m) in
      permission (cells g) = perm_granted /\
      medications (cells g) = medications s /\
      appointments (cells g) = appointments s /\
      notifiedIds (cells g) = ∅ /\
      store g = st /\
      changed g = unchanged /\
      dueMedications tz now (cells g)
      = List.filter (isMedicationDue tz now) (medications s) /\
      upcoming tz now (cells g) = upcoming tz now s /\
      (forall med,
         med ∈ dueMedications tz now s ->
         med ∈ dueMedications tz now (cells g)))).
Proof.
  split.
  - intros st Hq Hsup Hperm. cbn zeta.
    pose proof (mount_first host q st Hq) as H1. cbv zeta in H1.
    destruct H1 as (Hst1 & _ & _ & _ & _ & _ & Hn1 & Hp1 & Hch1).
    rewrite Hsup in Hp1.
    unfold mount, rerender.
    set (c1 := commit host q true everything initialState st) in *.
    rewrite Hp1, bool_decide_eq_false_2 in Hch1 by done. cbn [negb] in Hch1.
    rewrite Hch1, Hst1.
    rewrite (commit_load host q (mkChanged true _ _ _ _)) by done.
    cbn [cells store changed lines].
    pose proof (loadData_all_json [] [] [] [] (cells c1)) as H2.
    cbv zeta in H2. fold emptyStore in H2.
    destruct H2 as (_ & _ & Hm & Hj & Hf & Ha & Hn & Hp).
    rewrite commit_idle by done. cbn [cells store changed lines].
    rewrite (saves_empty q) by done.
    unfold dueMedications, upcoming. rewrite Hm, Ha, Hp, Hp1. done.
  - intros s st0 now Hq Hhost. cbn zeta.
    rewrite (persist_all q s st0 Hq). cbn [fst].
    pose proof (takesAll_takesEmpty q Hq) as Hq0.
    pose proof (mount_first host q (saved s) Hq0) as H1. cbv zeta in H1.
    destruct H1 as (Hst1 & Hm1 & Hj1 & Hf1 & Ha1 & Hb1 & Hn1 & Hp1 & Hch1).
    rewrite loadData_banner in Hb1 by done.
    pose proof (loadData_all_json (medications s) (journalEntries s)
                  (archivedFiles s) (appointments s) initialState) as H2.
    cbv zeta in H2. fold (saved s) in H2.
    destruct H2 as (_ & _ & Hm & Hj & Hf & Ha & _).
    rewrite Hm in Hm1. rewrite Hj in Hj1. rewrite Hf in Hf1. rewrite Ha in Ha1.
    assert (permission
              (cells (commit host q true everything initialState (saved s)))
            = perm_default) as Hp1'.
    { rewrite Hp1. destruct Hhost as [-> | ->]; [done|].
      by destruct (host_supported host). }
    unfold mount, rerender.
    set (c1 := commit host q true everything initialState (saved s)) in *.
    rewrite Hp1', bool_decide_eq_true_2 in Hch1 by done. cbn [negb] in Hch1.
    rewrite Hch1, Hst1.
    rewrite (commit_idle host q (mkChanged false _ _ _ _)) by done.
    cbn [cells store changed lines].
    rewrite (saves_all q) by done. cbn [fst snd].
    rewrite commit_idle by done. cbn [cells store changed lines].
    rewrite saves_unchanged. cbn [fst snd].
    rewrite (saved_ext s (cells c1)) by done.
    do 10 (split; [done|]).
    intros Hsup Hreq. unfold activate, rerender, enableNotifications.
    rewrite bind_run, requestPermission_run, Hsup, Hreq.
    cbn [fst snd setShowPermissionBanner].
    set (s2 := mkState _ _ _ _ _ _ _ _).
    assert (permission s2 = perm_granted) as Hp2 by done.
    rewrite Hp2, Hp1', bool_decide_eq_false_2 by done.
    rewrite (commit_load host q (mkChanged true _ _ _ _)) by done.
    cbn [cells store changed lines].
    pose proof (loadData_all_json (medications s) (journalEntries s)
                  (archivedFiles s) (appointments s) s2) as H3.
    cbv zeta in H3. fold (saved s) in H3.
    destruct H3 as (_ & _ & Hm2 & Hj2 & Hf2 & Ha2 & Hn2 & Hp3).
    rewrite commit_idle by done. cbn [cells store changed lines].
    rewrite (saves_all q) by done. cbn [fst snd].
    rewrite (saved_ext s (loadData (saved s) s2).1.1) by done.
    assert (dueMedications tz now (loadData (saved s) s2).1.1
            = List.filter (isMedicationDue tz now) (medications s)) as Hdue.
    { unfold dueMedications. rewrite Hm2, Hn2. subst s2. cbn [notifiedIds].
      rewrite Hn1. apply filter_ext. intros med.
      rewrite bool_decide_eq_false_2 by set_solver. by rewrite andb_true_r. }
    split; [by rewrite Hp3|]. split; [done|]. split; [done|].
    split; [by rewrite Hn2|]. split; [done|]. split; [done|].
    split; [exact Hdue|]. split.
    + unfold upcoming. by rewrite Ha2.
    + intros med [Hin [Hd _]%andb_prop]%elem_of_filter. rewrite Hdue.
      by apply elem_of_filter.
Qed.

Lemma reload_by_permission_witness :
  (medications (cells (mount plainHost tight (saved grantedState))) = [] /\
   appointments (cells (mount deniedHost tight (saved agendaState))) = [] /\
   store (mount plainHost tight (saved grantedState)) = emptyStore) /\
  (let s := (medicationTick 0 plainHost 36000000 grantedState).1.1 in
   let m := mount askingHost roomy
              (persist roomy s (mkStorage None None None None)).1 in
   dueMedications 0 36030000 s = [] /\
   medications (cells m) = [aspirin; ibuprofen] /\
   aspirin ∈ dueMedications 0 36030000
               (cells (activate askingHost roomy (cells m) (store m)))).
Proof.
  assert (takesEmpty tight) as Ht by (intros st; repeat split).
  assert (takesAll roomy) as Hr by (intros st; repeat split).
  split.
  - destruct (proj1 (reload_by_permission 0 plainHost tight)
                (saved grantedState) Ht eq_refl ltac:(discriminate))
      as (Hm & _ & _ & _ & Hst & _).
    destruct (proj1 (reload_by_permission 0 deniedHost tight)
                (saved agendaState) Ht eq_refl ltac:(discriminate))
      as (_ & _ & _ & Ha & _).
    split; [exact Hm|]. split; [exact Ha | exact Hst].
  - cbv zeta.
    destruct (proj2 (reload_by_permission 0 askingHost roomy)
                (medicationTick 0 plainHost 36000000 grantedState).1.1
                (mkStorage None None None None) 36030000 Hr
                (or_intror eq_refl))
      as (_ & Hm & _ & _ & _ & _ & _ & _ & _ & _ & Hg).
    destruct (Hg eq_refl eq_refl) as (_ & _ & _ & _ & _ & _ & Hdue & _).
    split; [vm_compute; reflexivity|]. split; [exact Hm|].
    rewrite Hdue. apply elem_of_filter.
    split; [left | vm_compute; reflexivity].
Defined.

(** ** Once notified *)

Lemma handler_notifiedIds_mono (tz : Z) (host : Host) (e : Event)
    (s : AppState) :
  isReset e = false ->
  notifiedIds s ⊆ notifiedIds (handler tz host e s).1.1.
Proof.
  intros Hr. destruct e; cbn [handler]; try discriminate.
  - rewrite medicationPoll_run. destruct (decide _) as [Hp|]; [|done].
    by destruct (medicationTick_frame tz host now s Hp) as (_ & _ & _ & _ & ?).
  - rewrite appointmentPoll_run. destruct (decide _) as [Hp|]; [|done].
    by destruct (appointmentTick_frame tz host now s Hp) as (_ & -> & _).
  - by run_action.
  - by rewrite toggleMedicationTaken_run.
  - by rewrite deleteMedication_run.
  - by run_action.
  - by run_action.
  - by run_action.
Qed.

(** X21.  An id in the notified-set is silent until the daily reset: over
    any run without a reset, whether its callbacks return or throw, no
    show call is made for that id and it stays in the set, also when the
    medication is marked taken and not taken again, and also when it is
    deleted and a medication is added under the same id. *)
Theorem notified_silent (tz : Z) (host : Host) (id : string)
    (es : list Event) (s : AppState) :
  id ∈ notifiedIds s ->
  existsb isReset es = false ->
  (id ∉ shownMedications (run tz host es s).2) /\
  id ∈ notifiedIds (run tz host es s).1.
Proof.
  revert s. induction es as [|e es IH]; intros s Hid Hr.
  - cbn. split; [by intros ?%elem_of_nil|done].
  - cbn [existsb] in Hr. apply orb_false_elim in Hr as [He Hes].
    pose proof (handler_notifiedIds_mono tz host e s He) as Hmono.
    assert (id ∈ notifiedIds (handler tz host e s).1.1) as Hid1 by set_solver.
    destruct (IH _ Hid1 Hes) as [IH1 IH2].
    rewrite run_cons. cbn [fst snd]. rewrite shownMedications_app.
    split; [|done].
    intros [Hx|Hx]%elem_of_app; [|done].
    by apply handler_shownMedications in Hx as (_ & _ & _ & _ & _ & _ & _ & ?).
Qed.

Lemma notified_silent_witness :
  let s := (medicationTick 0 plainHost 36000000 grantedState).1.1 in
  "m1" ∈ notifiedIds s /\
  ("m1" ∉ shownMedications
            (run 0 plainHost
               [EvToggleMedication "m1"; EvToggleMedication "m1";
                EvMedicationTick 36030000; EvDeleteMedication "m1";
                EvAddMedication "m1" "Aspirina" "" "09:00";
                EvMedicationTick 36060000] s).2).
Proof.
  cbn zeta.
  assert ("m1" ∈ notifiedIds (medicationTick 0 plainHost 36000000 grantedState).1.1)
    as H by (apply (bool_decide_unpack _); vm_compute; exact I).
  split; [exact H|].
  apply (notified_silent 0 plainHost "m1"
           [EvToggleMedication "m1"; EvToggleMedication "m1";
            EvMedicationTick 36030000; EvDeleteMedication "m1";
            EvAddMedication "m1" "Aspirina" "" "09:00";
            EvMedicationTick 36060000] _ H eq_refl).
Defined.

(** ** Arming the loops *)


